(** * Sheet views, overlays, stacks and their renderers

    A shallow embedding of the view containers of [imagen/views.py], the
    hue-confidence-strength operation of [dataviews/transform.py] and the
    frame-update, channel-reduction, annotation, table and layout code of
    [dataviews/plots.py].

    Conventions of the embedding:
    - Python [float]s are idealised as exact rationals ([Q]); two floats
      compare equal ([==] in Python) when the rationals are [Qeq].
    - A Python call that can raise returns a [result]; the exception class
      is kept, the message is kept where the source gives one.
    - Attribute validation done by the [param] framework is not modelled. *)

From Stdlib Require Import QArith Qabs Qround ZArith List Ascii String Bool Lia Lqa.
From stdpp Require Import gmap strings list fin_maps.

(** ** Part I: the embedding *)

(** *** Python values, exceptions and sequence indexing *)

Module Py.

Inductive exn :=
| ZeroDivisionError
| IndexError (msg : string)
| ValueError
| OverflowError
| TypeError (msg : string)
| KeyError (key : string)
| AttributeError
| AssertionError (msg : string)
| Exception (msg : string)
| NotImplementedError.

Inductive result (A : Type) :=
| Ok (a : A)
| Raise (e : exn).
Arguments Ok {A} a.
Arguments Raise {A} e.

Definition bind {A B} (m : result A) (k : A -> result B) : result B :=
  match m with
  | Ok a => k a
  | Raise e => Raise e
  end.

(** Run [f] over a list from left to right, stopping at the first raise. *)
Fixpoint mapM {A B} (f : A -> result B) (l : list A) : result (list B) :=
  match l with
  | [] => Ok []
  | x :: rest =>
      match f x with
      | Raise e => Raise e
      | Ok y => match mapM f rest with
                | Raise e => Raise e
                | Ok ys => Ok (y :: ys)
                end
      end
  end.

(** [a / b] on floats. *)
Definition div (a b : Q) : result Q :=
  if Qeq_bool b 0 then Raise ZeroDivisionError else Ok (a / b)%Q.

(** The builtins [max(a, b)] and [min(a, b)]: the first argument wins ties. *)
Definition max (a b : Q) : Q := if Qle_bool b a then a else b.
Definition min (a b : Q) : Q := if Qle_bool a b then a else b.

(** [seq[i]] for an integer [i]: negative indices count from the end. *)
Definition index {A} (l : list A) (i : Z) : result A :=
  let n := Z.of_nat (length l) in
  let j := if (i <? 0)%Z then (i + n)%Z else i in
  if (j <? 0)%Z then Raise (IndexError "list index out of range")
  else match nth_error l (Z.to_nat j) with
       | Some a => Ok a
       | None => Raise (IndexError "list index out of range")
       end.

(** One bound of [seq[lo:hi]] on a sequence of length [n]. *)
Definition clamp_bound (n : nat) (i : Z) : nat :=
  let n' := Z.of_nat n in
  let j := if (i <? 0)%Z then (i + n')%Z else i in
  if (j <? 0)%Z then 0%nat
  else if (n' <? j)%Z then n else Z.to_nat j.

(** [seq[lo:hi]]: never raises, empty when the bounds cross. *)
Definition slice {A} (l : list A) (lo hi : Z) : list A :=
  let a := clamp_bound (length l) lo in
  let b := clamp_bound (length l) hi in
  firstn (b - a) (skipn a l).

End Py.

Notation "'let*' x ':=' m 'in' k" := (Py.bind m (fun x => k))
  (at level 10, x pattern, m at level 100, k at level 200, only parsing).

(** *** Bounding regions *)

Module BoundingBox.

(** Modelled from the spec: the [boundingregion] module is not part of the
    sources at hand.  A bounding region is a rectangle in continuous
    coordinates (left, bottom, right, top). *)
Record t := mk { left : Q; bottom : Q; right : Q; top : Q }.

Definition lbrt (bb : t) : Q * Q * Q * Q :=
  (left bb, bottom bb, right bb, top bb).

(** Modelled from the spec: [BoundingBox(points=((x0,y0),(x1,y1)))] is the
    rectangle spanned by two corner points. *)
Definition of_points (p0 p1 : Q * Q) : t :=
  {| left := Py.min (fst p0) (fst p1);
     bottom := Py.min (snd p0) (snd p1);
     right := Py.max (fst p0) (fst p1);
     top := Py.max (snd p0) (snd p1) |}.

(** Tuple comparison [a.lbrt() == b.lbrt()]. *)
Definition lbrt_eqb (a b : t) : bool :=
  Qeq_bool (left a) (left b) && Qeq_bool (bottom a) (bottom b)
  && Qeq_bool (right a) (right b) && Qeq_bool (top a) (top b).

(** Modelled from the spec: [bounds.contains(x, y)], borders included. *)
Definition contains (bb : t) (x y : Q) : bool :=
  Qle_bool (left bb) x && Qle_bool x (right bb)
  && Qle_bool (bottom bb) y && Qle_bool y (top bb).

(** The non-degeneracy invariant of the data model: r > l and t > b. *)
Definition nondegenerate (bb : t) : Prop :=
  (left bb < right bb)%Q /\ (bottom bb < top bb)%Q.

Definition same (a b : t) : Prop :=
  (left a == left b)%Q /\ (bottom a == bottom b)%Q
  /\ (right a == right b)%Q /\ (top a == top b)%Q.

End BoundingBox.

(** *** NumPy floating-point cells

    Array arithmetic never raises: a division by zero leaves an infinity
    or a not-a-number in the array.  Rounding is not modelled. *)

Module npfloat.

Inductive t :=
| Fin (q : Q)
| Inf (negative : bool)
| NaN.

Definition sign (q : Q) : comparison := (q ?= 0)%Q.

Definition opp (a : t) : t :=
  match a with
  | Fin q => Fin (- q)
  | Inf s => Inf (negb s)
  | NaN => NaN
  end.

Definition add (a b : t) : t :=
  match a, b with
  | NaN, _ | _, NaN => NaN
  | Fin x, Fin y => Fin (x + y)
  | Inf s, Fin _ | Fin _, Inf s => Inf s
  | Inf s, Inf s' => if Bool.eqb s s' then Inf s else NaN
  end.

Definition sub (a b : t) : t := add a (opp b).

Definition mul (a b : t) : t :=
  match a, b with
  | NaN, _ | _, NaN => NaN
  | Fin x, Fin y => Fin (x * y)
  | Inf s, Fin y | Fin y, Inf s =>
      match sign y with
      | Eq => NaN
      | Gt => Inf s
      | Lt => Inf (negb s)
      end
  | Inf s, Inf s' => Inf (xorb s s')
  end.

Definition div (a b : t) : t :=
  match a, b with
  | NaN, _ | _, NaN => NaN
  | Fin x, Fin y =>
      match sign y with
      | Eq => match sign x with
              | Eq => NaN
              | Gt => Inf false
              | Lt => Inf true
              end
      | _ => Fin (x / y)
      end
  | Fin _, Inf _ => Fin 0
  | Inf s, Fin y => match sign y with Lt => Inf (negb s) | _ => Inf s end
  | Inf _, Inf _ => NaN
  end.

(** [a <= b]; false as soon as one side is not a number. *)
Definition leb (a b : t) : bool :=
  match a, b with
  | NaN, _ | _, NaN => false
  | Fin x, Fin y => Qle_bool x y
  | Inf true, _ => true
  | _, Inf false => true
  | _, _ => false
  end.

(** [np.maximum] and [np.minimum]: a not-a-number wins. *)
Definition maximum (a b : t) : t :=
  match a, b with
  | NaN, _ | _, NaN => NaN
  | _, _ => if leb b a then a else b
  end.

Definition minimum (a b : t) : t :=
  match a, b with
  | NaN, _ | _, NaN => NaN
  | _, _ => if leb a b then a else b
  end.

(** [x.clip(lo, hi)] *)
Definition clip (lo hi : Q) (a : t) : t :=
  minimum (maximum a (Fin lo)) (Fin hi).

(** [abs(x)] *)
Definition abs (a : t) : t :=
  match a with
  | Fin q => Fin (Qabs q)
  | Inf _ => Inf false
  | NaN => NaN
  end.

(** [a == b] on floats. *)
Definition eqb (a b : t) : bool :=
  match a, b with
  | Fin x, Fin y => Qeq_bool x y
  | Inf s, Inf s' => Bool.eqb s s'
  | _, _ => false
  end.

End npfloat.

(** *** NumPy arrays of rank two *)

Module ndarray.

(** A rank-two array: its rows, and the length of every row (kept apart so
    that an array with no rows still has a column count). *)
Record t := mk { cells : list (list npfloat.t); width : nat }.

Definition shape (a : t) : nat * nat := (length (cells a), width a).

Definition shape_eqb (a b : t) : bool :=
  Nat.eqb (length (cells a)) (length (cells b)) && Nat.eqb (width a) (width b).

Definition wf (a : t) : Prop :=
  Forall (fun row => length row = width a) (cells a).

(** [np.array(rows)] for a rectangular nested list. *)
Definition of_rows (rows : list (list npfloat.t)) : t :=
  {| cells := rows; width := match rows with [] => 0 | r :: _ => length r end |}.

(** [np.ones(shape)] *)
Definition ones (sh : nat * nat) : t :=
  {| cells := repeat (repeat (npfloat.Fin 1) (snd sh)) (fst sh); width := snd sh |}.

(** [a[r0:r1, c0:c1]] *)
Definition submatrix (a : t) (r0 r1 c0 c1 : Z) : t :=
  {| cells := map (fun row => Py.slice row c0 c1) (Py.slice (cells a) r0 r1);
     width := Py.clamp_bound (width a) c1 - Py.clamp_bound (width a) c0 |}.

(** Apply [f] to every cell. *)
Definition map_cells (f : npfloat.t -> npfloat.t) (a : t) : t :=
  {| cells := map (map f) (cells a); width := width a |}.

Definition flat (a : t) : list npfloat.t := concat (cells a).

(** [a.max()] and [a.min()]: an empty array has no extremum. *)
Definition max (a : t) : Py.result npfloat.t :=
  match flat a with
  | [] => Py.Raise Py.ValueError
  | x :: xs => Py.Ok (fold_left npfloat.maximum xs x)
  end.

Definition min (a : t) : Py.result npfloat.t :=
  match flat a with
  | [] => Py.Raise Py.ValueError
  | x :: xs => Py.Ok (fold_left npfloat.minimum xs x)
  end.

End ndarray.

(** *** imagen/views.py: layers *)

Abbreviation AttrDict := (gmap string string).

Module SheetLayer.

(** The declared attributes shared by all layers. *)
Record attrs := mk_attrs {
  bounds : BoundingBox.t;
  roi_bounds : BoundingBox.t;
  title : option string;
  style : AttrDict;
  metadata : AttrDict
}.

(** Keyword arguments of the constructors; [None] is an omitted keyword. *)
Record kwargs := mk_kwargs {
  kw_roi_bounds : option BoundingBox.t;
  kw_title : option string;
  kw_style : option AttrDict;
  kw_metadata : option AttrDict;
  kw_cyclic_range : option Q
}.

Definition no_kwargs : kwargs :=
  {| kw_roi_bounds := None; kw_title := None; kw_style := None;
     kw_metadata := None; kw_cyclic_range := None |}.

(** [SheetLayer.__init__]: the region of interest defaults to the bounds. *)
Definition __init__ (bnds : BoundingBox.t) (kw : kwargs) : attrs :=
  {| bounds := bnds;
     roi_bounds := match kw_roi_bounds kw with None => bnds | Some roi => roi end;
     title := kw_title kw;
     style := default ∅ (kw_style kw);
     metadata := default ∅ (kw_metadata kw) |}.

(** The assignment [self.bounds = bounds]. *)
Definition set_bounds (a : attrs) (bnds : BoundingBox.t) : attrs :=
  {| bounds := bnds; roi_bounds := roi_bounds a; title := title a;
     style := style a; metadata := metadata a |}.

End SheetLayer.

(** Modelled from the spec: the [sheetcoords] module is not part of the
    sources at hand.  The coordinate system keeps bounds and two densities
    (those it is given or, without a vertical density, equalised ones) and
    converts between continuous sheet coordinates and matrix indices: rows
    grow downwards from the top edge, columns grow rightwards from the left
    edge, at [ydensity] rows and [xdensity] columns per unit. *)
Module SheetCoordinateSystem.

Record t := mk { bounds : BoundingBox.t; xdensity : Q; ydensity : Q }.

Definition sheet2matrix (scs : t) (x y : Q) : Q * Q :=
  ((BoundingBox.top (bounds scs) - y) * ydensity scs,
   (x - BoundingBox.left (bounds scs)) * xdensity scs)%Q.

(** Point to index conversion, rounding down. *)
Definition sheet2matrixidx (scs : t) (x y : Q) : Z * Z :=
  let '(r, c) := sheet2matrix scs x y in (Qfloor r, Qfloor c).

(** Modelled from the spec: [Slice(bounds, scs)], the index ranges of the
    cells whose centres lie in the region, as (r0, r1, c0, c1). *)
Definition Slice (region : BoundingBox.t) (scs : t) : Z * Z * Z * Z :=
  let '(l, b, r, t) := BoundingBox.lbrt region in
  let '(t_m, l_m) := sheet2matrix scs l t in
  let '(b_m, r_m) := sheet2matrix scs r b in
  (Qceiling (t_m - (1 # 2)), Qfloor (b_m + (1 # 2)),
   Qceiling (l_m - (1 # 2)), Qfloor (r_m + (1 # 2))).

(** [slice.submatrix(matrix)] *)
Definition submatrix (sl : Z * Z * Z * Z) (m : ndarray.t) : ndarray.t :=
  let '(r0, r1, c0, c1) := sl in ndarray.submatrix m r0 r1 c0 c1.

(** Modelled from the spec: index to point conversion (cell centre). *)
Definition matrixidx2sheet (scs : t) (row col : Z) : Py.result (Q * Q) :=
  let* dx := Py.div (inject_Z col + (1 # 2)) (xdensity scs) in
  let* dy := Py.div (inject_Z row + (1 # 2)) (ydensity scs) in
  Py.Ok (BoundingBox.left (bounds scs) + dx, BoundingBox.top (bounds scs) - dy)%Q.

Definition closest_cell_center (scs : t) (x y : Q) : Py.result (Q * Q) :=
  let '(r, c) := sheet2matrixidx scs x y in matrixidx2sheet scs r c.

(** The builtin [int(x)] on a float: truncation towards zero. *)
Definition int (q : Q) : Z :=
  if Qle_bool 0 q then Qfloor q else Qceiling q.

(** The builtin [round(x, 0)] of Python 2: halves go away from zero. *)
Definition round (q : Q) : Q :=
  inject_Z (if Qle_bool 0 q then Qfloor (q + (1 # 2)) else Qceiling (q - (1 # 2))).

(** Modelled from the spec: [__equalize_densities(nominal_bounds,
    nominal_density)], used when no vertical density is given.  The
    horizontal density is lowered to a whole number of columns and the
    height is adjusted, around the same centre, to a whole number of rows
    of the same size. *)
Definition equalize_densities (nominal_bounds : BoundingBox.t)
    (nominal_density : Q) : Py.result (BoundingBox.t * Q) :=
  let '(l, b, r, t) := BoundingBox.lbrt nominal_bounds in
  let width := (r - l)%Q in
  let height := (t - b)%Q in
  let center_y := (b + height / 2)%Q in
  let* true_density := Py.div (inject_Z (int (nominal_density * width))) width in
  let n_cells := round (height * true_density) in
  let* full_height := Py.div n_cells true_density in
  let adjusted_half_height := (full_height / 2)%Q in
  Py.Ok (BoundingBox.of_points (l, center_y - adjusted_half_height)%Q
                               (r, center_y + adjusted_half_height)%Q,
         true_density).

(** Modelled from the spec: [SheetCoordinateSystem.__init__(self, bounds,
    xdensity, ydensity)].  A vertical density of zero counts as omitted
    ([if not ydensity]) and the densities are equalised; setting a density
    computes the size of a cell, [1.0 / density], which raises on zero. *)
Definition __init__ (bnds : BoundingBox.t) (xdensity ydensity : Q) : Py.result t :=
  let* (bnds, xdensity) :=
    (if Qeq_bool ydensity 0 then equalize_densities bnds xdensity
     else Py.Ok (bnds, xdensity)) in
  let* xstep := Py.div 1 xdensity in
  let ydensity := if Qeq_bool ydensity 0 then xdensity else ydensity in
  let* ystep := Py.div 1 ydensity in
  Py.Ok {| bounds := bnds; xdensity := xdensity; ydensity := ydensity |}.

(** Modelled from the spec: the [shape] property, the extent (rows, columns)
    of the slice that covers the whole bounds.  The constructor computes it
    once from the bounds and densities it has just stored; it is computed
    from the same fields here. *)
Definition shape (scs : t) : Z * Z :=
  let '(r1, r2, c1, c2) := Slice (bounds scs) scs in
  ((r2 - r1)%Z, (c2 - c1)%Z).

End SheetCoordinateSystem.

Module SheetView.

Record t := mk {
  data : ndarray.t;
  attrs : SheetLayer.attrs;
  cyclic_range : option Q;
  scs : SheetCoordinateSystem.t
}.

Definition bounds (v : t) : BoundingBox.t := SheetLayer.bounds (attrs v).
Definition roi_bounds (v : t) : BoundingBox.t := SheetLayer.roi_bounds (attrs v).
Definition style (v : t) : AttrDict := SheetLayer.style (attrs v).
Definition metadata (v : t) : AttrDict := SheetLayer.metadata (attrs v).
Definition xdensity (v : t) : Q := SheetCoordinateSystem.xdensity (scs v).
Definition ydensity (v : t) : Q := SheetCoordinateSystem.ydensity (scs v).

(** [SheetView.__init__(self, data, bounds, **kwargs)].  Both parent
    constructors assign [self.bounds]; the coordinate system's assignment is
    the later one. *)
Definition __init__ (data : option ndarray.t) (bnds : BoundingBox.t)
    (kw : SheetLayer.kwargs) : Py.result t :=
  let data := match data with
              | None => ndarray.of_rows [[npfloat.Fin 0]]
              | Some d => d
              end in
  let '(l, b, r, t) := BoundingBox.lbrt bnds in
  let '(dim1, dim2) := ndarray.shape data in
  let* xdensity := Py.div (inject_Z (Z.of_nat dim1)) (r - l) in
  let* ydensity := Py.div (inject_Z (Z.of_nat dim2)) (t - b) in
  let layer := SheetLayer.__init__ bnds kw in
  let* scs := SheetCoordinateSystem.__init__ bnds xdensity ydensity in
  Py.Ok {| data := data;
           attrs := SheetLayer.set_bounds layer (SheetCoordinateSystem.bounds scs);
           cyclic_range := SheetLayer.kw_cyclic_range kw;
           scs := scs |}.

(** [self.shape], inherited from the coordinate system: not the shape of
    [self.data]. *)
Definition shape (v : t) : Z * Z := SheetCoordinateSystem.shape (scs v).

(** What a view can be indexed with. *)
Inductive coord :=
| Num (q : Q)
| Slc (start stop : option Q).

Inductive coords :=
| Tuple (els : list coord)
| BareSlice (start stop step : option Q).

Definition is_slice (c : coord) : bool :=
  match c with Slc _ _ => true | Num _ => false end.

Inductive item :=
| Sub (v : t)
| Sample (x : npfloat.t).

(** [SheetView.__getitem__(self, coords)] *)
Definition __getitem__ (self : t) (cs : coords) : Py.result item :=
  match cs with
  | Tuple [] => Py.Ok (Sub self)
  | BareSlice None None None => Py.Ok (Sub self)
  | BareSlice _ _ _ => Py.Raise (Py.TypeError "'slice' object is not iterable")
  | Tuple els =>
      if negb (existsb is_slice els) then
        match els with
        | [Num x; Num y] =>
            let '(r, c) := SheetCoordinateSystem.sheet2matrixidx (scs self) x y in
            let* row := Py.index (ndarray.cells (data self)) r in
            let* cell := Py.index row c in
            Py.Ok (Sample cell)
        | _ => Py.Raise (Py.TypeError "sheet2matrixidx() takes exactly 3 arguments")
        end
      else if forallb is_slice els then
        match els with
        | [Slc xstart_ xstop_; Slc ystart_ ystop_] =>
            let '(l, b, r, t) := BoundingBox.lbrt (bounds self) in
            let xstart := match xstart_ with None => l | Some s => Py.max l s end in
            let xend := match xstop_ with None => r | Some s => Py.min r s end in
            let ystart := match ystart_ with None => b | Some s => Py.max b s end in
            let yend := match ystop_ with None => t | Some s => Py.min t s end in
            let bnds := BoundingBox.of_points (xstart, ystart) (xend, yend) in
            let sub := SheetCoordinateSystem.submatrix
                         (SheetCoordinateSystem.Slice bnds (scs self)) (data self) in
            let* v := __init__ (Some sub) bnds
                        {| SheetLayer.kw_roi_bounds := None;
                           SheetLayer.kw_title := None;
                           SheetLayer.kw_style := Some (style self);
                           SheetLayer.kw_metadata := Some (metadata self);
                           SheetLayer.kw_cyclic_range := cyclic_range self |} in
            Py.Ok (Sub v)
        | _ => Py.Raise Py.ValueError
        end
      else Py.Raise (Py.IndexError "Indexing requires x- and y-slice ranges.")
  end.

(** [SheetView.normalize(self, min, max, norm_factor)] *)
Definition normalize (self : t) (min max : Q) (norm_factor : option Q)
    : Py.result t :=
  let norm_factor := match norm_factor with
                     | None => cyclic_range self
                     | Some f => Some f
                     end in
  let* (nf, min, max) :=
    match norm_factor with
    | None =>
        let* dmax := ndarray.max (data self) in
        let* dmin := ndarray.min (data self) in
        Py.Ok (npfloat.sub dmax dmin, min, max)
    | Some f => Py.Ok (npfloat.Fin f, 0, 1)%Q
    end in
  let* dmin := ndarray.min (data self) in
  let norm_data :=
    ndarray.map_cells
      (fun x => npfloat.add
                  (npfloat.mul (npfloat.div (npfloat.sub x dmin) nf)
                               (npfloat.Fin (Qabs (max - min))))
                  (npfloat.Fin min))
      (data self) in
  __init__ (Some norm_data) (bounds self)
       {| SheetLayer.kw_roi_bounds := Some (roi_bounds self);
          SheetLayer.kw_title := None;
          SheetLayer.kw_style := Some (style self);
          SheetLayer.kw_metadata := Some (metadata self);
          SheetLayer.kw_cyclic_range := cyclic_range self |}.

(** The property [N]. *)
Definition N (self : t) : Py.result t := normalize self 0 1 None.

End SheetView.

(** Any layer: the concrete subclasses of [SheetLayer]. *)
#[warnings="-register-all"]
Inductive layer :=
| View (v : SheetView.t)
| Points (d : list (Q * Q)) (a : SheetLayer.attrs)
| Contours (d : list (list (Q * Q))) (a : SheetLayer.attrs)
| Overlay (d : list layer) (a : SheetLayer.attrs).

(** [type(layer)] *)
Inductive layer_class := SheetViewC | SheetPointsC | SheetContoursC | SheetOverlayC.

Definition class_eqb (a b : layer_class) : bool :=
  match a, b with
  | SheetViewC, SheetViewC | SheetPointsC, SheetPointsC
  | SheetContoursC, SheetContoursC | SheetOverlayC, SheetOverlayC => true
  | _, _ => false
  end.

Definition class_of (x : layer) : layer_class :=
  match x with
  | View _ => SheetViewC
  | Points _ _ => SheetPointsC
  | Contours _ _ => SheetContoursC
  | Overlay _ _ => SheetOverlayC
  end.

Definition layer_attrs (x : layer) : SheetLayer.attrs :=
  match x with
  | View v => SheetView.attrs v
  | Points _ a | Contours _ a | Overlay _ a => a
  end.

Definition layer_bounds (x : layer) : BoundingBox.t :=
  SheetLayer.bounds (layer_attrs x).

Module SheetOverlay.

Record t := mk { data : list layer; attrs : SheetLayer.attrs }.

Definition bounds (o : t) : BoundingBox.t := SheetLayer.bounds (attrs o).

Definition mismatch : Py.exn :=
  Py.Exception "Layer must have same bounds as SheetOverlay".

(** [SheetOverlay.add(self, layer)] *)
Definition add (self : t) (x : layer) : Py.result t :=
  if negb (BoundingBox.lbrt_eqb (layer_bounds x) (bounds self)) then
    Py.Raise mismatch
  else Py.Ok {| data := data self ++ [x]; attrs := attrs self |}.

(** The loop of [SheetOverlay.set]. *)
Fixpoint add_all (self : t) (layers : list layer) : Py.result t :=
  match layers with
  | [] => Py.Ok self
  | x :: rest => let* self' := add self x in add_all self' rest
  end.

(** [SheetOverlay.set(self, layers)] *)
Definition set (self : t) (layers : list layer) : Py.result t :=
  add_all {| data := []; attrs := attrs self |} layers.

(** [SheetOverlay.__init__(self, overlays, bounds, **kwargs)] *)
Definition __init__ (overlays : list layer) (bnds : BoundingBox.t)
    (kw : SheetLayer.kwargs) : Py.result t :=
  set {| data := []; attrs := SheetLayer.__init__ bnds kw |} overlays.

Definition __getitem__ (self : t) (ind : Z) : Py.result layer :=
  Py.index (data self) ind.

Definition __len__ (self : t) : nat := length (data self).

End SheetOverlay.

(** Modelled from the spec: the [ndmapping] module is not part of the
    sources at hand.  An [NdMapping] is an ordered mapping from a
    tuple-valued key (one component per declared dimension) to its values;
    it refuses a value that is not an instance of its declared data type
    and a key of the wrong length. *)
Module NdMapping.

Section Mapping.
Context {K V : Type}.
Variable key_eqb : K -> K -> bool.
Variable key_ltb : K -> K -> bool.

(** Replace the value under an existing key, or insert in key order. *)
Fixpoint update_item (k : K) (v : V) (items : list (K * V)) : list (K * V) :=
  match items with
  | [] => [(k, v)]
  | (k', v') :: rest =>
      if key_eqb k k' then (k, v) :: rest
      else if key_ltb k k' then (k, v) :: (k', v') :: rest
      else (k', v') :: update_item k v rest
  end.

Definition values (items : list (K * V)) : list V := map snd items.
Definition keys (items : list (K * V)) : list K := map fst items.

(** The entry on top of the mapping, if any. *)
Definition top (items : list (K * V)) : option V := last (values items).

End Mapping.

(** Keys of the stacks: tuples of integers, compared as tuples. *)
Fixpoint tuple_eqb (a b : list Z) : bool :=
  match a, b with
  | [], [] => true
  | x :: a', y :: b' => (x =? y)%Z && tuple_eqb a' b'
  | _, _ => false
  end.

Fixpoint tuple_ltb (a b : list Z) : bool :=
  match a, b with
  | [], _ :: _ => true
  | x :: a', y :: b' => (x <? y)%Z || ((x =? y)%Z && tuple_ltb a' b')
  | _, _ => false
  end.

End NdMapping.

Module SheetStack.

Record t := mk {
  bounds : option BoundingBox.t;
  (** the declared [data_type]: [None] stands for the base class
      [SheetLayer], of which every layer is an instance *)
  data_type : option layer_class;
  ndims : nat;
  items : list (list Z * layer)
}.

Definition set_bounds (self : t) (b : option BoundingBox.t) : t :=
  {| bounds := b; data_type := data_type self; ndims := ndims self;
     items := items self |}.

Definition set_items (self : t) (its : list (list Z * layer)) : t :=
  {| bounds := bounds self; data_type := data_type self; ndims := ndims self;
     items := its |}.

Definition top (self : t) : option layer := NdMapping.top (items self).

(** The property [type]: the type of the elements stored in the stack. *)
Definition type (self : t) : option layer_class :=
  if Nat.eqb (length (items self)) 0 then None
  else option_map class_of (top self).

(** Modelled from the spec: [NdMapping._item_check]. *)
Definition super_item_check (self : t) (dim_vals : list Z) (x : layer)
    : Py.result unit :=
  match data_type self with
  | Some c =>
      if class_eqb (class_of x) c then
        if Nat.eqb (length dim_vals) (ndims self) then Py.Ok tt
        else Py.Raise (Py.KeyError "Key has to match number of dimensions.")
      else Py.Raise (Py.TypeError "unexpected data type")
  | None =>
      if Nat.eqb (length dim_vals) (ndims self) then Py.Ok tt
      else Py.Raise (Py.KeyError "Key has to match number of dimensions.")
  end.

(** [SheetStack._item_check(self, dim_vals, data)].  The assignment to
    [self.bounds] survives a later [raise], so the stack is returned next
    to the outcome. *)
Definition _item_check (self : t) (dim_vals : list Z) (x : layer)
    : t * Py.result unit :=
  let sb := match bounds self with
            | None => layer_bounds x
            | Some b => b
            end in
  let self := set_bounds self (Some sb) in
  if negb (BoundingBox.lbrt_eqb (layer_bounds x) sb) then
    (self, Py.Raise (Py.AssertionError
                       "All SheetLayer elements must have matching bounds."))
  else
    match type self with
    | Some ty =>
        if negb (class_eqb (class_of x) ty) then
          (self, Py.Raise (Py.AssertionError
                             "SheetStack must only contain one type of SheetLayer."))
        else (self, super_item_check self dim_vals x)
    | None => (self, super_item_check self dim_vals x)
    end.

(** Modelled from the spec: [NdMapping._add_item], which checks the item
    and then stores it under its key. *)
Definition _add_item (self : t) (dim_vals : list Z) (x : layer)
    : t * Py.result unit :=
  match _item_check self dim_vals x with
  | (self', Py.Ok _) =>
      (set_items self'
         (NdMapping.update_item NdMapping.tuple_eqb NdMapping.tuple_ltb
            dim_vals x (items self')),
       Py.Ok tt)
  | (self', Py.Raise e) => (self', Py.Raise e)
  end.

End SheetStack.

Module ProjectionGrid.

Section Grid.
(** The values held by the grid (other mappings, projections). *)
Context {V : Type}.

Record t := mk {
  scs : SheetCoordinateSystem.t;
  (** the declared data type, as its instance test; [None] when the
      mapping accepts any value *)
  data_type : option (V -> bool);
  items : list (Q * Q * V);
  (** messages sent to [self.warning] so far *)
  warnings : list string
}.

Definition bounds (self : t) : BoundingBox.t := SheetCoordinateSystem.bounds (scs self).

Definition warning (self : t) (msg : string) : t :=
  {| scs := scs self; data_type := data_type self; items := items self;
     warnings := warnings self ++ [msg] |}.

Definition set_items (self : t) (its : list (Q * Q * V)) : t :=
  {| scs := scs self; data_type := data_type self; items := its;
     warnings := warnings self |}.

(** [ProjectionGrid.__init__(self, bounds, shape)], without initial items. *)
Definition __init__ (bnds : BoundingBox.t) (shape : nat * nat)
    (dt : option (V -> bool)) : Py.result t :=
  let '(l, b, r, t) := BoundingBox.lbrt bnds in
  let '(dim1, dim2) := shape in
  let* xdensity := Py.div (inject_Z (Z.of_nat dim1)) (r - l) in
  let* ydensity := Py.div (inject_Z (Z.of_nat dim2)) (t - b) in
  let* scs := SheetCoordinateSystem.__init__ bnds xdensity ydensity in
  Py.Ok {| scs := scs; data_type := dt; items := []; warnings := [] |}.

(** Modelled from the spec: [NdMapping._item_check] on a two-dimensional key. *)
Definition _item_check (self : t) (coords : Q * Q) (data : V) : Py.result unit :=
  match data_type self with
  | Some isinstance =>
      if isinstance data then Py.Ok tt
      else Py.Raise (Py.TypeError "unexpected data type")
  | None => Py.Ok tt
  end.

(** [ProjectionGrid._transform_value(self, val, dim)] *)
Definition _transform_value (self : t) (val : Q) (dim : bool) : Py.result Q :=
  let* centre := (if dim
                  then SheetCoordinateSystem.closest_cell_center (scs self) 0 val
                  else SheetCoordinateSystem.closest_cell_center (scs self) val 0) in
  Py.Ok (if dim then snd centre else fst centre).

(** [ProjectionGrid._transform_indices(self, coords)] for a pair of
    coordinate values. *)
Definition _transform_indices (self : t) (coords : Q * Q) : Py.result (Q * Q) :=
  let* x := _transform_value self (fst coords) false in
  let* y := _transform_value self (snd coords) true in
  Py.Ok (x, y).

Definition key_eqb (a b : Q * Q) : bool :=
  Qeq_bool (fst a) (fst b) && Qeq_bool (snd a) (snd b).

Definition key_ltb (a b : Q * Q) : bool :=
  negb (Qle_bool (fst b) (fst a))
  || (Qeq_bool (fst a) (fst b) && negb (Qle_bool (snd b) (snd a))).

(** Without sorting: replace under an existing key or append. *)
Definition store_unsorted (k : Q * Q) (v : V) (its : list (Q * Q * V))
    : list (Q * Q * V) :=
  if existsb (fun kv => key_eqb k (fst kv)) its
  then map (fun kv => if key_eqb k (fst kv) then (k, v) else kv) its
  else its ++ [(k, v)].

(** Modelled from the spec: [NdMapping._add_item]. *)
Definition super_add_item (self : t) (coords : Q * Q) (data : V) (sort : bool)
    : t * Py.result unit :=
  match _item_check self coords data with
  | Py.Ok _ =>
      (set_items self
         (if sort then NdMapping.update_item key_eqb key_ltb coords data (items self)
          else store_unsorted coords data (items self)),
       Py.Ok tt)
  | Py.Raise e => (self, Py.Raise e)
  end.

Definition outside_msg : string :=
  "Specified coordinate is outside grid bounds, data could not be added".

(** [ProjectionGrid._add_item(self, coords, data, sort=True)] *)
Definition _add_item (self : t) (coords : Q * Q) (data : V) (sort : bool)
    : t * Py.result unit :=
  let self := if negb (BoundingBox.contains (bounds self) (fst coords) (snd coords))
              then warning self outside_msg
              else self in
  match _item_check self coords data with
  | Py.Raise e => (self, Py.Raise e)
  | Py.Ok _ =>
      match _transform_indices self coords with
      | Py.Raise e => (self, Py.Raise e)
      | Py.Ok coords' => super_add_item self coords' data sort
      end
  end.

End Grid.
Arguments t V : clear implicits.

End ProjectionGrid.

(** *** dataviews/transform.py: hue, confidence, strength *)

(** The standard library function [colorsys.hsv_to_rgb], on floats. *)
Module colorsys.

(** [int(x)]: truncation towards zero. *)
Definition int (x : npfloat.t) : Py.result Z :=
  match x with
  | npfloat.Fin q => Py.Ok (if Qle_bool 0 q then Qfloor q else Qceiling q)
  | npfloat.Inf _ => Py.Raise Py.OverflowError
  | npfloat.NaN => Py.Raise Py.ValueError
  end.

Definition rgb : Type := npfloat.t * npfloat.t * npfloat.t.

Definition hsv_to_rgb (h s v : npfloat.t) : Py.result rgb :=
  if npfloat.eqb s (npfloat.Fin 0) then Py.Ok (v, v, v)
  else
    let h6 := npfloat.mul h (npfloat.Fin 6) in
    let* i := int h6 in
    let one := npfloat.Fin 1 in
    let f := npfloat.sub h6 (npfloat.Fin (inject_Z i)) in
    let p := npfloat.mul v (npfloat.sub one s) in
    let q := npfloat.mul v (npfloat.sub one (npfloat.mul s f)) in
    let t := npfloat.mul v (npfloat.sub one (npfloat.mul s (npfloat.sub one f))) in
    match (i mod 6)%Z with
    | 0%Z => Py.Ok (v, t, p)
    | 1%Z => Py.Ok (q, v, p)
    | 2%Z => Py.Ok (p, v, t)
    | 3%Z => Py.Ok (p, q, v)
    | 4%Z => Py.Ok (t, p, v)
    | 5%Z => Py.Ok (v, p, q)
    | _ => Py.Raise (Py.TypeError "'NoneType' object is not iterable")
    end.

End colorsys.

Module Transform.

(** A rank-three array of depth 3, as rows of pixels. *)
Record rgb_array := mk_rgb { pixels : list (list colorsys.rgb); rgb_width : nat }.

(** NumPy broadcasting of one axis length against another. *)
Definition broadcast_dim (n m : nat) : Py.result nat :=
  if Nat.eqb n m then Py.Ok n
  else if Nat.eqb n 1 then Py.Ok m
  else if Nat.eqb m 1 then Py.Ok n
  else Py.Raise Py.ValueError.

(** Stretch an axis of length one to length [n]. *)
Definition stretch {A} (n : nat) (l : list A) : list A :=
  match l with
  | [x] => repeat x n
  | _ => l
  end.

Definition broadcast_to (rows cols : nat) (a : ndarray.t) : ndarray.t :=
  {| ndarray.cells := stretch rows (map (stretch cols) (ndarray.cells a));
     ndarray.width := cols |}.

Fixpoint zip3 {A B C D} (f : A -> B -> C -> D)
    (la : list A) (lb : list B) (lc : list C) : list D :=
  match la, lb, lc with
  | a :: la', b :: lb', c :: lc' => f a b c :: zip3 f la' lb' lc'
  | _, _, _ => []
  end.

(** [np.dstack(np.vectorize(colorsys.hsv_to_rgb)(h, s, v))] *)
Definition hsv_to_rgb (h s v : ndarray.t) : Py.result rgb_array :=
  let* rows0 := broadcast_dim (length (ndarray.cells h)) (length (ndarray.cells s)) in
  let* rows := broadcast_dim rows0 (length (ndarray.cells v)) in
  let* cols0 := broadcast_dim (ndarray.width h) (ndarray.width s) in
  let* cols := broadcast_dim cols0 (ndarray.width v) in
  if Nat.eqb (rows * cols) 0 then Py.Raise Py.ValueError
  else
    let h' := broadcast_to rows cols h in
    let s' := broadcast_to rows cols s in
    let v' := broadcast_to rows cols v in
    let* px := Py.mapM (fun row => Py.mapM (fun x => x) row)
                 (zip3 (zip3 colorsys.hsv_to_rgb)
                    (ndarray.cells h') (ndarray.cells s') (ndarray.cells v')) in
    Py.Ok {| pixels := px; rgb_width := cols |}.

(** The layers handed to the operation: a view and its label. *)
Record channel := mk_channel { label : string; view : SheetView.t }.

Record overlay := mk_overlay { layers : list channel; roi_bounds : BoundingBox.t }.

(** The view returned by the operation. *)
Record rgb_view := mk_rgb_view {
  rgb_data : rgb_array;
  rgb_bounds : BoundingBox.t;
  rgb_roi_bounds : BoundingBox.t;
  rgb_label : string
}.

Module HCS.

Record params := mk_params { S_multiplier : Q; C_multiplier : Q; flipSC : bool }.

Definition defaults : params :=
  {| S_multiplier := 1; C_multiplier := 1; flipSC := false |}.

Definition scale_clip (m : Q) (a : ndarray.t) : ndarray.t :=
  ndarray.map_cells (fun x => npfloat.clip 0 1 (npfloat.mul x (npfloat.Fin m))) a.

(** [np.ones(shape)] on a tuple of integers: a negative extent is refused. *)
Definition np_ones (sh : Z * Z) : Py.result ndarray.t :=
  if ((fst sh <? 0) || (snd sh <? 0))%Z then Py.Raise Py.ValueError
  else Py.Ok (ndarray.ones (Z.to_nat (fst sh), Z.to_nat (snd sh))).

(** Tuple comparison [a.shape == b.shape]. *)
Definition shape_eqb (a b : Z * Z) : bool :=
  ((fst a =? fst b) && (snd a =? snd b))%Z.

(** [HCS._process(self, overlay)]; the [shape] of a view is the shape its
    coordinate system holds, which need not be the shape of its data. *)
Definition _process (p : params) (ov : overlay) : Py.result (list rgb_view) :=
  let* hue := Py.index (layers ov) 0 in
  let* confidence := Py.index (layers ov) 1 in
  let* strength_data :=
    (if Nat.eqb (length (layers ov)) 3
     then let* st := Py.index (layers ov) 2 in Py.Ok (SheetView.data (view st))
     else np_ones (SheetView.shape (view hue))) in
  if negb (shape_eqb (SheetView.shape (view hue)) (SheetView.shape (view confidence)))
  then Py.Raise (Py.Exception "Cannot combine plots with different shapes")
  else
    let* hueN := SheetView.N (view hue) in
    let h := ndarray.map_cells (npfloat.clip 0 1) (SheetView.data hueN) in
    let s := scale_clip (C_multiplier p) (SheetView.data (view confidence)) in
    let v := scale_clip (S_multiplier p) strength_data in
    let '(h, s, v) :=
      if flipSC p then (h, v, ndarray.map_cells (npfloat.clip 0 1) s) else (h, s, v) in
    let* rgb := hsv_to_rgb h s v in
    Py.Ok [ {| rgb_data := rgb;
               rgb_bounds := SheetView.bounds (view hue);
               rgb_roi_bounds := roi_bounds ov;
               rgb_label := (label hue ++ " HCS Plot")%string |} ].

End HCS.




(** Every value of the array lies in the closed interval [lo, hi]. *)
Definition within (lo hi : Q) (a : ndarray.t) : Prop :=
  Forall (Forall (fun x => npfloat.leb (npfloat.Fin lo) x = true
                           /\ npfloat.leb x (npfloat.Fin hi) = true))
         (ndarray.cells a).


End Transform.

(** *** dataviews/plots.py: renderers and their frame update *)

Module Plots.

(** The plotting-library objects kept in [self.handles].  Each one is
    changed in place by its setters; [plt.draw()] asks the library to
    repaint and changes none of them, so it is left out. *)
Inductive artist :=
| NoArtist
| Figure
| Text (text : option string)
| AxesImage (data : ndarray.t) (clim : npfloat.t * npfloat.t)
| PathCollection (offsets : list (Q * Q))
| LineCollection (paths : list (list (Q * Q)))
| BarContainer (heights : list Q).

Abbreviation handles := (gmap string artist).

(** [Plot.__init__]: the handle table starts as [{'fig': None}]. *)
Definition new_handles : handles := {[ "fig"%string := NoArtist ]}.

(** The first line of every [update_frame]:
    [n = n if n < len(self) else len(self) - 1]. *)
Definition clamp_frame (len : nat) (n : Z) : Z :=
  if (n <? Z.of_nat len)%Z then n else (Z.of_nat len - 1)%Z.

(** [self.handles['title'].set_text(text)] *)
Definition set_title (h : handles) (text : option string) : Py.result handles :=
  match h !! "title"%string with
  | Some (Text _) => Py.Ok (<["title"%string := Text text]> h)
  | Some _ => Py.Raise Py.AttributeError
  | None => Py.Raise (Py.KeyError "title")
  end.

(** The tail shared by the leaf renderers:
    [if self.show_title and self.zorder == 0: ... set_text(view.title)]. *)
Definition refresh_title (show_title : bool) (zorder : Z) (h : handles)
    (text : option string) : Py.result handles :=
  if show_title && (zorder =? 0)%Z then set_title h text else Py.Ok h.

(** The part of [Plot._axis] that touches the handles, for [axis = None]:
    a new figure, and the title when it is shown. *)
Definition axis_handles (show_title : bool) (h : handles) (title : option string)
    : handles :=
  let h := <["fig"%string := Figure]> h in
  if show_title
  then <["title"%string := Text (Some (default ""%string title))]> h
  else h.

(** The fields of a renderer of array views.  [_check_stack] lets only a
    stack of array views in, so the entries are typed as such. *)
Record SheetViewPlot := mk_view_plot {
  sv_stack : list (list Z * SheetView.t);
  sv_zorder : Z;
  sv_show_title : bool;
  normalize_individually : bool;
  sv_handles : handles
}.

Definition points_view : Type := list (Q * Q) * SheetLayer.attrs.
Definition lines_view : Type := list (list (Q * Q)) * SheetLayer.attrs.

Record SheetPointsPlot := mk_points_plot {
  pt_stack : list (list Z * points_view);
  pt_zorder : Z;
  pt_show_title : bool;
  pt_handles : handles
}.

Record SheetLinesPlot := mk_lines_plot {
  ln_stack : list (list Z * lines_view);
  ln_zorder : Z;
  ln_show_title : bool;
  ln_handles : handles
}.

(** A renderer over a stack: one of the three renderers of sheet layers;
    an overlay renderer ([SheetPlot], and [DataPlot] alike) with one child
    renderer per layer; or one of the remaining renderers
    ([AnnotationPlot], [DataCurvePlot], [TablePlot], [DataHistogramPlot]),
    whose views belong to modules that are not part of the sources at hand:
    such a renderer is given by its state, the entries of its stack as read
    from the state, and what its [update_frame] does with the entry it has
    looked up. *)
#[warnings="-register-all"]
Inductive plot :=
| OfViews (p : SheetViewPlot)
| OfPoints (p : SheetPointsPlot)
| OfLines (p : SheetLinesPlot)
| OfOverlays (stack : list (list Z * SheetOverlay.t)) (plots : list plot)
| Other {E S : Type} (entries : S -> list E) (body : E -> S -> Py.result S)
    (state : S).

(** One of the remaining renderers, as an instance of [Other]: the
    renderer of histograms.  A histogram view is known here by what the
    renderer reads from it. *)
Record DataHistogram := mk_histogram {
  hist : list Q;
  ndims : nat;
  hist_title : option string
}.

Record DataHistogramPlot := mk_histogram_plot {
  dh_stack : list (list Z * DataHistogram);
  dh_zorder : Z;
  dh_show_title : bool;
  dh_handles : handles
}.

(** [DataHistogramPlot.update_frame(self, n)] from the point where the
    frame has been looked up. *)
Definition DataHistogramPlot_show (h : DataHistogram) (self : DataHistogramPlot)
    : Py.result DataHistogramPlot :=
  match dh_handles self !! "bars"%string with
  | Some (BarContainer bars) =>
      if negb (Nat.eqb (ndims h) (length bars)) then
        Py.Raise (Py.Exception "Histograms must all have the same bin edges.")
      else
        let* heights := Py.mapM (fun i => Py.index (hist h) (Z.of_nat i))
                          (seq 0 (length bars)) in
        let hs := <["bars"%string := BarContainer heights]> (dh_handles self) in
        let* hs := refresh_title (dh_show_title self) (dh_zorder self) hs (hist_title h) in
        Py.Ok (mk_histogram_plot (dh_stack self) (dh_zorder self) (dh_show_title self) hs)
  | Some _ => Py.Raise Py.AttributeError
  | None => Py.Raise (Py.KeyError "bars")
  end.

Definition OfHistograms (p : DataHistogramPlot) : plot :=
  Other (fun self => NdMapping.values (dh_stack self)) DataHistogramPlot_show p.

(** [Plot.__len__]: the number of entries of the stack. *)
Definition __len__ (p : plot) : nat :=
  match p with
  | OfViews q => length (sv_stack q)
  | OfPoints q => length (pt_stack q)
  | OfLines q => length (ln_stack q)
  | OfOverlays stack _ => length stack
  | Other entries _ state => length (entries state)
  end.

Definition out_of_frames : Py.exn := Py.IndexError "list index out of range".

Section Renderers.

(** Modelled from the spec: the value range of one array view and the
    range aggregate of a stack (min/max across all entries), both provided
    by classes that are not part of the sources at hand. *)
Variable view_range : SheetView.t -> npfloat.t * npfloat.t.
Variable stack_range : list (list Z * SheetView.t) -> npfloat.t * npfloat.t.

(** [SheetViewPlot.__call__(self, axis=None)] *)
Definition SheetViewPlot_call (self : SheetViewPlot) : Py.result SheetViewPlot :=
  match NdMapping.top (sv_stack self) with
  | None => Py.Raise out_of_frames
  | Some sheetview =>
      let title := if (0 <? sv_zorder self)%Z then None
                   else SheetLayer.title (SheetView.attrs sheetview) in
      let h := axis_handles (sv_show_title self) (sv_handles self) title in
      let clims := if normalize_individually self then view_range sheetview
                   else stack_range (sv_stack self) in
      Py.Ok (mk_view_plot (sv_stack self) (sv_zorder self) (sv_show_title self)
               (normalize_individually self)
               (<["im"%string := AxesImage (SheetView.data sheetview) clims]> h))
  end.

(** [SheetViewPlot.update_frame(self, n)] *)
Definition SheetViewPlot_update_frame (self : SheetViewPlot) (n : Z)
    : Py.result SheetViewPlot :=
  let n := clamp_frame (length (sv_stack self)) n in
  let im := sv_handles self !! "im"%string in
  let* sheetview := Py.index (NdMapping.values (sv_stack self)) n in
  match im with
  | Some (AxesImage _ clim) =>
      let clim := if normalize_individually self then view_range sheetview else clim in
      let h := <["im"%string := AxesImage (SheetView.data sheetview) clim]>
                 (sv_handles self) in
      let* h := refresh_title (sv_show_title self) (sv_zorder self) h
                  (SheetLayer.title (SheetView.attrs sheetview)) in
      Py.Ok (mk_view_plot (sv_stack self) (sv_zorder self) (sv_show_title self)
               (normalize_individually self) h)
  | _ => Py.Raise Py.AttributeError
  end.

(** [Plot.__getitem__(self, frame)] on a renderer of array views: the
    figure is drawn, then set to the frame.  A frame number above the
    length is to be reported through [self.warn], an attribute that [Plot]
    does not define and its base class does not provide (the logging
    method there is [warning]), so the lookup raises before anything is
    drawn. *)
Definition SheetViewPlot_getitem (self : SheetViewPlot) (frame : Z)
    : Py.result SheetViewPlot :=
  let* _ := (if (Z.of_nat (length (sv_stack self)) <? frame)%Z
             then Py.Raise Py.AttributeError else Py.Ok tt) in
  let* fig := SheetViewPlot_call self in
  SheetViewPlot_update_frame fig frame.

(** [SheetPointsPlot.__call__(self, axis=None)] *)
Definition SheetPointsPlot_call (self : SheetPointsPlot) : Py.result SheetPointsPlot :=
  match NdMapping.top (pt_stack self) with
  | None => Py.Raise out_of_frames
  | Some points =>
      let title := if (0 <? pt_zorder self)%Z then None
                   else SheetLayer.title (snd points) in
      let h := axis_handles (pt_show_title self) (pt_handles self) title in
      Py.Ok (mk_points_plot (pt_stack self) (pt_zorder self) (pt_show_title self)
               (<["scatter"%string := PathCollection (fst points)]> h))
  end.

(** [SheetPointsPlot.update_frame(self, n)] *)
Definition SheetPointsPlot_update_frame (self : SheetPointsPlot) (n : Z)
    : Py.result SheetPointsPlot :=
  let n := clamp_frame (length (pt_stack self)) n in
  let* points := Py.index (NdMapping.values (pt_stack self)) n in
  match pt_handles self !! "scatter"%string with
  | Some (PathCollection _) =>
      let h := <["scatter"%string := PathCollection (fst points)]> (pt_handles self) in
      let* h := refresh_title (pt_show_title self) (pt_zorder self) h
                  (SheetLayer.title (snd points)) in
      Py.Ok (mk_points_plot (pt_stack self) (pt_zorder self) (pt_show_title self) h)
  | Some _ => Py.Raise Py.AttributeError
  | None => Py.Raise (Py.KeyError "scatter")
  end.

(** [SheetLinesPlot.__call__(self, axis=None)] *)
Definition SheetLinesPlot_call (self : SheetLinesPlot) : Py.result SheetLinesPlot :=
  match NdMapping.top (ln_stack self) with
  | None => Py.Raise out_of_frames
  | Some lines =>
      let title := if (0 <? ln_zorder self)%Z then None
                   else SheetLayer.title (snd lines) in
      let h := axis_handles (ln_show_title self) (ln_handles self) title in
      Py.Ok (mk_lines_plot (ln_stack self) (ln_zorder self) (ln_show_title self)
               (<["line_segments"%string := LineCollection (fst lines)]> h))
  end.

(** [SheetLinesPlot.update_frame(self, n)] *)
Definition SheetLinesPlot_update_frame (self : SheetLinesPlot) (n : Z)
    : Py.result SheetLinesPlot :=
  let n := clamp_frame (length (ln_stack self)) n in
  let* contours := Py.index (NdMapping.values (ln_stack self)) n in
  match ln_handles self !! "line_segments"%string with
  | Some (LineCollection _) =>
      let h := <["line_segments"%string := LineCollection (fst contours)]>
                 (ln_handles self) in
      let* h := refresh_title (ln_show_title self) (ln_zorder self) h
                  (SheetLayer.title (snd contours)) in
      Py.Ok (mk_lines_plot (ln_stack self) (ln_zorder self) (ln_show_title self) h)
  | Some _ => Py.Raise Py.AttributeError
  | None => Py.Raise (Py.KeyError "line_segments")
  end.

(** [update_frame] of any renderer; for the overlay renderer,
    [SheetPlot.update_frame]: the clamped index goes to every child in
    turn. *)
Fixpoint update_frame (p : plot) (n : Z) : Py.result plot :=
  match p with
  | OfViews q => let* q' := SheetViewPlot_update_frame q n in Py.Ok (OfViews q')
  | OfPoints q => let* q' := SheetPointsPlot_update_frame q n in Py.Ok (OfPoints q')
  | OfLines q => let* q' := SheetLinesPlot_update_frame q n in Py.Ok (OfLines q')
  | OfOverlays stack plots =>
      let n := clamp_frame (length stack) n in
      let* plots' := Py.mapM (fun child => update_frame child n) plots in
      Py.Ok (OfOverlays stack plots')
  | Other entries body state =>
      let n := clamp_frame (length (entries state)) n in
      let* entry := Py.index (entries state) n in
      let* state' := body entry state in
      Py.Ok (Other entries body state')
  end.

(** A renderer whose figure has been drawn over a stack that is not empty:
    the handles its [update_frame] touches exist. *)
Definition drawn_title (show_title : bool) (zorder : Z) (h : handles) : Prop :=
  show_title && (zorder =? 0)%Z = true -> exists t, h !! "title"%string = Some (Text t).

Fixpoint ready (p : plot) : Prop :=
  match p with
  | OfViews q =>
      sv_stack q <> []
      /\ (exists d c, sv_handles q !! "im"%string = Some (AxesImage d c))
      /\ drawn_title (sv_show_title q) (sv_zorder q) (sv_handles q)
  | OfPoints q =>
      pt_stack q <> []
      /\ (exists o, pt_handles q !! "scatter"%string = Some (PathCollection o))
      /\ drawn_title (pt_show_title q) (pt_zorder q) (pt_handles q)
  | OfLines q =>
      ln_stack q <> []
      /\ (exists l, ln_handles q !! "line_segments"%string = Some (LineCollection l))
      /\ drawn_title (ln_show_title q) (ln_zorder q) (ln_handles q)
  | OfOverlays stack plots =>
      stack <> []
      /\ (fix all (l : list plot) : Prop :=
            match l with
            | [] => True
            | child :: rest => ready child /\ all rest
            end) plots
  | Other entries body state =>
      entries state <> []
      /\ forall entry, In entry (entries state) -> exists state', body entry state = Py.Ok state'
  end.

End Renderers.

(** **** Channel reduction on a shared store

    Stacks, overlays and views are Python objects: a stack refers to its
    overlays and an overlay to its layers, and assignments to [overlay.data]
    or [view.style] are seen through every reference.  The store maps
    object identities to object states. *)

Abbreviation loc := nat.

Record view_obj := mk_view_obj {
  v_label : string;
  v_style : string;
  (** the array held by the view, by identity *)
  v_payload : nat
}.

Record overlay_obj := mk_overlay_obj { o_label : string; o_data : list loc }.

Inductive obj :=
| ViewObj (v : view_obj)
| OverlayObj (o : overlay_obj)
| StackObj (items : list (list Z * loc)).

Abbreviation store := (gmap loc obj).

(** Computations that read and write the store and may raise. *)
Definition M (A : Type) : Type := store -> store * Py.result A.

Definition ret {A} (a : A) : M A := fun h => (h, Py.Ok a).
Definition raise {A} (e : Py.exn) : M A := fun h => (h, Py.Raise e).
Definition lift {A} (r : Py.result A) : M A := fun h => (h, r).

Definition mbind {A B} (m : M A) (k : A -> M B) : M B :=
  fun h => match m h with
           | (h', Py.Ok a) => k a h'
           | (h', Py.Raise e) => (h', Py.Raise e)
           end.

Notation "'do*' x := m 'in' k" := (mbind m (fun x => k))
  (at level 10, x pattern, m at level 100, k at level 200, only parsing).

(** A new object gets an identity that is not in use. *)
Definition alloc (o : obj) : M loc :=
  fun h => let l := fresh (dom h) in (<[l := o]> h, Py.Ok l).

Definition get_view (l : loc) : M view_obj :=
  fun h => match h !! l with
           | Some (ViewObj v) => (h, Py.Ok v)
           | _ => (h, Py.Raise Py.AttributeError)
           end.

Definition get_overlay (l : loc) : M overlay_obj :=
  fun h => match h !! l with
           | Some (OverlayObj o) => (h, Py.Ok o)
           | _ => (h, Py.Raise Py.AttributeError)
           end.

Definition get_stack (l : loc) : M (list (list Z * loc)) :=
  fun h => match h !! l with
           | Some (StackObj items) => (h, Py.Ok items)
           | _ => (h, Py.Raise Py.AttributeError)
           end.

(** [overlay.data = layers] *)
Definition set_data (l : loc) (layers : list loc) : M unit :=
  fun h => match h !! l with
           | Some (OverlayObj o) =>
               (<[l := OverlayObj (mk_overlay_obj (o_label o) layers)]> h, Py.Ok tt)
           | _ => (h, Py.Raise Py.AttributeError)
           end.

(** A loop over a list, threading an accumulator. *)
Fixpoint foldM {A B} (f : B -> A -> M B) (l : list A) (acc : B) : M B :=
  match l with
  | [] => ret acc
  | x :: rest => do* acc' := f acc x in foldM f rest acc'
  end.

Definition mapM {A B} (f : A -> M B) (l : list A) : M (list B) :=
  foldM (fun acc x => do* y := f x in ret (acc ++ [y])) l [].

(** [copy.deepcopy]: every object reachable from the stack is copied once;
    the memo maps an original to its copy. *)
Abbreviation memo := (gmap nat nat).

Definition copy_view (m : memo) (l : loc) : M (memo * loc) :=
  match m !! l with
  | Some l' => ret (m, l')
  | None =>
      do* v := get_view l in
      do* l' := alloc (ViewObj v) in
      ret (<[l := l']> m, l')
  end.

Definition copy_views (m : memo) (ls : list loc) : M (memo * list loc) :=
  foldM (fun st l =>
           do* (m', l') := copy_view (fst st) l in ret (m', snd st ++ [l']))
        ls (m, []).

Definition copy_overlay (m : memo) (l : loc) : M (memo * loc) :=
  match m !! l with
  | Some l' => ret (m, l')
  | None =>
      do* o := get_overlay l in
      do* (m', data') := copy_views m (o_data o) in
      do* l' := alloc (OverlayObj (mk_overlay_obj (o_label o) data')) in
      ret (<[l := l']> m', l')
  end.

Definition deepcopy (stack : loc) : M loc :=
  do* items := get_stack stack in
  do* (_, items') :=
    foldM (fun st kl =>
             do* (m', l') := copy_overlay (fst st) (snd kl) in
             ret (m', snd st ++ [(fst kl, l')]))
          items (∅, []) in
  alloc (StackObj items').

(** String helpers: [s.endswith(p)], [s.strip()], [s.rsplit('*')]. *)
Definition endswith (s p : string) : bool :=
  String.prefix (String.rev p) (String.rev s).

Definition is_space (a : ascii) : bool :=
  let n := nat_of_ascii a in
  Nat.eqb n 32 || (Nat.leb 9 n && Nat.leb n 13).

Fixpoint lstrip (s : string) : string :=
  match s with
  | String a rest => if is_space a then lstrip rest else s
  | EmptyString => EmptyString
  end.

Definition strip (s : string) : string :=
  String.rev (lstrip (String.rev (lstrip s))).

Fixpoint split_on (c : ascii) (s : string) : list string :=
  match s with
  | EmptyString => [EmptyString]
  | String a rest =>
      let parts := split_on c rest in
      if Ascii.eqb a c then EmptyString :: parts
      else match parts with
           | part :: more => String a part :: more
           | [] => [String a EmptyString]
           end
  end.

(** Modelled from the spec: the channel-operation registry of the
    [options] module, which is not part of the sources at hand: names
    mapped to a layer count, a pattern and an operation mode. *)
Record channel := mk_channel { size : nat; pattern : string; mode : string }.

Record registry := mk_registry {
  keys : list string;
  options : list string;
  definitions : gmap string channel
}.

Definition getitem_channel (reg : registry) (key : string) : Py.result channel :=
  match definitions reg !! key with
  | Some c => Py.Ok c
  | None => Py.Raise (Py.KeyError key)
  end.

(** [sorted(ks, key=lambda k: -channels[k].size)]: stable, largest first. *)
Fixpoint insert_by_size (k : string) (sz : nat) (sorted : list (string * nat))
    : list (string * nat) :=
  match sorted with
  | [] => [(k, sz)]
  | (k', sz') :: rest =>
      if Nat.ltb sz' sz then (k, sz) :: (k', sz') :: rest
      else (k', sz') :: insert_by_size k sz rest
  end.

Definition sorted_by_size (reg : registry) (ks : list string) : Py.result (list string) :=
  let* sized := Py.mapM (fun k => let* c := getitem_channel reg k in Py.Ok (k, size c)) ks in
  Py.Ok (map fst (fold_left (fun acc ks => insert_by_size (fst ks) (snd ks) acc) sized [])).

Section Collapse.

(** The operations of [channel_modes], by mode name.  An operation reads
    the layers of the overlay slice it is given and returns a new view; it
    may raise. *)
Variable channel_modes : string -> option (list view_obj -> Py.result view_obj).

(** Modelled from the spec: [overlay[label]], the first layer carrying the
    label. *)
Fixpoint getitem_label (data : list loc) (lbl : string) : M loc :=
  match data with
  | [] => raise (Py.KeyError lbl)
  | l :: rest =>
      do* v := get_view l in
      if String.eqb (v_label v) lbl then ret l else getitem_label rest lbl
  end.

(** One turn of the loop of [SheetPlot._collapse]. *)
Definition collapse_step (overlay : loc) (pat : list string)
    (fn : list view_obj -> Py.result view_obj) (style_key : string)
    (st : nat * list loc) (i : nat) : M (nat * list loc) :=
  let '(skip, collapsed_views) := st in
  do* o := get_overlay overlay in
  do* labels := mapM (fun l => do* v := get_view l in ret (v_label v)) (o_data o) in
  let layer_labels :=
    Py.slice labels (Z.of_nat i) (Z.of_nat (length pat + i)) in
  let matching :=
    forallb (fun lp => endswith (fst lp) (snd lp)) (combine layer_labels pat) in
  if matching && Nat.eqb (length layer_labels) (length pat) then
    do* views := mapM (getitem_label (o_data o)) layer_labels in
    do* layers := mapM get_view views in
    do* collapsed_view := lift (fn layers) in
    do* l := alloc (ViewObj (mk_view_obj (v_label collapsed_view) style_key
                               (v_payload collapsed_view))) in
    ret ((length views - 1)%nat, collapsed_views ++ [l])
  else if negb (Nat.eqb skip 0) then
    ret ((skip - 1)%nat, collapsed_views)
  else
    do* l := lift (Py.index (o_data o) (Z.of_nat i)) in
    ret (skip, collapsed_views ++ [l]).

(** [SheetPlot._collapse(self, overlay, pattern, fn, style_key)] *)
Definition _collapse (overlay : loc) (pattern : string)
    (fn : list view_obj -> Py.result view_obj) (style_key : string) : M unit :=
  let pat := map strip (split_on "*"%char pattern) in
  do* o := get_overlay overlay in
  if Nat.ltb (length (o_data o)) (length pat) then ret tt
  else
    do* (_, collapsed_views) :=
      foldM (collapse_step overlay pat fn style_key)
            (seq 0 (length (o_data o))) (0%nat, []) in
    set_data overlay collapsed_views.

(** The body of the loop [for overlay in stack] of [_collapse_channels]. *)
Definition collapse_overlay (reg : registry) (overlay : loc) : M unit :=
  do* o := get_overlay overlay in
  let customized :=
    filter (fun k => negb (String.eqb (o_label o) EmptyString)
                     && String.prefix (o_label o) k) (keys reg) in
  do* sorted_customized := lift (sorted_by_size reg customized) in
  do* sorted_reductions := lift (sorted_by_size reg (options reg)) in
  foldM (fun _ key =>
           do* channel := lift (getitem_channel reg key) in
           match channel_modes (mode channel) with
           | None => raise (Py.KeyError (mode channel))
           | Some fn => _collapse overlay (pattern channel) fn key
           end)
        (sorted_customized ++ sorted_reductions) tt.

(** [SheetPlot._collapse_channels(self, stack)] *)
Definition _collapse_channels (reg : registry) (stack : loc) : M loc :=
  do* items := get_stack stack in
  match NdMapping.top items with
  | None => raise (Py.TypeError "issubclass() arg 1 must be a class")
  | Some top => fun h =>
      match h !! top with
      | Some (OverlayObj _) =>
          match keys reg with
          | [] => ret stack h
          | _ :: _ =>
              (do* stack' := deepcopy stack in
               do* items' := get_stack stack' in
               do* _ := foldM (fun _ ov => collapse_overlay reg ov)
                          (NdMapping.values items') tt in
               ret stack') h
          end
      | _ => ret stack h
      end
  end.

End Collapse.

(** What a store computation guarantees when started in a store that
    extends [h0] and satisfies [P]: the objects of [h0] are still there,
    unchanged, and a returned value satisfies [Q]. *)
Definition triple {A} (h0 : store) (P : store -> Prop) (m : M A)
    (Q : A -> store -> Prop) : Prop :=
  forall h, h0 ⊆ h -> P h ->
    h0 ⊆ fst (m h) /\ forall a, snd (m h) = Py.Ok a -> Q a (fst (m h)).

(** No condition on the store. *)
Definition any : store -> Prop := fun _ => True.

(** Computations that keep [h0] intact, whatever they return. *)
Definition safe {A} (h0 : store) (m : M A) : Prop :=
  triple h0 any m (fun _ _ => True).

(** The identity is not in use in [h0]. *)
Definition fresh_for (h0 : store) (l : loc) : Prop := h0 !! l = None.

(** Every copy recorded in the memo is an object that [h0] does not have. *)
Definition memo_fresh (h0 : store) (m : memo) : Prop :=
  forall l l', m !! l = Some l' -> fresh_for h0 l'.

End Plots.

(** *** Reachable stacks and their invariant *)

Module StackStates.

(** The stacks that can arise: a freshly made, empty stack with any declared
    bounds, data type and dimension count, followed by any number of item
    insertions, accepted or refused. *)
Inductive reachable : SheetStack.t -> Prop :=
| reach_new (b : option BoundingBox.t) (dt : option layer_class) (nd : nat) :
    reachable (SheetStack.mk b dt nd [])
| reach_add (s : SheetStack.t) (k : list Z) (x : layer) :
    reachable s -> reachable (fst (SheetStack._add_item s k x)).

(** All entries have one concrete type, and the bounds of the stack. *)
Definition homogeneous (s : SheetStack.t) : Prop :=
  (forall k x k' x', In (k, x) (SheetStack.items s) ->
                     In (k', x') (SheetStack.items s) ->
                     class_of x = class_of x')
  /\ (forall k x, In (k, x) (SheetStack.items s) ->
        exists sb, SheetStack.bounds s = Some sb
                   /\ BoundingBox.same (layer_bounds x) sb).

(** The insertion was refused and left the entries as they were. *)
Definition refused (s : SheetStack.t) (k : list Z) (x : layer) : Prop :=
  (exists msg, snd (SheetStack._add_item s k x) = Py.Raise (Py.AssertionError msg))
  /\ SheetStack.items (fst (SheetStack._add_item s k x)) = SheetStack.items s.

End StackStates.

(** *** Concrete inputs used to exercise the embedding *)

Module Samples.

Definition unit_box : BoundingBox.t := BoundingBox.mk 0 0 1 1.
Definition wide_box : BoundingBox.t := BoundingBox.mk 0 0 2 1.

(** The 1x2 array [[a, b]]. *)
Definition row2 (a b : Q) : ndarray.t :=
  ndarray.of_rows [[npfloat.Fin a; npfloat.Fin b]].

Definition plain_attrs (b : BoundingBox.t) : SheetLayer.attrs :=
  SheetLayer.__init__ b SheetLayer.no_kwargs.

Definition points_on (b : BoundingBox.t) : layer := Points [] (plain_attrs b).
Definition contours_on (b : BoundingBox.t) : layer := Contours [] (plain_attrs b).

(** The slice pair [2:3, 1:2]: a region to the right of the unit square that
    shares only the height of its top edge. *)
Definition right_of_unit_box : SheetView.coords :=
  SheetView.Tuple [SheetView.Slc (Some 2%Q) (Some 3%Q);
                   SheetView.Slc (Some 1%Q) (Some 2%Q)].

(** The slice pair [2:3, 0:1]: a region to the right of the unit square,
    level with it. *)
Definition beside_unit_box : SheetView.coords :=
  SheetView.Tuple [SheetView.Slc (Some 2%Q) (Some 3%Q);
                   SheetView.Slc (Some 0%Q) (Some 1%Q)].

(** The 2x2 array [[1, 2], [3, 4]]. *)
Definition square4 : ndarray.t :=
  ndarray.of_rows [[npfloat.Fin 1; npfloat.Fin 2]; [npfloat.Fin 3; npfloat.Fin 4]].

(** The slice pair [0:1, 0:1]: the whole unit square. *)
Definition whole_unit_box : SheetView.coords :=
  SheetView.Tuple [SheetView.Slc (Some 0%Q) (Some 1%Q);
                   SheetView.Slc (Some 0%Q) (Some 1%Q)].

(** A view on the unit square, given its array. *)
Definition view_on_unit_box (d : ndarray.t) : Py.result SheetView.t :=
  SheetView.__init__ (Some d) unit_box SheetLayer.no_kwargs.

(** The view that the constructor builds on the unit square from an array
    of one row and two columns. *)
Definition view12 (d : ndarray.t) : SheetView.t :=
  {| SheetView.data := d;
     SheetView.attrs := plain_attrs unit_box;
     SheetView.cyclic_range := None;
     SheetView.scs := SheetCoordinateSystem.mk unit_box 1 2 |}.

(** A hue layer [[1/4, 1/2]] under a confidence layer of ones. *)
Definition hue_quarter_half : Transform.channel :=
  Transform.mk_channel "Hue" (view12 (row2 (1 # 4) (1 # 2))).

Definition confidence_ones : Transform.channel :=
  Transform.mk_channel "Confidence" (view12 (ndarray.ones (1, 2)%nat)).

Definition hue_over_confidence : Transform.overlay :=
  Transform.mk_overlay [hue_quarter_half; confidence_ones] unit_box.

(** The view that the constructor builds on the unit square from an array
    of two rows and two columns. *)
Definition view22 (d : ndarray.t) : SheetView.t :=
  {| SheetView.data := d;
     SheetView.attrs := plain_attrs unit_box;
     SheetView.cyclic_range := None;
     SheetView.scs := SheetCoordinateSystem.mk unit_box 2 2 |}.





(** A drawn renderer of a two-frame stack of array views, titles shown. *)
Definition two_frames : list (list Z * SheetView.t) :=
  [([0%Z], view12 (row2 1 2)); ([1%Z], view12 (row2 3 4))].

Definition drawn_view_plot : Plots.SheetViewPlot :=
  Plots.mk_view_plot two_frames 0 true false
    (<["im"%string := Plots.AxesImage (row2 3 4) (npfloat.Fin 1, npfloat.Fin 4)]>
       (<["title"%string := Plots.Text (Some ""%string)]>
          (<["fig"%string := Plots.Figure]> Plots.new_handles))).

(** An overlay renderer with that renderer as its only child. *)
Definition drawn_overlay_plot : Plots.plot :=
  Plots.OfOverlays
    [([0%Z], SheetOverlay.mk [] (plain_attrs unit_box));
     ([1%Z], SheetOverlay.mk [] (plain_attrs unit_box))]
    [Plots.OfViews drawn_view_plot].

(** A store with one stack (object 4) of one overlay (object 3) of three
    labelled views (objects 0 to 2). *)
Definition small_store : Plots.store :=
  <[0%nat := Plots.ViewObj (Plots.mk_view_obj "X Hue" "s1" 10)]>
  (<[1%nat := Plots.ViewObj (Plots.mk_view_obj "X Conf" "s2" 11)]>
  (<[2%nat := Plots.ViewObj (Plots.mk_view_obj "Other" "s3" 12)]>
  (<[3%nat := Plots.OverlayObj (Plots.mk_overlay_obj "" [0%nat; 1%nat; 2%nat])]>
  (<[4%nat := Plots.StackObj [([0%Z], 3%nat)]]> ∅)))).

Definition no_channels : Plots.registry := Plots.mk_registry [] [] ∅.

Definition hcs_channel : Plots.registry :=
  Plots.mk_registry ["HCS"%string] ["HCS"%string]
    {[ "HCS"%string := Plots.mk_channel 2 "Hue * Conf" "HCS" ]}.

(** A stand-in for the operations of [channel_modes]: the first layer,
    relabelled. *)
Definition sample_modes (m : string)
    : option (list Plots.view_obj -> Py.result Plots.view_obj) :=
  if String.eqb m "HCS" then
    Some (fun vs => match vs with
                    | v :: _ => Py.Ok (Plots.mk_view_obj
                                         (Plots.v_label v ++ " HCS Plot") "" 99)
                    | [] => Py.Raise Py.ValueError
                    end)
  else None.

(** An empty 2x2 grid over the unit square that accepts any value. *)
Definition grid22 : ProjectionGrid.t nat :=
  ProjectionGrid.mk (SheetCoordinateSystem.mk unit_box 2 2) None [] [].

(** A one-dimensional stack after its first insertion, at key (0,). *)
Definition one_frame : SheetStack.t :=
  fst (SheetStack._add_item (SheetStack.mk None None 1 []) [0%Z] (points_on unit_box)).

End Samples.

(** *** imagen/views.py: stacking layers with the infix operator *)

Module Mul.

Definition as_layer (o : SheetOverlay.t) : layer :=
  Overlay (SheetOverlay.data o) (SheetOverlay.attrs o).

(** [SheetLayer.__mul__(self, other)]; every operand of the embedding is a
    [SheetLayer], so the [TypeError] of the first line cannot arise. *)
Definition __mul__ (self other : layer) : Py.result SheetOverlay.t :=
  let overlays :=
    match self, other with
    | Overlay d _, Overlay d' _ => d ++ d'
    | Overlay d _, _ => d ++ [other]
    | _, Overlay d' _ => [self] ++ d'
    | _, _ => [self; other]
    end in
  SheetOverlay.__init__ overlays (layer_bounds self)
    {| SheetLayer.kw_roi_bounds := Some (SheetLayer.roi_bounds (layer_attrs self));
       SheetLayer.kw_title := None;
       SheetLayer.kw_style := Some (SheetLayer.style (layer_attrs self));
       SheetLayer.kw_metadata := Some (SheetLayer.metadata (layer_attrs self));
       SheetLayer.kw_cyclic_range := None |}.

(** The layers an operand contributes: its own layers for an overlay,
    itself otherwise. *)
Definition layers_of (x : layer) : list layer :=
  match x with
  | Overlay d _ => d
  | _ => [x]
  end.

End Mul.

(** *** imagen/views.py: animations *)

Module Animation.

(** An animation is a stack with one dimension, time, together with the
    [duration] between frames.  Times and the duration are integers, on
    which Python's [%] is the floored remainder [Z.modulo]. *)
Record t := mk { stack : SheetStack.t; duration : Z }.

(** An animation without frames, as its constructor leaves it: the one
    dimension ['Time'], and no declared data type beyond [SheetLayer]. *)
Definition new (bounds : option BoundingBox.t) (duration : Z) : t :=
  {| stack := SheetStack.mk bounds None 1 []; duration := duration |}.

(** [self.items()] *)
Definition items (self : t) : list (list Z * layer) := SheetStack.items (stack self).

(** [Animation._item_check(self, dim_vals, data)] *)
Definition _item_check (self : t) (dim_vals : list Z) (x : layer)
    : t * Py.result unit :=
  match dim_vals with
  | [] => (self, Py.Raise (Py.IndexError "tuple index out of range"))
  | time :: _ =>
      if (duration self =? 0)%Z then (self, Py.Raise Py.ZeroDivisionError)
      else if negb (time mod duration self =? 0)%Z then (self, Py.Raise Py.ValueError)
      else
        let '(st, r) := SheetStack._item_check (stack self) dim_vals x in
        ({| stack := st; duration := duration self |}, r)
  end.

(** Modelled from the spec: [NdMapping._add_item], which checks the item
    and then stores it under its key. *)
Definition _add_item (self : t) (dim_vals : list Z) (x : layer)
    : t * Py.result unit :=
  match _item_check self dim_vals x with
  | (self', Py.Ok _) =>
      ({| stack := SheetStack.set_items (stack self')
                     (NdMapping.update_item NdMapping.tuple_eqb NdMapping.tuple_ltb
                        dim_vals x (SheetStack.items (stack self')));
          duration := duration self' |},
       Py.Ok tt)
  | (self', Py.Raise e) => (self', Py.Raise e)
  end.

(** The animations that can arise from a new one by storing views. *)
Inductive reachable : t -> Prop :=
| reach_new (b : option BoundingBox.t) (d : Z) : reachable (new b d)
| reach_add (a : t) (k : list Z) (x : layer) :
    reachable a -> reachable (fst (_add_item a k x)).

(** What holds of every animation that can arise: one time per key, each
    a whole multiple of the duration; no frame under a duration of zero;
    frames of one type and of the bounds of the animation. *)
Definition regular (a : t) : Prop :=
  SheetStack.ndims (stack a) = 1%nat
  /\ Forall (fun kv => exists n, fst kv = [(n * duration a)%Z]) (items a)
  /\ (items a <> [] -> duration a <> 0%Z)
  /\ StackStates.homogeneous (stack a).

End Animation.

(** *** Statements about the cells of an array *)

Module Cells.

(** Every cell is a finite number. *)
Definition finite (a : ndarray.t) : Prop :=
  Forall (fun x => exists q, x = npfloat.Fin q) (ndarray.flat a).

(** Every cell is a finite number between [lo] and [hi]. *)
Definition within (lo hi : Q) (a : ndarray.t) : Prop :=
  Forall (fun x => exists q, x = npfloat.Fin q /\ (lo <= q <= hi)%Q) (ndarray.flat a).



(** All cells hold one and the same finite value. *)
Definition constant (a : ndarray.t) : Prop :=
  finite a
  /\ forall p q, In (npfloat.Fin p) (ndarray.flat a) ->
                 In (npfloat.Fin q) (ndarray.flat a) -> (p == q)%Q.



(** Two arrays of one shape. *)
Definition same_shape (a b : ndarray.t) : Prop :=
  length (ndarray.cells a) = length (ndarray.cells b)
  /\ ndarray.width a = ndarray.width b.

End Cells.

(** *** dataviews/transform.py: the inputs of the HCS operation *)

Module HCSLayers.

(** The strength array that [HCS._process] uses on the overlay
    [hue :: confidence :: rest]: the data of the third layer when there
    are exactly three layers, ones of the shape that the coordinate system
    of the hue holds otherwise. *)
Definition strength_data (hue : Transform.channel) (rest : list Transform.channel)
    : Py.result ndarray.t :=
  match rest with
  | [st] => Py.Ok (SheetView.data (Transform.view st))
  | _ => Transform.HCS.np_ones (SheetView.shape (Transform.view hue))
  end.

(** A rectangular array of finite numbers of the shape of [a]. *)
Definition fits (a b : ndarray.t) : Prop :=
  ndarray.wf b /\ Cells.finite b /\ Cells.same_shape b a.


End HCSLayers.

(** *** dataviews/plots.py: playing the frames of a renderer *)

Module Animate.

(** The renderers of sheet layers and the overlay renderers made of them. *)
Fixpoint sheet_renderer (p : Plots.plot) : Prop :=
  match p with
  | Plots.OfViews _ | Plots.OfPoints _ | Plots.OfLines _ => True
  | Plots.OfOverlays _ plots =>
      (fix all (l : list Plots.plot) : Prop :=
         match l with
         | [] => True
         | child :: rest => sheet_renderer child /\ all rest
         end) plots
  | Plots.Other _ _ _ => False
  end.

(** The frames of [Plot.anim(self, start, stop)]:
    [range(len(self))[slice(start, stop, 1)]], where [stop = None] reads
    to the end. *)
Definition anim_frames (len : nat) (start : Z) (stop : option Z) : list Z :=
  Py.slice (map Z.of_nat (seq 0 len)) start (default (Z.of_nat len) stop).

Section Play.
Variable view_range : SheetView.t -> npfloat.t * npfloat.t.

(** Modelled from the spec: the playback driver asks for the frames one
    after the other, each by a call of [update_frame]. *)
Fixpoint play (p : Plots.plot) (frames : list Z) : Py.result Plots.plot :=
  match frames with
  | [] => Py.Ok p
  | n :: rest => let* p' := Plots.update_frame view_range p n in play p' rest
  end.

End Play.

End Animate.

(** *** dataviews/plots.py: the intervals of annotations *)

Module AnnotationPlot.

(** An interval specification: per dimension label a pair [(start, end)],
    either of which may be [None]. *)
Abbreviation interval := (gmap string (option Q * option Q)).

(** [dict(zip(dim_labels, key))]: a label that occurs twice keeps the
    later value. *)
Definition key_dict (dim_labels : list string) (key : list Q) : gmap string Q :=
  fold_left (fun d kv => <[fst kv := snd kv]> d) (combine dim_labels key) ∅.

(** One round of the loop of [_active_interval]: [false] where the loop
    returns [False]. *)
Definition within_bounds (kd : gmap string Q) (entry : string * (option Q * option Q))
    : bool :=
  let '(start, end_) := snd entry in
  let below := match start with
               | Some s => match kd !! fst entry with
                           | Some v => Qle_bool v s
                           | None => true
                           end
               | None => false
               end in
  let above := match end_ with
               | Some e => match kd !! fst entry with
                           | Some v => negb (Qle_bool v e)
                           | None => true
                           end
               | None => false
               end in
  negb below && negb above.

(** [AnnotationPlot._active_interval(self, key, interval)], for a key
    given as a tuple of numbers.  The loop answers [False] as soon as one
    entry fails, so the order in which the dictionary is walked does not
    show in the answer. *)
Definition _active_interval (dim_labels : list string) (key : list Q)
    (interval : option interval) : bool :=
  match interval with
  | None => true
  | Some iv =>
      if decide (dim_labels = ["Default"%string]) then true
      else forallb (within_bounds (key_dict dim_labels key)) (map_to_list iv)
  end.

(** [AnnotationPlot._warn_invalid_intervals(self, stack)]: the set of
    labels reported as "Invalid annotation interval key(s) ignored", over
    the interval specifications of all annotations of the stack; nothing
    is printed when the set is empty. *)
Definition _warn_invalid_intervals (dim_labels : list string)
    (intervals : list (option interval)) : gset string :=
  fold_left
    (fun mismatch_set spec =>
       match spec with
       | None => mismatch_set
       | Some iv =>
           if decide (dim_labels = ["Default"%string]) then mismatch_set
           else mismatch_set ∪ (dom iv ∖ list_to_set dim_labels)
       end)
    intervals ∅.

End AnnotationPlot.

(** *** dataviews/plots.py: curves *)

Module DataCurvePlot.

(** [DataCurvePlot._rotate(self, seq, n=1)] *)
Definition _rotate {A} (seq : list A) (n : Z) : Py.result (list A) :=
  if Nat.eqb (length seq) 0 then Py.Raise Py.ZeroDivisionError
  else
    let n := (n mod Z.of_nat (length seq))%Z in
    Py.Ok (Py.slice seq n (Z.of_nat (length seq)) ++ Py.slice seq 0 n).

End DataCurvePlot.

(** *** dataviews/plots.py: tables *)

Module TablePlot.

Section Cells.
(** The values of table cells, and their text: [str(value)], or for a
    float its rendering at [float_precision] digits. *)
Context {V : Type}.
Variable format : V -> list ascii.
Variable max_value_len : Z.

(** [TablePlot.pprint_value(self, value)] *)
Definition pprint_value (value : V) : list ascii :=
  let formatted := format value in
  if (max_value_len <? Z.of_nat (length formatted))%Z
  then Py.slice formatted 0 (max_value_len - 3) ++ list_ascii_of_string "..."
  else formatted.

End Cells.

End TablePlot.

(** *** dataviews/plots.py: layouts inside a grid *)

Module LayoutPlot.

Record layout_info := mk_info {
  info_shape : nat * nat;
  info_width_ratios : list Z;
  info_height_ratios : list Z;
  info_layout : list (option string)
}.

(** The class attribute [layout_dict]. *)
Definition layout_dict : gmap string layout_info :=
  <["Single"%string := mk_info (1, 1)%nat [4%Z] [4%Z] [Some "main"%string]]>
  (<["Dual"%string :=
       mk_info (1, 2)%nat [4%Z; 1%Z] [4%Z] [Some "main"%string; Some "right"%string]]>
  (<["Triple"%string :=
       mk_info (2, 2)%nat [4%Z; 1%Z] [1%Z; 4%Z]
         [Some "top"%string; None; Some "main"%string; Some "right"%string]]>
  (<["Embedded Dual"%string :=
       mk_info (2, 1)%nat [4%Z] [1%Z; 4%Z] [None; Some "main"%string]]> ∅))).

(** The attributes that [_set_layout] assigns. *)
Record t := mk {
  layout_spec : list (option string);
  shape : nat * nat;
  width_ratios : list Z;
  height_ratios : list Z
}.

(** [LayoutPlot._set_layout(self, embedded_type)] with an embedded type
    given, as [grid_situate] calls it. *)
Definition _set_layout (self : t) (embedded_type : string) : Py.result t :=
  match layout_dict !! embedded_type with
  | None => Py.Raise (Py.KeyError embedded_type)
  | Some layout_info =>
      Py.Ok {| layout_spec := info_layout layout_info;
               shape := info_shape layout_info;
               width_ratios := info_width_ratios layout_info;
               height_ratios := info_height_ratios layout_info |}
  end.

(** [x % y] on integers. *)
Definition mod_ (x y : Z) : Py.result Z :=
  if (y =? 0)%Z then Py.Raise Py.ZeroDivisionError else Py.Ok (x mod y)%Z.

(** [LayoutPlot.grid_situate(self, current_idx, layout_type,
    subgrid_width)]: the layout as set, and the pair returned, [None]
    where the method falls off its end. *)
Definition grid_situate (self : t) (current_idx : Z) (layout_type : string)
    (subgrid_width : Z) : Py.result (t * option (Z * list Z)) :=
  let* self := _set_layout self layout_type in
  if String.eqb layout_type "Single" then
    Py.Ok (self, Some ((current_idx + 1)%Z, [current_idx]))
  else if String.eqb layout_type "Dual" then
    Py.Ok (self, Some ((current_idx + 2)%Z, [current_idx; (current_idx + 1)%Z]))
  else
    let bottom_idx := (current_idx + subgrid_width)%Z in
    if String.eqb layout_type "Embedded Dual" then
      let* r := mod_ (current_idx + 1) subgrid_width in
      let grid_idx := if (r =? 0)%Z then (bottom_idx + 1)%Z else (current_idx + 1)%Z in
      Py.Ok (self, Some (grid_idx, [current_idx; bottom_idx]))
    else if String.eqb layout_type "Triple" then
      let* r := mod_ (current_idx + 2) subgrid_width in
      let grid_idx := if (r =? 0)%Z then (bottom_idx + 2)%Z else (current_idx + 2)%Z in
      Py.Ok (self, Some (grid_idx, [current_idx; (current_idx + 1)%Z;
                                    bottom_idx; (bottom_idx + 1)%Z]))
    else Py.Ok (self, None).

End LayoutPlot.

(** *** The grids that can arise *)

Module GridStates.

Section Grid.
Context {V : Type}.

(** A key that the snapping to cell centres leaves where it is. *)
Definition snapped (g : ProjectionGrid.t V) (k : Q * Q) : Prop :=
  ProjectionGrid._transform_indices g k = Py.Ok k.

(** A newly made grid, followed by any number of insertions, stored or
    refused, sorted or not. *)
Inductive reachable : ProjectionGrid.t V -> Prop :=
| reach_init (bnds : BoundingBox.t) (shape : nat * nat) (dt : option (V -> bool))
    (g : ProjectionGrid.t V) :
    ProjectionGrid.__init__ bnds shape dt = Py.Ok g -> reachable g
| reach_add (g : ProjectionGrid.t V) (k : Q * Q) (v : V) (sort : bool) :
    reachable g -> reachable (fst (ProjectionGrid._add_item g k v sort)).

End Grid.

End GridStates.

(** *** dataviews/plots.py: layouts and grids of renderers *)

Module Composite.

(** A view placed in a layout: a stack ([NdMapping]) with its number of
    entries, or a single view. *)
Inductive layout_view :=
| Stacked (len : nat)
| Unstacked.

(** A layout renderer: the views of [self.layout], and [self.subplots],
    the renderers by position in the order in which the dictionary is
    walked. *)
Record LayoutPlot := mk_layout {
  layout : list layout_view;
  subplots : list (string * option Plots.plot)
}.

(** A grid renderer: [self.subplots], the layout renderers by grid
    coordinate in the order in which the dictionary is walked. *)
Record GridLayoutPlot := mk_grid {
  grid_subplots : list (nat * nat * LayoutPlot)
}.

(** [LayoutPlot.__len__(self)] *)
Definition LayoutPlot_len (self : LayoutPlot) : nat :=
  list_max (flat_map (fun v => match v with Stacked len => [len] | Unstacked => [] end)
              (layout self)
            ++ [1%nat]).

(** [GridLayoutPlot.__len__(self)] *)
Definition GridLayoutPlot_len (self : GridLayoutPlot) : nat :=
  list_max (map (fun cl => LayoutPlot_len (snd cl)) (grid_subplots self) ++ [1%nat]).

Section Renderers.
Variable view_range : SheetView.t -> npfloat.t * npfloat.t.

(** [LayoutPlot.update_frame(self, n)] *)
Definition LayoutPlot_update_frame (self : LayoutPlot) (n : Z) : Py.result LayoutPlot :=
  let* subs := Py.mapM
                 (fun ps => match snd ps with
                            | None => Py.Ok ps
                            | Some subplot =>
                                let* subplot' := Plots.update_frame view_range subplot n in
                                Py.Ok (fst ps, Some subplot')
                            end)
                 (subplots self) in
  Py.Ok {| layout := layout self; subplots := subs |}.

(** [GridLayoutPlot.update_frame(self, n)] *)
Definition GridLayoutPlot_update_frame (self : GridLayoutPlot) (n : Z)
    : Py.result GridLayoutPlot :=
  let* subs := Py.mapM
                 (fun cl => let* l' := LayoutPlot_update_frame (snd cl) n in
                            Py.Ok (fst cl, l'))
                 (grid_subplots self) in
  Py.Ok {| grid_subplots := subs |}.

End Renderers.

(** A layout renderer none of whose subplots has more frames than the
    layout reports. *)
Definition covers (l : LayoutPlot) : Prop :=
  Forall (fun ps => match snd ps with
                    | None => True
                    | Some p => (Plots.__len__ p <= LayoutPlot_len l)%nat
                    end)
         (subplots l).

End Composite.

(** ** Part II: properties *)

(** *** Facts about bounds and float division shared by the proofs below *)

Module BoundsFacts.

Lemma div_nonzero (a b : Q) : ~ (b == 0)%Q -> Py.div a b = Py.Ok (a / b)%Q.
Proof.
  intros Hb. unfold Py.div.
  destruct (Qeq_bool b 0) eqn:E; [|reflexivity].
  apply Qeq_bool_eq in E. contradiction.
Qed.

Lemma width_nonzero (lo hi : Q) : (lo < hi)%Q -> ~ (hi - lo == 0)%Q.
Proof.
  intros Hlt Heq.
  assert (hi == lo)%Q as E.
  { rewrite <- (Qplus_0_l lo), <- Heq. ring. }
  rewrite E in Hlt. exact (Qlt_irrefl _ Hlt).
Qed.

Lemma lbrt_eqb_same (a b : BoundingBox.t) :
  BoundingBox.lbrt_eqb a b = true <-> BoundingBox.same a b.
Proof.
  unfold BoundingBox.lbrt_eqb, BoundingBox.same.
  rewrite !andb_true_iff, !Qeq_bool_iff. tauto.
Qed.

Lemma lbrt_eqb_differ (a b : BoundingBox.t) :
  BoundingBox.lbrt_eqb a b = false <-> ~ BoundingBox.same a b.
Proof.
  rewrite <- lbrt_eqb_same. destruct (BoundingBox.lbrt_eqb a b); split; intros H.
  - discriminate.
  - exfalso; auto.
  - intros E; discriminate.
  - reflexivity.
Qed.

Lemma same_refl (a : BoundingBox.t) : BoundingBox.same a a.
Proof. repeat split; reflexivity. Qed.

Lemma same_sym (a b : BoundingBox.t) : BoundingBox.same a b -> BoundingBox.same b a.
Proof. intros (H1 & H2 & H3 & H4). repeat split; symmetry; assumption. Qed.

Lemma same_trans (a b c : BoundingBox.t) :
  BoundingBox.same a b -> BoundingBox.same b c -> BoundingBox.same a c.
Proof.
  intros (H1 & H2 & H3 & H4) (G1 & G2 & G3 & G4).
  repeat split; etransitivity; eassumption.
Qed.

End BoundsFacts.

(** *** Densities computed by the constructor *)

Module DensityProps.
Import Samples BoundsFacts.

Lemma quot_nonzero (a b : Q) : ~ (a == 0)%Q -> ~ (b == 0)%Q -> ~ (a / b == 0)%Q.
Proof.
  intros Ha Hb H. apply Ha.
  rewrite <- (Qmult_div_r a b Hb), H. ring.
Qed.

Lemma count_nonzero (n : nat) : n <> 0%nat -> ~ (inject_Z (Z.of_nat n) == 0)%Q.
Proof.
  intros Hn H. unfold Qeq in H. cbn in H. lia.
Qed.

Lemma div_zero (a b : Q) : (b == 0)%Q -> Py.div a b = Py.Raise Py.ZeroDivisionError.
Proof.
  intros Hb. unfold Py.div. apply Qeq_bool_iff in Hb. rewrite Hb. reflexivity.
Qed.

Lemma nonzero_false (q : Q) : ~ (q == 0)%Q -> Qeq_bool q 0 = false.
Proof.
  intros Hq. destruct (Qeq_bool q 0) eqn:E; [|reflexivity].
  apply Qeq_bool_eq in E. contradiction.
Qed.

(** [int] of a float that is a whole number. *)
Lemma int_whole (q : Q) (z : Z) :
  (q == inject_Z z)%Q -> SheetCoordinateSystem.int q = z.
Proof.
  intros Hq. unfold SheetCoordinateSystem.int.
  destruct (Qle_bool 0 q); rewrite Hq; [apply Qfloor_Z|apply Qceiling_Z].
Qed.

(** The coordinate system keeps the bounds and densities it is given when
    neither density is zero. *)
Lemma scs_init_given (bnds : BoundingBox.t) (xd yd : Q) :
  ~ (xd == 0)%Q -> ~ (yd == 0)%Q ->
  SheetCoordinateSystem.__init__ bnds xd yd
  = Py.Ok (SheetCoordinateSystem.mk bnds xd yd).
Proof.
  intros Hx Hy. unfold SheetCoordinateSystem.__init__.
  rewrite (nonzero_false _ Hy). cbn [Py.bind].
  rewrite (div_nonzero _ _ Hx). cbn [Py.bind].
  rewrite (div_nonzero _ _ Hy). reflexivity.
Qed.

(** A horizontal density of zero is refused, whatever the vertical one. *)
Lemma scs_init_zero (bnds : BoundingBox.t) (xd yd : Q) :
  (xd == 0)%Q ->
  SheetCoordinateSystem.__init__ bnds xd yd = Py.Raise Py.ZeroDivisionError.
Proof.
  intros Hx. unfold SheetCoordinateSystem.__init__.
  destruct (Qeq_bool yd 0) eqn:Ey.
  - unfold SheetCoordinateSystem.equalize_densities. cbn [BoundingBox.lbrt].
    set (w := (BoundingBox.right bnds - BoundingBox.left bnds)%Q).
    unfold Py.div at 1.
    destruct (Qeq_bool w 0) eqn:Ew; [reflexivity|]. cbn [Py.bind].
    assert (SheetCoordinateSystem.int (xd * w) = 0%Z) as ->.
    { apply int_whole. rewrite Hx. ring. }
    rewrite (div_zero _ (inject_Z 0 / w)); [reflexivity|].
    unfold Qdiv. ring.
  - cbn [Py.bind]. rewrite (div_zero _ _ Hx). reflexivity.
Qed.

(** Without a vertical density the coordinate system takes the horizontal
    one for both axes and adjusts the bounds; this succeeds when the
    horizontal density gives a whole, non-zero number of columns. *)
Lemma scs_init_equalized (bnds : BoundingBox.t) (xd yd : Q) (n : nat) :
  (BoundingBox.left bnds < BoundingBox.right bnds)%Q ->
  n <> 0%nat ->
  (xd == inject_Z (Z.of_nat n) / (BoundingBox.right bnds - BoundingBox.left bnds))%Q ->
  (yd == 0)%Q ->
  exists scs, SheetCoordinateSystem.__init__ bnds xd yd = Py.Ok scs.
Proof.
  intros Hw Hn Hx Hy. unfold SheetCoordinateSystem.__init__.
  apply Qeq_bool_iff in Hy. rewrite Hy.
  unfold SheetCoordinateSystem.equalize_densities. cbn [BoundingBox.lbrt].
  set (w := (BoundingBox.right bnds - BoundingBox.left bnds)%Q) in *.
  assert (~ (w == 0)%Q) as Hw0 by (apply width_nonzero; exact Hw).
  rewrite (div_nonzero _ _ Hw0). cbn [Py.bind].
  assert (SheetCoordinateSystem.int (xd * w) = Z.of_nat n) as ->.
  { apply int_whole. rewrite Hx. field. exact Hw0. }
  assert (~ (inject_Z (Z.of_nat n) / w == 0)%Q) as Htd
    by (apply quot_nonzero; [apply count_nonzero; exact Hn|exact Hw0]).
  rewrite (div_nonzero _ _ Htd). cbn [Py.bind].
  rewrite (div_nonzero _ _ Htd). cbn [Py.bind].
  eexists. reflexivity.
Qed.

(** The constructor up to its call of the coordinate system. *)
Lemma init_unfold (d : ndarray.t) (bnds : BoundingBox.t) (kw : SheetLayer.kwargs) :
  BoundingBox.nondegenerate bnds ->
  SheetView.__init__ (Some d) bnds kw
  = Py.bind
      (SheetCoordinateSystem.__init__ bnds
         (inject_Z (Z.of_nat (fst (ndarray.shape d)))
          / (BoundingBox.right bnds - BoundingBox.left bnds))
         (inject_Z (Z.of_nat (snd (ndarray.shape d)))
          / (BoundingBox.top bnds - BoundingBox.bottom bnds)))
      (fun scs =>
         Py.Ok {| SheetView.data := d;
                  SheetView.attrs :=
                    SheetLayer.set_bounds (SheetLayer.__init__ bnds kw)
                      (SheetCoordinateSystem.bounds scs);
                  SheetView.cyclic_range := SheetLayer.kw_cyclic_range kw;
                  SheetView.scs := scs |}).
Proof.
  intros [Hx Hy]. unfold SheetView.__init__.
  cbn [BoundingBox.lbrt ndarray.shape fst snd].
  rewrite (div_nonzero _ _ (width_nonzero _ _ Hx)). cbn [Py.bind].
  rewrite (div_nonzero _ _ (width_nonzero _ _ Hy)). reflexivity.
Qed.


(** What the constructor computes for an array with rows and columns: the
    first array dimension over the horizontal extent, the second over the
    vertical extent. *)
Lemma init_densities (d : ndarray.t) (bnds : BoundingBox.t) (kw : SheetLayer.kwargs) :
  BoundingBox.nondegenerate bnds ->
  fst (ndarray.shape d) <> 0%nat -> snd (ndarray.shape d) <> 0%nat ->
  exists v, SheetView.__init__ (Some d) bnds kw = Py.Ok v
    /\ SheetView.data v = d
    /\ SheetView.bounds v = bnds
    /\ SheetView.xdensity v
       = (inject_Z (Z.of_nat (fst (ndarray.shape d)))
          / (BoundingBox.right bnds - BoundingBox.left bnds))%Q
    /\ SheetView.ydensity v
       = (inject_Z (Z.of_nat (snd (ndarray.shape d)))
          / (BoundingBox.top bnds - BoundingBox.bottom bnds))%Q
    /\ SheetCoordinateSystem.bounds (SheetView.scs v) = bnds
    /\ SheetView.cyclic_range v = SheetLayer.kw_cyclic_range kw
    /\ SheetView.roi_bounds v = SheetLayer.roi_bounds (SheetLayer.__init__ bnds kw)
    /\ SheetView.style v = SheetLayer.style (SheetLayer.__init__ bnds kw)
    /\ SheetView.metadata v = SheetLayer.metadata (SheetLayer.__init__ bnds kw)
    /\ SheetLayer.title (SheetView.attrs v) = SheetLayer.kw_title kw.
Proof.
  intros Hb Hr Hc. rewrite (init_unfold d bnds kw Hb). destruct Hb as [Hx Hy].
  rewrite scs_init_given.
  - eexists. repeat split; reflexivity.
  - apply quot_nonzero; [apply count_nonzero; exact Hr|apply width_nonzero; exact Hx].
  - apply quot_nonzero; [apply count_nonzero; exact Hc|apply width_nonzero; exact Hy].
Qed.

(** The constructor succeeds on every array that has a row, over
    non-degenerate bounds; the view holds the array and the keyword
    arguments as given.  (Its bounds are those given when the array also
    has a column, see [init_densities].) *)
Lemma init_total (d : ndarray.t) (bnds : BoundingBox.t) (kw : SheetLayer.kwargs) :
  BoundingBox.nondegenerate bnds ->
  fst (ndarray.shape d) <> 0%nat ->
  exists v, SheetView.__init__ (Some d) bnds kw = Py.Ok v
    /\ SheetView.data v = d
    /\ SheetView.cyclic_range v = SheetLayer.kw_cyclic_range kw
    /\ SheetView.roi_bounds v = SheetLayer.roi_bounds (SheetLayer.__init__ bnds kw)
    /\ SheetView.style v = SheetLayer.style (SheetLayer.__init__ bnds kw)
    /\ SheetView.metadata v = SheetLayer.metadata (SheetLayer.__init__ bnds kw)
    /\ SheetLayer.title (SheetView.attrs v) = SheetLayer.kw_title kw
    /\ (snd (ndarray.shape d) <> 0%nat -> SheetView.bounds v = bnds).
Proof.
  intros Hb Hr. destruct (Nat.eq_dec (snd (ndarray.shape d)) 0) as [Hc|Hc].
  - rewrite (init_unfold d bnds kw Hb). destruct Hb as [Hx Hy].
    destruct (scs_init_equalized bnds
                (inject_Z (Z.of_nat (fst (ndarray.shape d)))
                 / (BoundingBox.right bnds - BoundingBox.left bnds))
                (inject_Z (Z.of_nat (snd (ndarray.shape d)))
                 / (BoundingBox.top bnds - BoundingBox.bottom bnds))
                (fst (ndarray.shape d)) Hx Hr) as [scs ->].
    + reflexivity.
    + rewrite Hc. unfold Qdiv. ring.
    + eexists. split; [reflexivity|]. repeat split; try reflexivity.
      intros Hne. contradiction.
  - destruct (init_densities d bnds kw Hb Hr Hc)
      as (v & E & Hd & Hbd & _ & _ & _ & Hcy & Hroi & Hst & Hm & Ht).
    exists v. repeat split; try assumption. intros _. exact Hbd.
Qed.

(** C1, at the input where the code departs from it.  A view built from the
    1x2 array [[a, b]] (one row, two columns) over the unit square gets
    xdensity 1 and ydensity 2: the row count was divided by the width and
    the column count by the height, where the stated invariant asks for
    xdensity = cols/(r-l) = 2 and ydensity = rows/(t-b) = 1. *)
Theorem init_density_axes_swapped (a b : Q) :
  exists v, SheetView.__init__ (Some (row2 a b)) unit_box SheetLayer.no_kwargs = Py.Ok v
    /\ ndarray.shape (SheetView.data v) = (1, 2)%nat
    /\ (SheetView.xdensity v == 1)%Q /\ (SheetView.ydensity v == 2)%Q
    /\ ~ (SheetView.xdensity v == 2 / (1 - 0))%Q
    /\ ~ (SheetView.ydensity v == 1 / (1 - 0))%Q.
Proof.
  eexists. split; [reflexivity|].
  repeat split; try reflexivity; intros H; discriminate H.
Qed.

(** C10.  With [data = None] and non-degenerate bounds the constructor
    succeeds; the view holds the 1x1 array [[0]] and its densities are
    1/(r-l) and 1/(t-b). *)
Theorem init_None_default_array (bnds : BoundingBox.t) (kw : SheetLayer.kwargs) :
  BoundingBox.nondegenerate bnds ->
  exists v, SheetView.__init__ None bnds kw = Py.Ok v
    /\ SheetView.data v = ndarray.of_rows [[npfloat.Fin 0]]
    /\ ndarray.shape (SheetView.data v) = (1, 1)%nat
    /\ SheetView.xdensity v
       = (1 / (BoundingBox.right bnds - BoundingBox.left bnds))%Q
    /\ SheetView.ydensity v
       = (1 / (BoundingBox.top bnds - BoundingBox.bottom bnds))%Q.
Proof.
  intros Hb.
  change (SheetView.__init__ None bnds kw)
    with (SheetView.__init__ (Some (ndarray.of_rows [[npfloat.Fin 0]])) bnds kw).
  rewrite (init_unfold _ bnds kw Hb). destruct Hb as [Hx Hy].
  rewrite scs_init_given.
  - eexists. repeat split; reflexivity.
  - apply quot_nonzero; [discriminate|apply width_nonzero; exact Hx].
  - apply quot_nonzero; [discriminate|apply width_nonzero; exact Hy].
Qed.

Lemma unit_box_nondegenerate : BoundingBox.nondegenerate unit_box.
Proof. split; reflexivity. Qed.

Lemma init_None_default_array_witness :
  BoundingBox.nondegenerate unit_box
  /\ exists v, SheetView.__init__ None unit_box SheetLayer.no_kwargs = Py.Ok v
       /\ SheetView.data v = ndarray.of_rows [[npfloat.Fin 0]]
       /\ ndarray.shape (SheetView.data v) = (1, 1)%nat
       /\ SheetView.xdensity v = (1 / (1 - 0))%Q
       /\ SheetView.ydensity v = (1 / (1 - 0))%Q.
Proof.
  split; [exact unit_box_nondegenerate|].
  exact (init_None_default_array unit_box SheetLayer.no_kwargs unit_box_nondegenerate).
Defined.

End DensityProps.

(** *** Overlays accept only layers with their own bounds *)

Module OverlayProps.
Import Samples BoundsFacts.

Lemma add_differ (self : SheetOverlay.t) (x : layer) :
  ~ BoundingBox.same (layer_bounds x) (SheetOverlay.bounds self) ->
  SheetOverlay.add self x = Py.Raise SheetOverlay.mismatch.
Proof.
  intros H. apply lbrt_eqb_differ in H. unfold SheetOverlay.add.
  rewrite H. reflexivity.
Qed.

Lemma add_same (self : SheetOverlay.t) (x : layer) :
  BoundingBox.same (layer_bounds x) (SheetOverlay.bounds self) ->
  SheetOverlay.add self x
  = Py.Ok (SheetOverlay.mk (SheetOverlay.data self ++ [x]) (SheetOverlay.attrs self)).
Proof.
  intros H. apply lbrt_eqb_same in H. unfold SheetOverlay.add.
  rewrite H. reflexivity.
Qed.

(** The loop of [set] on layers that all fit appends them in order. *)
Lemma add_all_same (layers : list layer) : forall self,
  Forall (fun x => BoundingBox.same (layer_bounds x) (SheetOverlay.bounds self)) layers ->
  SheetOverlay.add_all self layers
  = Py.Ok (SheetOverlay.mk (SheetOverlay.data self ++ layers) (SheetOverlay.attrs self)).
Proof.
  induction layers as [|x rest IH]; intros self Hall; cbn.
  - rewrite app_nil_r. destruct self; reflexivity.
  - inversion Hall as [|? ? Hx Hrest]; subst.
    rewrite (add_same _ _ Hx). cbn.
    rewrite IH by exact Hrest. cbn.
    rewrite <- app_assoc. reflexivity.
Qed.

(** The loop of [set] stops with the error at the first layer that does
    not fit. *)
Lemma add_all_differ (layers : list layer) : forall self,
  Exists (fun x => ~ BoundingBox.same (layer_bounds x) (SheetOverlay.bounds self)) layers ->
  SheetOverlay.add_all self layers = Py.Raise SheetOverlay.mismatch.
Proof.
  induction layers as [|x rest IH]; intros self Hex.
  - inversion Hex.
  - cbn. destruct (BoundingBox.lbrt_eqb (layer_bounds x) (SheetOverlay.bounds self)) eqn:E.
    + apply lbrt_eqb_same in E. rewrite (add_same _ _ E). cbn.
      apply IH. inversion Hex as [? ? Hx|? ? Hrest]; subst.
      * contradiction.
      * exact Hrest.
    + apply lbrt_eqb_differ in E. rewrite (add_differ _ _ E). reflexivity.
Qed.

(** C6.  Adding a layer whose bounds differ from the overlay's raises the
    bounds-mismatch error and adding one with equal bounds appends it; the
    constructor, which adds the given layers one by one, raises the same
    error as soon as one of them has bounds differing from the overlay's
    and otherwise holds exactly the given layers. *)
Theorem overlay_add_checks_bounds (self : SheetOverlay.t) (x : layer)
    (layers : list layer) (bnds : BoundingBox.t) (kw : SheetLayer.kwargs) :
  (~ BoundingBox.same (layer_bounds x) (SheetOverlay.bounds self) ->
     SheetOverlay.add self x = Py.Raise SheetOverlay.mismatch)
  /\ (BoundingBox.same (layer_bounds x) (SheetOverlay.bounds self) ->
     SheetOverlay.add self x
     = Py.Ok (SheetOverlay.mk (SheetOverlay.data self ++ [x]) (SheetOverlay.attrs self)))
  /\ (Exists (fun y => ~ BoundingBox.same (layer_bounds y) bnds) layers ->
     SheetOverlay.__init__ layers bnds kw = Py.Raise SheetOverlay.mismatch)
  /\ (Forall (fun y => BoundingBox.same (layer_bounds y) bnds) layers ->
     SheetOverlay.__init__ layers bnds kw
     = Py.Ok (SheetOverlay.mk layers (SheetLayer.__init__ bnds kw))).
Proof.
  split; [apply add_differ|]. split; [apply add_same|]. split.
  - intros Hex. unfold SheetOverlay.__init__, SheetOverlay.set. cbn.
    apply add_all_differ. exact Hex.
  - intros Hall. unfold SheetOverlay.__init__, SheetOverlay.set. cbn.
    rewrite add_all_same by exact Hall. reflexivity.
Qed.

Lemma overlay_add_checks_bounds_witness :
  let self := SheetOverlay.mk [points_on unit_box] (plain_attrs unit_box) in
  SheetOverlay.add self (points_on wide_box) = Py.Raise SheetOverlay.mismatch
  /\ SheetOverlay.add self (contours_on unit_box)
     = Py.Ok (SheetOverlay.mk [points_on unit_box; contours_on unit_box]
                (plain_attrs unit_box))
  /\ SheetOverlay.__init__ [points_on unit_box; points_on wide_box] unit_box
       SheetLayer.no_kwargs = Py.Raise SheetOverlay.mismatch
  /\ SheetOverlay.__init__ [points_on unit_box; contours_on unit_box] unit_box
       SheetLayer.no_kwargs
     = Py.Ok (SheetOverlay.mk [points_on unit_box; contours_on unit_box]
                (plain_attrs unit_box)).
Proof.
  intros self.
  pose proof (overlay_add_checks_bounds self (points_on wide_box)
                [points_on unit_box; points_on wide_box] unit_box
                SheetLayer.no_kwargs) as (Hd & _ & Hi & _).
  pose proof (overlay_add_checks_bounds self (contours_on unit_box)
                [points_on unit_box; contours_on unit_box] unit_box
                SheetLayer.no_kwargs) as (_ & Hs & _ & Ha).
  split; [|split; [|split]].
  - apply Hd. apply lbrt_eqb_differ. reflexivity.
  - apply Hs. apply lbrt_eqb_same. reflexivity.
  - apply Hi. apply Exists_cons_tl, Exists_cons_hd. apply lbrt_eqb_differ. reflexivity.
  - apply Ha. repeat constructor; reflexivity.
Defined.

End OverlayProps.

(** *** Stacks stay homogeneous *)

Module StackProps.
Import Samples StackStates BoundsFacts.

Section UpdateItem.
Context {K V : Type} (eqb ltb : K -> K -> bool).

Lemma update_item_In (k : K) (v : V) (items : list (K * V)) (kv : K * V) :
  In kv (NdMapping.update_item eqb ltb k v items) -> kv = (k, v) \/ In kv items.
Proof.
  induction items as [|[k' v'] rest IH]; cbn.
  - intros [E|[]]. left; congruence.
  - destruct (eqb k k').
    + intros [E|H]; [left; congruence|right; right; exact H].
    + destruct (ltb k k').
      * intros [E|H]; [left; congruence|right; exact H].
      * intros [E|H]; [right; left; exact E|].
        destruct (IH H) as [E|H']; [left; exact E|right; right; exact H'].
Qed.

Lemma top_In (items : list (K * V)) (v : V) :
  NdMapping.top items = Some v -> exists k, In (k, v) items.
Proof.
  unfold NdMapping.top, NdMapping.values. intros H.
  apply last_Some in H as [l' Hl'].
  assert (In v (map snd items)) as Hin.
  { rewrite Hl'. apply in_or_app. right. left. reflexivity. }
  apply in_map_iff in Hin as [[k v'] [E Hin]]. cbn in E. subst v'.
  exists k. exact Hin.
Qed.

End UpdateItem.

Lemma class_eqb_eq (a b : layer_class) : class_eqb a b = true <-> a = b.
Proof. destruct a, b; cbn; split; congruence. Qed.

(** The type of a non-empty stack is the type of one of its entries. *)
Lemma type_of_entry (s : SheetStack.t) (c : layer_class) :
  SheetStack.type s = Some c ->
  exists k x, In (k, x) (SheetStack.items s) /\ class_of x = c.
Proof.
  unfold SheetStack.type, SheetStack.top.
  destruct (Nat.eqb _ 0); [discriminate|].
  destruct (NdMapping.top (SheetStack.items s)) as [x|] eqn:E; [|discriminate].
  cbn. intros [= <-]. apply top_In in E as [k Hk]. exists k, x. split; [exact Hk|reflexivity].
Qed.

Lemma type_None_empty (s : SheetStack.t) :
  SheetStack.type s = None -> SheetStack.items s = [].
Proof.
  unfold SheetStack.type, SheetStack.top, NdMapping.top, NdMapping.values.
  destruct (SheetStack.items s) as [|kv rest]; [reflexivity|].
  cbn [length Nat.eqb]. intros H.
  destruct (last (map snd (kv :: rest))) eqn:E; [discriminate|].
  apply last_None in E. discriminate.
Qed.

(** The outcome of the check, case by case. *)
Lemma item_check_Ok (s s' : SheetStack.t) (k : list Z) (x : layer) :
  SheetStack._item_check s k x = (s', Py.Ok tt) ->
  SheetStack.items s' = SheetStack.items s
  /\ (exists sb, SheetStack.bounds s' = Some sb
                 /\ BoundingBox.same (layer_bounds x) sb
                 /\ (forall b, SheetStack.bounds s = Some b -> b = sb))
  /\ (forall c, SheetStack.type s = Some c -> class_of x = c).
Proof.
  unfold SheetStack._item_check.
  set (sb := match SheetStack.bounds s with None => layer_bounds x | Some b => b end).
  destruct (BoundingBox.lbrt_eqb (layer_bounds x) sb) eqn:Eb; cbn [negb];
    [|intros [= _ H]; discriminate].
  apply lbrt_eqb_same in Eb.
  change (SheetStack.type (SheetStack.set_bounds s (Some sb))) with (SheetStack.type s).
  destruct (SheetStack.type s) as [ty|] eqn:Et.
  - destruct (class_eqb (class_of x) ty) eqn:Ec; cbn [negb];
      [|intros [= _ H]; discriminate].
    apply class_eqb_eq in Ec. intros [= <- _]. cbn. split; [reflexivity|]. split.
    + exists sb. split; [reflexivity|]. split; [exact Eb|].
      intros b Hb. subst sb. rewrite Hb. reflexivity.
    + intros c [= <-]. exact Ec.
  - intros [= <- _]. cbn. split; [reflexivity|]. split.
    + exists sb. split; [reflexivity|]. split; [exact Eb|].
      intros b Hb. subst sb. rewrite Hb. reflexivity.
    + intros c [=].
Qed.

Lemma item_check_keeps (s : SheetStack.t) (k : list Z) (x : layer) :
  SheetStack.items (fst (SheetStack._item_check s k x)) = SheetStack.items s
  /\ (forall b, SheetStack.bounds s = Some b ->
        SheetStack.bounds (fst (SheetStack._item_check s k x)) = Some b).
Proof.
  unfold SheetStack._item_check.
  set (sb := match SheetStack.bounds s with None => layer_bounds x | Some b => b end).
  assert (forall b, SheetStack.bounds s = Some b -> Some sb = Some b) as Hb.
  { intros b E. subst sb. rewrite E. reflexivity. }
  destruct (negb _); [split; [reflexivity|exact Hb]|].
  destruct (SheetStack.type _); [|split; [reflexivity|exact Hb]].
  destruct (negb _); split; try reflexivity; exact Hb.
Qed.

Lemma add_item_preserves (s : SheetStack.t) (k : list Z) (x : layer) :
  homogeneous s -> homogeneous (fst (SheetStack._add_item s k x)).
Proof.
  intros [Hcls Hbnd]. unfold SheetStack._add_item.
  destruct (SheetStack._item_check s k x) as [s' [[]|e]] eqn:E.
  - apply item_check_Ok in E as (Hit & (sb & Hsb & Hsame & Hold) & Hty).
    cbn [fst]. split.
    + cbn. rewrite Hit. intros k1 x1 k2 x2 H1 H2.
      apply update_item_In in H1, H2.
      assert (forall k0 x0, In (k0, x0) (SheetStack.items s) -> class_of x0 = class_of x) as Hx.
      { intros k0 x0 Hin.
        destruct (SheetStack.type s) as [c|] eqn:Et.
        - destruct (type_of_entry _ _ Et) as (kt & xt & Hint & Hc).
          rewrite (Hty c eq_refl). rewrite <- Hc. exact (Hcls _ _ _ _ Hin Hint).
        - apply type_None_empty in Et. rewrite Et in Hin. destruct Hin. }
      destruct H1 as [[= -> ->]|H1], H2 as [[= -> ->]|H2].
      * reflexivity.
      * symmetry. exact (Hx _ _ H2).
      * exact (Hx _ _ H1).
      * exact (Hcls _ _ _ _ H1 H2).
    + cbn. rewrite Hit. intros k1 x1 H1. exists sb. split; [exact Hsb|].
      apply update_item_In in H1 as [[= -> ->]|H1]; [exact Hsame|].
      destruct (Hbnd _ _ H1) as (b & Hb & Hs). rewrite (Hold _ Hb) in Hs. exact Hs.
  - cbn [fst].
    pose proof (item_check_keeps s k x) as [Hit Hb]. rewrite E in Hit, Hb. cbn [fst] in Hit, Hb.
    split.
    + rewrite Hit. exact Hcls.
    + rewrite Hit. intros k1 x1 H1. destruct (Hbnd _ _ H1) as (b & Eb & Hs).
      exists b. split; [apply Hb; exact Eb|exact Hs].
Qed.

Lemma reachable_homogeneous (s : SheetStack.t) : reachable s -> homogeneous s.
Proof.
  induction 1 as [b dt nd|s k x _ IH].
  - split; cbn; intros; contradiction.
  - apply add_item_preserves. exact IH.
Qed.

Lemma add_item_type_mismatch (s : SheetStack.t) (k : list Z) (x : layer) (c : layer_class) :
  SheetStack.type s = Some c -> class_of x <> c -> refused s k x.
Proof.
  intros Et Hne. unfold refused, SheetStack._add_item, SheetStack._item_check.
  set (sb := match SheetStack.bounds s with None => layer_bounds x | Some b => b end).
  destruct (negb (BoundingBox.lbrt_eqb (layer_bounds x) sb)).
  - cbn. split; [eexists; reflexivity|reflexivity].
  - change (SheetStack.type (SheetStack.set_bounds s (Some sb))) with (SheetStack.type s).
    rewrite Et. destruct (class_eqb (class_of x) c) eqn:Ec.
    + apply class_eqb_eq in Ec. contradiction.
    + cbn. split; [eexists; reflexivity|reflexivity].
Qed.

Lemma add_item_bounds_mismatch (s : SheetStack.t) (k : list Z) (x : layer) (sb : BoundingBox.t) :
  SheetStack.bounds s = Some sb -> ~ BoundingBox.same (layer_bounds x) sb -> refused s k x.
Proof.
  intros Eb Hne. unfold refused, SheetStack._add_item, SheetStack._item_check.
  rewrite Eb. apply lbrt_eqb_differ in Hne. rewrite Hne.
  cbn. split; [eexists; reflexivity|reflexivity].
Qed.

(** C7.  Every reachable stack is homogeneous: its entries all have the
    same concrete type and the bounds of the stack.  Inserting an element
    whose type differs from the type of the existing entries, or whose
    bounds differ from the stack's bounds, raises an assertion error and
    leaves the entries untouched. *)
Theorem stack_invariant (s : SheetStack.t) (k : list Z) (x : layer) :
  reachable s ->
  homogeneous s
  /\ (forall c, SheetStack.type s = Some c -> class_of x <> c -> refused s k x)
  /\ (forall sb, SheetStack.bounds s = Some sb ->
        ~ BoundingBox.same (layer_bounds x) sb -> refused s k x).
Proof.
  intros Hr. split; [exact (reachable_homogeneous s Hr)|]. split.
  - intros c. apply add_item_type_mismatch.
  - intros sb. apply add_item_bounds_mismatch.
Qed.

Lemma stack_invariant_witness :
  reachable one_frame
  /\ homogeneous one_frame
  /\ refused one_frame [1%Z] (contours_on unit_box)
  /\ refused one_frame [1%Z] (points_on wide_box).
Proof.
  assert (reachable one_frame) as Hr by (apply reach_add, reach_new).
  split; [exact Hr|].
  destruct (stack_invariant one_frame [1%Z] (contours_on unit_box) Hr) as (Hh & Hty & _).
  destruct (stack_invariant one_frame [1%Z] (points_on wide_box) Hr) as (_ & _ & Hb).
  split; [exact Hh|]. split.
  - apply (Hty SheetPointsC); [reflexivity|discriminate].
  - apply (Hb unit_box); [reflexivity|]. apply lbrt_eqb_differ. reflexivity.
Defined.

End StackProps.

(** *** Slicing a view in sheet coordinates *)

Module SliceProps.
Import Samples BoundsFacts.

(** Slicing by two ranges keeps the cyclic range, the style and the
    metadata of the view. *)
Lemma getitem_keeps_metadata (v w : SheetView.t) (xs ys : option Q * option Q) :
  SheetView.__getitem__ v
    (SheetView.Tuple [SheetView.Slc (fst xs) (snd xs); SheetView.Slc (fst ys) (snd ys)])
  = Py.Ok (SheetView.Sub w) ->
  SheetView.cyclic_range w = SheetView.cyclic_range v
  /\ SheetView.style w = SheetView.style v
  /\ SheetView.metadata w = SheetView.metadata v.
Proof.
  unfold SheetView.__getitem__. cbn [existsb forallb SheetView.is_slice negb orb andb].
  destruct (BoundingBox.lbrt (SheetView.bounds v)) as [[[l b] r] t].
  unfold SheetView.__init__.
  match goal with |- context [BoundingBox.lbrt ?B] => destruct (BoundingBox.lbrt B) as [[[l' b'] r'] t'] end.
  match goal with |- context [ndarray.shape ?D] => destruct (ndarray.shape D) as [d1 d2] end.
  destruct (Py.div _ (r' - l')) as [xd|e]; cbn [Py.bind]; [|discriminate].
  destruct (Py.div _ (t' - b')) as [yd|e]; cbn [Py.bind]; [|discriminate].
  destruct (SheetCoordinateSystem.__init__ _ xd yd) as [cs|e]; cbn [Py.bind];
    [|discriminate].
  intros [= <-]. repeat split.
Qed.

Lemma Qfloor_plus_half (z : Z) : Qfloor (inject_Z z + (1 # 2)) = z.
Proof.
  unfold Qfloor, Qplus, inject_Z. cbn.
  symmetry. apply (Z.div_unique _ _ _ 1); lia.
Qed.

Lemma times_density (n lo hi : Q) : (lo < hi)%Q -> ((hi - lo) * (n / (hi - lo)) == n)%Q.
Proof. intros H. field. apply width_nonzero, H. Qed.

(** The index ranges of the full bounds, when the densities are the column
    count over the width and the row count over the height. *)
Lemma Slice_whole (bnds : BoundingBox.t) (xd yd : Q) (rows cols : Z) :
  BoundingBox.nondegenerate bnds ->
  (xd == inject_Z cols / (BoundingBox.right bnds - BoundingBox.left bnds))%Q ->
  (yd == inject_Z rows / (BoundingBox.top bnds - BoundingBox.bottom bnds))%Q ->
  SheetCoordinateSystem.Slice bnds (SheetCoordinateSystem.mk bnds xd yd)
  = (0, rows, 0, cols)%Z.
Proof.
  intros [Hx Hy] Exd Eyd. destruct bnds as [l b r t].
  cbn [BoundingBox.left BoundingBox.bottom BoundingBox.right BoundingBox.top] in *.
  unfold SheetCoordinateSystem.Slice, SheetCoordinateSystem.sheet2matrix.
  cbn [BoundingBox.lbrt BoundingBox.left BoundingBox.bottom BoundingBox.right
       BoundingBox.top SheetCoordinateSystem.bounds SheetCoordinateSystem.xdensity
       SheetCoordinateSystem.ydensity].
  assert ((t - t) * yd - (1 # 2) == - (1 # 2))%Q as E1 by ring.
  assert ((l - l) * xd - (1 # 2) == - (1 # 2))%Q as E2 by ring.
  assert ((t - b) * yd + (1 # 2) == inject_Z rows + (1 # 2))%Q as E3.
  { rewrite Eyd, (times_density _ _ _ Hy). reflexivity. }
  assert ((r - l) * xd + (1 # 2) == inject_Z cols + (1 # 2))%Q as E4.
  { rewrite Exd, (times_density _ _ _ Hx). reflexivity. }
  rewrite E1, E2, E3, E4, !Qfloor_plus_half. reflexivity.
Qed.

Lemma clamp_bound_0 (n : nat) : Py.clamp_bound n 0 = 0%nat.
Proof.
  unfold Py.clamp_bound. cbv zeta. cbn [Z.ltb Z.compare].
  destruct (Z.ltb_spec (Z.of_nat n) 0); [lia|reflexivity].
Qed.

Lemma clamp_bound_len (n : nat) : Py.clamp_bound n (Z.of_nat n) = n.
Proof.
  unfold Py.clamp_bound. cbv zeta.
  assert ((Z.of_nat n <? 0)%Z = false) as E by (apply Z.ltb_ge; lia).
  rewrite E. cbv iota. rewrite E, Z.ltb_irrefl. apply Nat2Z.id.
Qed.

Lemma slice_whole {A} (l : list A) : Py.slice l 0 (Z.of_nat (length l)) = l.
Proof.
  unfold Py.slice. rewrite clamp_bound_0, clamp_bound_len, Nat.sub_0_r.
  apply firstn_all.
Qed.

Lemma submatrix_whole (d : ndarray.t) :
  ndarray.wf d ->
  ndarray.submatrix d 0 (Z.of_nat (length (ndarray.cells d))) 0 (Z.of_nat (ndarray.width d))
  = d.
Proof.
  intros Hwf. destruct d as [cells width]. unfold ndarray.submatrix, ndarray.wf in *.
  cbn [ndarray.cells ndarray.width] in *. rewrite slice_whole. f_equal.
  - induction Hwf as [|row rows Hrow _ IH]; [reflexivity|].
    cbn [map]. rewrite IH. rewrite <- Hrow, slice_whole. reflexivity.
  - rewrite clamp_bound_0, clamp_bound_len. lia.
Qed.

Lemma max_same (q : Q) : Py.max q q = q.
Proof. unfold Py.max. destruct (Qle_bool q q); reflexivity. Qed.

Lemma min_same (q : Q) : Py.min q q = q.
Proof. unfold Py.min. destruct (Qle_bool q q); reflexivity. Qed.

Lemma of_points_corners (bnds : BoundingBox.t) :
  BoundingBox.nondegenerate bnds ->
  BoundingBox.of_points (BoundingBox.left bnds, BoundingBox.bottom bnds)
                        (BoundingBox.right bnds, BoundingBox.top bnds) = bnds.
Proof.
  intros [Hx Hy]. destruct bnds as [l b r t]. cbn in *.
  unfold BoundingBox.of_points, Py.min, Py.max. cbn.
  rewrite (proj2 (Qle_bool_iff l r) (Qlt_le_weak _ _ Hx)).
  rewrite (proj2 (Qle_bool_iff b t) (Qlt_le_weak _ _ Hy)).
  destruct (Qle_bool r l) eqn:E1.
  { apply Qle_bool_iff in E1. exfalso. exact (Qlt_not_le _ _ Hx E1). }
  destruct (Qle_bool t b) eqn:E2.
  { apply Qle_bool_iff in E2. exfalso. exact (Qlt_not_le _ _ Hy E2). }
  reflexivity.
Qed.

(** For a square array the exchange of the two densities does no harm:
    slicing by the full bounds gives the data back. *)
Lemma getitem_full_bounds_square (d : ndarray.t) (bnds : BoundingBox.t)
    (kw : SheetLayer.kwargs) (v : SheetView.t) (n : nat) :
  BoundingBox.nondegenerate bnds ->
  ndarray.wf d -> ndarray.shape d = (n, n) ->
  SheetView.__init__ (Some d) bnds kw = Py.Ok v ->
  exists w,
    SheetView.__getitem__ v
      (SheetView.Tuple
         [SheetView.Slc (Some (BoundingBox.left bnds)) (Some (BoundingBox.right bnds));
          SheetView.Slc (Some (BoundingBox.bottom bnds)) (Some (BoundingBox.top bnds))])
    = Py.Ok (SheetView.Sub w)
    /\ SheetView.data w = d /\ SheetView.bounds w = bnds.
Proof.
  intros Hnd Hwf Hsh Hv.
  assert (n <> 0%nat) as Hn.
  { intros ->. rewrite (DensityProps.init_unfold d bnds kw Hnd) in Hv.
    rewrite DensityProps.scs_init_zero in Hv; [discriminate|].
    rewrite Hsh. unfold Qdiv. cbn [fst Z.of_nat]. ring. }
  assert (fst (ndarray.shape d) <> 0%nat /\ snd (ndarray.shape d) <> 0%nat) as [Hr Hc]
    by (rewrite Hsh; split; exact Hn).
  destruct (DensityProps.init_densities d bnds kw Hnd Hr Hc)
    as (v' & Hv' & Hd & Hb & Hxd & Hyd & Hcs & _).
  rewrite Hv in Hv'. injection Hv' as <-.
  assert (SheetView.scs v
          = SheetCoordinateSystem.mk bnds (SheetView.xdensity v) (SheetView.ydensity v)) as Hscs.
  { unfold SheetView.xdensity, SheetView.ydensity. rewrite <- Hcs at 1.
    destruct (SheetView.scs v). reflexivity. }
  unfold SheetView.__getitem__.
  cbn [existsb forallb SheetView.is_slice negb orb andb].
  rewrite Hb. cbn [BoundingBox.lbrt].
  rewrite !max_same, !min_same, (of_points_corners bnds Hnd), Hscs.
  rewrite (Slice_whole bnds _ _ (Z.of_nat n) (Z.of_nat n) Hnd).
  - rewrite Hd. unfold SheetCoordinateSystem.submatrix.
    pose proof (submatrix_whole d Hwf) as Hwhole.
    unfold ndarray.shape in Hsh. injection Hsh as Hrows Hcols.
    rewrite Hrows, Hcols in Hwhole. rewrite Hwhole.
    destruct (DensityProps.init_densities d bnds
                (SheetLayer.mk_kwargs None None (Some (SheetView.style v))
                   (Some (SheetView.metadata v)) (SheetView.cyclic_range v)) Hnd Hr Hc)
      as (w & Hw & Hwd & Hwb & _).
    rewrite Hw. cbn. exists w. split; [reflexivity|]. split; assumption.
  - rewrite Hxd, Hsh. reflexivity.
  - rewrite Hyd, Hsh. reflexivity.
Qed.


(** In the ordinary case a region outside the bounds gives a view without
    data: here the region beside a 2x2 view on the unit square. *)
Example getitem_outside_empty :
  exists v w, view_on_unit_box square4 = Py.Ok v
    /\ SheetView.__getitem__ v beside_unit_box = Py.Ok (SheetView.Sub w)
    /\ ndarray.flat (SheetView.data w) = []
    /\ ndarray.shape (SheetView.data w) = (2, 0)%nat.
Proof. eexists. eexists. repeat split; reflexivity. Qed.

(** C2, at an input where the code departs from it.  On a view over the
    unit square, whatever its data, the slice pair [2:3, 1:2] describes a
    region that lies entirely outside the bounds; the requested vertical
    range is clamped to the single height 1, the sliced view is built on
    bounds of zero height, and indexing raises a division-by-zero error
    where an empty result is promised. *)
Theorem getitem_outside_raises (v : SheetView.t) :
  SheetView.bounds v = unit_box ->
  (forall x y, (2 <= x <= 3)%Q -> (1 <= y <= 2)%Q ->
     BoundingBox.contains (SheetView.bounds v) x y = false)
  /\ SheetView.__getitem__ v right_of_unit_box = Py.Raise Py.ZeroDivisionError.
Proof.
  intros Hb. split.
  - intros x y [Hx _] _. rewrite Hb. unfold BoundingBox.contains, unit_box. cbn.
    destruct (Qle_bool x 1) eqn:E; [|rewrite andb_false_r; reflexivity].
    apply Qle_bool_iff in E. exfalso.
    apply (Qle_not_lt _ _ (Qle_trans _ _ _ Hx E)). reflexivity.
  - unfold SheetView.__getitem__, right_of_unit_box.
    cbn [existsb forallb SheetView.is_slice negb orb andb].
    rewrite Hb. cbn -[SheetCoordinateSystem.submatrix SheetCoordinateSystem.Slice].
    unfold SheetView.__init__.
    cbn -[SheetCoordinateSystem.submatrix SheetCoordinateSystem.Slice]. reflexivity.
Qed.

Lemma getitem_outside_raises_witness :
  exists v, view_on_unit_box (row2 3 7) = Py.Ok v
    /\ SheetView.bounds v = unit_box
    /\ BoundingBox.contains (SheetView.bounds v) 2 1 = false
    /\ SheetView.__getitem__ v right_of_unit_box = Py.Raise Py.ZeroDivisionError.
Proof.
  eexists. split; [reflexivity|]. split; [reflexivity|].
  split; [reflexivity|].
  apply getitem_outside_raises. reflexivity.
Defined.

(** C8, at an input where the code departs from it.  The view built from
    the 1x2 array [[a, b]] over the unit square, sliced by ranges that cover
    exactly its bounds, comes back with the 1x1 array [[a]]: the second
    column is lost, because the densities computed by the constructor have
    their axes exchanged and the column range is cut at the row count. *)
Theorem getitem_full_bounds_truncates (a b : Q) :
  exists v w, view_on_unit_box (row2 a b) = Py.Ok v
    /\ SheetView.__getitem__ v whole_unit_box = Py.Ok (SheetView.Sub w)
    /\ SheetView.bounds w = SheetView.bounds v
    /\ SheetView.data w = ndarray.of_rows [[npfloat.Fin a]]
    /\ SheetView.data w <> SheetView.data v.
Proof.
  eexists. eexists. split; [reflexivity|]. split; [reflexivity|].
  split; [reflexivity|]. split; [reflexivity|]. cbn. discriminate.
Qed.

End SliceProps.

(** *** Adding to a projection grid outside its bounds *)

Module GridProps.
Import Samples BoundsFacts.

Section Grid.
Context {V : Type}.
Implicit Types (g : ProjectionGrid.t V) (k : Q * Q) (v : V).

Lemma update_item_has k v (its : list (Q * Q * V)) :
  In (k, v) (NdMapping.update_item ProjectionGrid.key_eqb ProjectionGrid.key_ltb k v its).
Proof.
  induction its as [|[k' v'] rest IH]; cbn.
  - left; reflexivity.
  - destruct (ProjectionGrid.key_eqb k k'); [left; reflexivity|].
    destruct (ProjectionGrid.key_ltb k k'); [left; reflexivity|right; exact IH].
Qed.

Lemma store_unsorted_has k v (its : list (Q * Q * V)) :
  In (k, v) (ProjectionGrid.store_unsorted k v its).
Proof.
  unfold ProjectionGrid.store_unsorted.
  destruct (existsb _ its) eqn:E.
  - apply existsb_exists in E as [kv [Hin Hk]].
    apply in_map_iff. exists kv. rewrite Hk. split; [reflexivity|exact Hin].
  - apply in_or_app. right. left. reflexivity.
Qed.

(** With non-zero densities every coordinate pair snaps to a cell centre. *)
Lemma transform_indices_Ok g k :
  ~ (SheetCoordinateSystem.xdensity (ProjectionGrid.scs g) == 0)%Q ->
  ~ (SheetCoordinateSystem.ydensity (ProjectionGrid.scs g) == 0)%Q ->
  exists k', ProjectionGrid._transform_indices g k = Py.Ok k'.
Proof.
  intros Hx Hy.
  unfold ProjectionGrid._transform_indices, ProjectionGrid._transform_value,
    SheetCoordinateSystem.closest_cell_center, SheetCoordinateSystem.matrixidx2sheet.
  destruct (SheetCoordinateSystem.sheet2matrixidx _ (fst k) 0) as [r c].
  destruct (SheetCoordinateSystem.sheet2matrixidx _ 0 (snd k)) as [r' c'].
  rewrite !(div_nonzero _ _ Hx), !(div_nonzero _ _ Hy). cbn.
  eexists. reflexivity.
Qed.

(** C9.  When the coordinate pair lies outside the bounds of the grid, and
    the grid is otherwise able to take the item (its densities are not
    zero and the item passes the mapping's own check), [_add_item] records
    the warning that the data could not be added and still stores the item
    under the transformed coordinates. *)
Theorem add_item_outside_warns_and_inserts g k v (sort : bool) :
  BoundingBox.contains (ProjectionGrid.bounds g) (fst k) (snd k) = false ->
  ~ (SheetCoordinateSystem.xdensity (ProjectionGrid.scs g) == 0)%Q ->
  ~ (SheetCoordinateSystem.ydensity (ProjectionGrid.scs g) == 0)%Q ->
  ProjectionGrid._item_check g k v = Py.Ok tt ->
  exists k',
    ProjectionGrid._transform_indices g k = Py.Ok k'
    /\ snd (ProjectionGrid._add_item g k v sort) = Py.Ok tt
    /\ ProjectionGrid.warnings (fst (ProjectionGrid._add_item g k v sort))
       = ProjectionGrid.warnings g ++ [ProjectionGrid.outside_msg]
    /\ In (k', v) (ProjectionGrid.items (fst (ProjectionGrid._add_item g k v sort))).
Proof.
  intros Hout Hx Hy Hchk.
  destruct (transform_indices_Ok g k Hx Hy) as [k' Hk'].
  exists k'. split; [exact Hk'|].
  unfold ProjectionGrid._add_item. rewrite Hout. cbn [negb].
  change (ProjectionGrid._item_check (ProjectionGrid.warning g ProjectionGrid.outside_msg) k v)
    with (ProjectionGrid._item_check g k v).
  rewrite Hchk.
  change (ProjectionGrid._transform_indices (ProjectionGrid.warning g ProjectionGrid.outside_msg) k)
    with (ProjectionGrid._transform_indices g k).
  rewrite Hk'. unfold ProjectionGrid.super_add_item.
  assert (ProjectionGrid._item_check (ProjectionGrid.warning g ProjectionGrid.outside_msg) k' v
          = Py.Ok tt) as ->.
  { unfold ProjectionGrid._item_check in *. cbn. exact Hchk. }
  cbn. split; [reflexivity|]. split; [reflexivity|].
  destruct sort; [apply update_item_has|apply store_unsorted_has].
Qed.

End Grid.

Lemma add_item_outside_warns_and_inserts_witness :
  BoundingBox.contains (ProjectionGrid.bounds grid22) 5 5 = false
  /\ exists k',
       ProjectionGrid._transform_indices grid22 (5, 5)%Q = Py.Ok k'
       /\ snd (ProjectionGrid._add_item grid22 (5, 5)%Q 42%nat true) = Py.Ok tt
       /\ ProjectionGrid.warnings (fst (ProjectionGrid._add_item grid22 (5, 5)%Q 42%nat true))
          = ProjectionGrid.warnings grid22 ++ [ProjectionGrid.outside_msg]
       /\ In (k', 42%nat)
            (ProjectionGrid.items (fst (ProjectionGrid._add_item grid22 (5, 5)%Q 42%nat true))).
Proof.
  split; [reflexivity|].
  apply (add_item_outside_warns_and_inserts grid22 (5, 5)%Q 42%nat true).
  - reflexivity.
  - intros H; discriminate H.
  - intros H; discriminate H.
  - reflexivity.
Defined.

End GridProps.

(** *** Hue-confidence-strength composition *)

Module HCSProps.
Import Samples BoundsFacts Transform.






Lemma map_cells_wf (f : npfloat.t -> npfloat.t) (a : ndarray.t) :
  ndarray.wf a -> ndarray.wf (ndarray.map_cells f a).
Proof.
  unfold ndarray.wf. cbn. intros H. induction H as [|row rows Hrow _ IH]; cbn.
  - constructor.
  - constructor; [rewrite length_map; exact Hrow|exact IH].
Qed.

Lemma ones_wf (sh : nat * nat) : ndarray.wf (ndarray.ones sh).
Proof.
  unfold ndarray.wf, ndarray.ones. cbn. apply List.Forall_forall.
  intros row Hin. apply repeat_spec in Hin. subst row. apply repeat_length.
Qed.







Lemma map_cells_shape (f : npfloat.t -> npfloat.t) (a : ndarray.t) :
  ndarray.shape (ndarray.map_cells f a) = ndarray.shape a.
Proof. unfold ndarray.shape. cbn. rewrite length_map. reflexivity. Qed.



Lemma shape_eqb_refl (sh : Z * Z) : HCS.shape_eqb sh sh = true.
Proof. unfold HCS.shape_eqb. rewrite !Z.eqb_refl. reflexivity. Qed.

Lemma shape_eqb_eq (a b : Z * Z) : HCS.shape_eqb a b = true <-> a = b.
Proof.
  unfold HCS.shape_eqb. destruct a as [a1 a2], b as [b1 b2]. cbn [fst snd].
  rewrite andb_true_iff, !Z.eqb_eq. split.
  - intros [-> ->]. reflexivity.
  - intros [= -> ->]. split; reflexivity.
Qed.




(** On arrays that are not square the coordinate system holds the shape
    with its axes exchanged, and a missing strength layer becomes ones of
    that shape: the 1x2 hue layer [[1/4, 1/2]] under a confidence layer of
    ones comes back as 2x2 pixels. *)
Example process_row_gives_square :
  exists out,
    view_on_unit_box (row2 (1 # 4) (1 # 2)) = Py.Ok (view hue_quarter_half)
    /\ view_on_unit_box (ndarray.ones (1, 2)%nat) = Py.Ok (view confidence_ones)
    /\ SheetView.shape (view hue_quarter_half) = (2, 1)%Z
    /\ HCS._process HCS.defaults hue_over_confidence = Py.Ok [out]
    /\ length (pixels (rgb_data out)) = 2%nat
    /\ rgb_width (rgb_data out) = 2%nat.
Proof.
  eexists. split; [reflexivity|]. split; [reflexivity|]. split; [reflexivity|].
  split; [vm_compute; reflexivity|]. split; reflexivity.
Qed.

End HCSProps.

(** *** Frame updates clamp the frame index *)

Module FrameProps.
Import Samples Plots.

Lemma clamp_frame_ge (len : nat) (n : Z) :
  (Z.of_nat len <= n)%Z -> clamp_frame len n = (Z.of_nat len - 1)%Z.
Proof.
  intros H. unfold clamp_frame.
  destruct (Z.ltb_spec n (Z.of_nat len)); [lia|reflexivity].
Qed.

Lemma clamp_frame_last (len : nat) :
  clamp_frame len (Z.of_nat len - 1) = (Z.of_nat len - 1)%Z.
Proof.
  unfold clamp_frame.
  destruct (Z.ltb_spec (Z.of_nat len - 1) (Z.of_nat len)); [reflexivity|lia].
Qed.

Lemma clamp_frame_same (len : nat) (n : Z) :
  (Z.of_nat len <= n)%Z -> clamp_frame len n = clamp_frame len (Z.of_nat len - 1).
Proof. intros H. rewrite clamp_frame_last. apply clamp_frame_ge, H. Qed.

(** A clamped index that is not negative always finds its frame. *)
Lemma index_clamped {A} (l : list A) (n : Z) :
  l <> [] -> (0 <= n)%Z ->
  exists x, Py.index l (clamp_frame (length l) n) = Py.Ok x.
Proof.
  intros Hne Hn.
  assert (0 < length l)%nat as Hlen by (destruct l; [congruence|cbn; lia]).
  set (m := clamp_frame (length l) n).
  assert (0 <= m < Z.of_nat (length l))%Z as Hm.
  { subst m. unfold clamp_frame.
    destruct (Z.ltb_spec n (Z.of_nat (length l))); lia. }
  unfold Py.index.
  destruct (Z.ltb_spec m 0); [lia|].
  destruct (Z.ltb_spec m 0); [lia|].
  destruct (nth_error l (Z.to_nat m)) as [x|] eqn:E; [exists x; reflexivity|].
  apply nth_error_None in E. lia.
Qed.

Lemma values_nonempty {K V : Type} (items : list (K * V)) :
  items <> [] -> NdMapping.values items <> [].
Proof. destruct items; [congruence|discriminate]. Qed.

Lemma values_length {K V : Type} (items : list (K * V)) :
  length (NdMapping.values items) = length items.
Proof. apply length_map. Qed.

Lemma refresh_title_Ok (show_title : bool) (zorder : Z) (h : handles)
    (text : option string) :
  drawn_title show_title zorder h ->
  exists h', refresh_title show_title zorder h text = Py.Ok h'.
Proof.
  unfold drawn_title, refresh_title, set_title. intros Hd.
  destruct (show_title && (zorder =? 0)%Z); [|eexists; reflexivity].
  destruct (Hd eq_refl) as [t ->]. eexists; reflexivity.
Qed.

Lemma drawn_title_insert (show_title : bool) (zorder : Z) (h : handles)
    (key : string) (a : artist) :
  key <> "title"%string ->
  drawn_title show_title zorder h ->
  drawn_title show_title zorder (<[key := a]> h).
Proof.
  unfold drawn_title. intros Hk Hd Hs. destruct (Hd Hs) as [t Ht].
  exists t. rewrite lookup_insert_ne by exact Hk. exact Ht.
Qed.

Section Frames.
Variable view_range : SheetView.t -> npfloat.t * npfloat.t.

Lemma mapM_Ok {A B} (f : A -> Py.result B) (l : list A) :
  Forall (fun x => exists y, f x = Py.Ok y) l -> exists ys, Py.mapM f l = Py.Ok ys.
Proof.
  induction 1 as [|x rest [y Hy] _ [ys Hys]]; cbn.
  - eexists; reflexivity.
  - rewrite Hy, Hys. eexists; reflexivity.
Qed.

Lemma ready_children (stack : list (list Z * SheetOverlay.t)) (plots : list plot) :
  ready (OfOverlays stack plots) -> stack <> [] /\ Forall ready plots.
Proof.
  cbn. intros [Hs Hall]. split; [exact Hs|].
  induction plots as [|child rest IH]; constructor.
  - exact (proj1 Hall).
  - exact (IH (proj2 Hall)).
Qed.

(** Induction over renderers, children of an overlay renderer included. *)
Lemma plot_nested_ind (P : plot -> Prop) :
  (forall q, P (OfViews q)) -> (forall q, P (OfPoints q)) -> (forall q, P (OfLines q)) ->
  (forall stack plots, Forall P plots -> P (OfOverlays stack plots)) ->
  (forall E S (entries : S -> list E) body state, P (Other entries body state)) ->
  forall p, P p.
Proof.
  intros Hv Hp Hl Ho Hother. fix IH 1. intros [q|q|q|stack plots|E S entries body state].
  - apply Hv.
  - apply Hp.
  - apply Hl.
  - apply Ho. induction plots as [|child rest IHrest]; constructor.
    + apply IH.
    + exact IHrest.
  - apply Hother.
Qed.

Lemma index_In {A} (l : list A) (i : Z) (x : A) : Py.index l i = Py.Ok x -> In x l.
Proof.
  unfold Py.index. cbv zeta. destruct (_ <? 0)%Z; [discriminate|].
  destruct (nth_error l _) as [y|] eqn:E; [|discriminate].
  intros [= <-]. exact (nth_error_In _ _ E).
Qed.

(** A drawn renderer updates to any frame index from zero on. *)
Lemma ready_update_Ok (p : plot) :
  ready p -> forall n, (0 <= n)%Z -> exists p', update_frame view_range p n = Py.Ok p'.
Proof.
  induction p as [q|q|q|stack plots IH|E S entries body state] using plot_nested_ind;
    intros Hr n Hn.
  - destruct Hr as (Hs & (d & c & Him) & Ht). cbn. unfold SheetViewPlot_update_frame.
    rewrite <- values_length.
    destruct (index_clamped _ n (values_nonempty _ Hs) Hn) as [v ->].
    cbn [Py.bind]. rewrite Him.
    edestruct refresh_title_Ok as [h' ->]; [|cbn; eexists; reflexivity].
    apply drawn_title_insert; [discriminate|exact Ht].
  - destruct Hr as (Hs & (o & Ho) & Ht). cbn. unfold SheetPointsPlot_update_frame.
    rewrite <- values_length.
    destruct (index_clamped _ n (values_nonempty _ Hs) Hn) as [v ->].
    cbn [Py.bind]. rewrite Ho.
    edestruct refresh_title_Ok as [h' ->]; [|cbn; eexists; reflexivity].
    apply drawn_title_insert; [discriminate|exact Ht].
  - destruct Hr as (Hs & (l & Hl) & Ht). cbn. unfold SheetLinesPlot_update_frame.
    rewrite <- values_length.
    destruct (index_clamped _ n (values_nonempty _ Hs) Hn) as [v ->].
    cbn [Py.bind]. rewrite Hl.
    edestruct refresh_title_Ok as [h' ->]; [|cbn; eexists; reflexivity].
    apply drawn_title_insert; [discriminate|exact Ht].
  - apply ready_children in Hr as [Hs Hall]. cbn [update_frame].
    set (m := clamp_frame (length stack) n).
    assert (0 <= m)%Z as Hm.
    { subst m. unfold clamp_frame. destruct stack as [|entry stack]; [congruence|].
      destruct (Z.ltb_spec n (Z.of_nat (length (entry :: stack)))); cbn [length]; lia. }
    assert (Forall (fun child => exists y, update_frame view_range child m = Py.Ok y) plots)
      as Hok.
    { clear Hs. induction plots as [|child rest IHrest]; constructor.
      - apply (Forall_inv IH); [exact (Forall_inv Hall)|exact Hm].
      - apply IHrest; [exact (Forall_inv_tail IH)|exact (Forall_inv_tail Hall)]. }
    destruct (mapM_Ok _ _ Hok) as [ys ->]. cbn. eexists; reflexivity.
  - destruct Hr as [Hs Hbody]. cbn [update_frame].
    destruct (index_clamped _ n Hs Hn) as [entry Hentry]. rewrite Hentry. cbn [Py.bind].
    destruct (Hbody entry (index_In _ _ _ Hentry)) as [state' ->]. cbn.
    eexists; reflexivity.
Qed.

Lemma update_frame_ge (p : plot) (n : Z) :
  (Z.of_nat (__len__ p) <= n)%Z ->
  update_frame view_range p n = update_frame view_range p (Z.of_nat (__len__ p) - 1).
Proof.
  intros H. destruct p as [q|q|q|stack plots|E S entries body state];
    cbn [update_frame __len__] in *.
  - unfold SheetViewPlot_update_frame. rewrite (clamp_frame_same _ _ H). reflexivity.
  - unfold SheetPointsPlot_update_frame. rewrite (clamp_frame_same _ _ H). reflexivity.
  - unfold SheetLinesPlot_update_frame. rewrite (clamp_frame_same _ _ H). reflexivity.
  - rewrite (clamp_frame_same _ _ H). reflexivity.
  - rewrite (clamp_frame_same _ _ H). reflexivity.
Qed.

(** C3.  For a renderer over a stack with [len p] entries and a frame
    index [n >= len p], [update_frame n] leaves the renderer and its
    handles exactly as [update_frame (len p - 1)] does; and on a renderer
    that has been drawn over a stack that is not empty it raises
    nothing. *)
Theorem update_frame_clamps (p : plot) (n : Z) :
  (Z.of_nat (__len__ p) <= n)%Z ->
  update_frame view_range p n = update_frame view_range p (Z.of_nat (__len__ p) - 1)
  /\ (ready p -> exists p', update_frame view_range p n = Py.Ok p').
Proof.
  intros H. split; [apply update_frame_ge, H|].
  intros Hr. apply ready_update_Ok; [exact Hr|lia].
Qed.

(** Drawing a renderer of array views over a stack that is not empty
    makes it ready for frame updates. *)
Lemma call_ready (stack_range : list (list Z * SheetView.t) -> npfloat.t * npfloat.t)
    (q : SheetViewPlot) :
  sv_stack q <> [] ->
  exists q', SheetViewPlot_call view_range stack_range q = Py.Ok q'
             /\ sv_stack q' = sv_stack q /\ ready (OfViews q').
Proof.
  intros Hs. unfold SheetViewPlot_call.
  destruct (NdMapping.top (sv_stack q)) as [v|] eqn:E.
  - eexists. split; [reflexivity|]. split; [reflexivity|]. cbn. split; [exact Hs|]. split.
    + eexists. eexists. apply lookup_insert_eq.
    + intros Hshow. apply andb_true_iff in Hshow as [Hshow _].
      unfold axis_handles. rewrite Hshow.
      eexists. rewrite lookup_insert_ne by discriminate. apply lookup_insert_eq.
  - unfold NdMapping.top in E. apply last_None in E.
    exfalso. exact (values_nonempty _ Hs E).
Qed.

(** Indexing the renderer by the frame number one past the last draws it
    and shows the last frame. *)
Lemma getitem_past_the_end
    (stack_range : list (list Z * SheetView.t) -> npfloat.t * npfloat.t)
    (q : SheetViewPlot) :
  sv_stack q <> [] ->
  exists shown,
    SheetViewPlot_getitem view_range stack_range q (Z.of_nat (length (sv_stack q)))
    = Py.Ok shown
    /\ SheetViewPlot_getitem view_range stack_range q (Z.of_nat (length (sv_stack q)) - 1)
       = Py.Ok shown.
Proof.
  intros Hs. unfold SheetViewPlot_getitem.
  rewrite Z.ltb_irrefl.
  destruct (Z.ltb_spec (Z.of_nat (length (sv_stack q)))
              (Z.of_nat (length (sv_stack q)) - 1)); [lia|].
  cbn [Py.bind].
  destruct (call_ready stack_range q Hs) as (fig & -> & Hst & Hr). cbn [Py.bind].
  pose proof (update_frame_ge (OfViews fig) (Z.of_nat (length (sv_stack q)))) as Heq.
  cbn [update_frame __len__] in Heq. rewrite Hst in Heq.
  specialize (Heq (Z.le_refl _)).
  destruct (ready_update_Ok (OfViews fig) Hr (Z.of_nat (length (sv_stack q))))
    as [p' Hp']; [lia|].
  cbn [update_frame] in Hp'.
  destruct (SheetViewPlot_update_frame view_range fig (Z.of_nat (length (sv_stack q))))
    as [shown|e] eqn:E; [|discriminate].
  destruct (SheetViewPlot_update_frame view_range fig
              (Z.of_nat (length (sv_stack q)) - 1)) as [shown'|e] eqn:E';
    [|discriminate].
  cbn in Heq. injection Heq as ->.
  exists shown'. split; reflexivity.
Qed.

(** Indexing the renderer by a frame number above its length raises. *)
Lemma getitem_above_len
    (stack_range : list (list Z * SheetView.t) -> npfloat.t * npfloat.t)
    (q : SheetViewPlot) (frame : Z) :
  (Z.of_nat (length (sv_stack q)) < frame)%Z ->
  SheetViewPlot_getitem view_range stack_range q frame = Py.Raise Py.AttributeError.
Proof.
  intros Hn. unfold SheetViewPlot_getitem.
  destruct (Z.ltb_spec (Z.of_nat (length (sv_stack q))) frame); [reflexivity|lia].
Qed.

End Frames.

Lemma update_frame_clamps_witness :
  let range := fun _ : SheetView.t => (npfloat.Fin 0, npfloat.Fin 1) in
  (Z.of_nat (__len__ drawn_overlay_plot) <= 5)%Z
  /\ ready drawn_overlay_plot
  /\ update_frame range drawn_overlay_plot 5 = update_frame range drawn_overlay_plot (2 - 1)
  /\ exists p', update_frame range drawn_overlay_plot 5 = Py.Ok p'.
Proof.
  intros range.
  assert (Z.of_nat (__len__ drawn_overlay_plot) <= 5)%Z as Hn by (cbn; lia).
  assert (ready drawn_overlay_plot) as Hr.
  { cbn. split; [discriminate|]. split; [|exact I].
    split; [discriminate|]. split.
    - eexists. eexists. reflexivity.
    - intros _. eexists. reflexivity. }
  destruct (update_frame_clamps range drawn_overlay_plot 5 Hn) as [Heq Hok].
  split; [exact Hn|]. split; [exact Hr|]. split; [exact Heq|exact (Hok Hr)].
Defined.

End FrameProps.

(** *** Channel reduction leaves its input alone *)

Module CollapseProps.
Import Samples Plots.

Section Rules.
Variable h0 : store.

Lemma triple_ret {A} (P : store -> Prop) (Q : A -> store -> Prop) (a : A) :
  (forall h, P h -> Q a h) -> triple h0 P (ret a) Q.
Proof. intros HQ h Hsub HP. cbn. split; [exact Hsub|]. intros a' [= <-]. auto. Qed.

Lemma triple_raise {A} (P : store -> Prop) (Q : A -> store -> Prop) (e : Py.exn) :
  triple h0 P (raise e) Q.
Proof. intros h Hsub HP. cbn. split; [exact Hsub|]. intros a' [=]. Qed.

Lemma triple_lift {A} (P : store -> Prop) (Q : A -> store -> Prop) (r : Py.result A) :
  (forall a h, r = Py.Ok a -> P h -> Q a h) -> triple h0 P (lift r) Q.
Proof. intros HQ h Hsub HP. cbn. split; [exact Hsub|]. intros a' E. auto. Qed.

Lemma triple_bind {A B} (P : store -> Prop) (Q : A -> store -> Prop)
    (R : B -> store -> Prop) (m : M A) (k : A -> M B) :
  triple h0 P m Q -> (forall a, triple h0 (Q a) (k a) R) ->
  triple h0 P (mbind m k) R.
Proof.
  intros Hm Hk h Hsub HP. unfold mbind.
  destruct (Hm h Hsub HP) as [Hsub' HQ].
  destruct (m h) as [h' [a|e]]; cbn in *.
  - exact (Hk a h' Hsub' (HQ a eq_refl)).
  - split; [exact Hsub'|]. intros a' [=].
Qed.

Lemma triple_conseq {A} (P P' : store -> Prop) (Q Q' : A -> store -> Prop) (m : M A) :
  triple h0 P m Q -> (forall h, P' h -> P h) -> (forall a h, Q a h -> Q' a h) ->
  triple h0 P' m Q'.
Proof.
  intros Hm HP HQ h Hsub HP'. destruct (Hm h Hsub (HP h HP')) as [Hsub' Hq].
  split; [exact Hsub'|]. intros a E. apply HQ, Hq, E.
Qed.

Lemma triple_alloc (P : store -> Prop) (Q : loc -> store -> Prop) (o : obj) :
  (forall h l, P h -> fresh_for h0 l -> h !! l = None -> Q l (<[l := o]> h)) ->
  triple h0 P (alloc o) Q.
Proof.
  intros HQ h Hsub HP. unfold alloc. cbn.
  assert (h !! fresh (dom h) = None) as Hf by (apply not_elem_of_dom, is_fresh).
  assert (fresh_for h0 (fresh (dom h))) as Hf0.
  { unfold fresh_for. destruct (h0 !! fresh (dom h)) as [o'|] eqn:E; [|reflexivity].
    rewrite (lookup_weaken _ _ _ _ E Hsub) in Hf. discriminate. }
  split.
  - apply insert_subseteq_r; [exact Hf0|exact Hsub].
  - intros a [= <-]. apply HQ; assumption.
Qed.

Lemma triple_get_view (P : store -> Prop) (Q : view_obj -> store -> Prop) (l : loc) :
  (forall h v, P h -> h !! l = Some (ViewObj v) -> Q v h) ->
  triple h0 P (get_view l) Q.
Proof.
  intros HQ h Hsub HP. unfold get_view.
  destruct (h !! l) as [[v|o|its]|] eqn:E; cbn; (split; [exact Hsub|]); intros a [=].
  subst a. apply HQ; assumption.
Qed.

Lemma triple_get_overlay (P : store -> Prop) (Q : overlay_obj -> store -> Prop) (l : loc) :
  (forall h o, P h -> h !! l = Some (OverlayObj o) -> Q o h) ->
  triple h0 P (get_overlay l) Q.
Proof.
  intros HQ h Hsub HP. unfold get_overlay.
  destruct (h !! l) as [[v|o|its]|] eqn:E; cbn; (split; [exact Hsub|]); intros a [=].
  subst a. apply HQ; assumption.
Qed.

Lemma triple_get_stack (P : store -> Prop) (Q : list (list Z * loc) -> store -> Prop)
    (l : loc) :
  (forall h its, P h -> h !! l = Some (StackObj its) -> Q its h) ->
  triple h0 P (get_stack l) Q.
Proof.
  intros HQ h Hsub HP. unfold get_stack.
  destruct (h !! l) as [[v|o|its]|] eqn:E; cbn; (split; [exact Hsub|]); intros a [=].
  subst a. apply HQ; assumption.
Qed.

(** Assigning to the [data] of an overlay that is not one of [h0]'s. *)
Lemma triple_set_data (P : store -> Prop) (Q : unit -> store -> Prop) (l : loc)
    (layers : list loc) :
  fresh_for h0 l ->
  (forall h o, P h -> Q tt (<[l := o]> h)) ->
  triple h0 P (set_data l layers) Q.
Proof.
  intros Hf HQ h Hsub HP. unfold set_data.
  destruct (h !! l) as [[v|o|its]|] eqn:E; cbn;
    try (split; [exact Hsub|]; intros a [=]).
  split.
  - apply insert_subseteq_r; [exact Hf|exact Hsub].
  - intros [] _. apply HQ, HP.
Qed.

Lemma triple_foldM_In {A B} (I : B -> store -> Prop) (f : B -> A -> M B) (l : list A) :
  (forall acc x, In x l -> triple h0 (I acc) (f acc x) I) ->
  forall acc, triple h0 (I acc) (foldM f l acc) I.
Proof.
  induction l as [|x rest IH]; intros Hf acc; cbn [foldM].
  - apply triple_ret. auto.
  - eapply triple_bind; [apply Hf; left; reflexivity|].
    intros acc'. apply IH. intros acc'' y Hy. apply Hf. right. exact Hy.
Qed.

Lemma triple_foldM {A B} (I : B -> store -> Prop) (f : B -> A -> M B) (l : list A) :
  (forall acc x, triple h0 (I acc) (f acc x) I) ->
  forall acc, triple h0 (I acc) (foldM f l acc) I.
Proof. intros Hf. apply triple_foldM_In. intros acc x _. apply Hf. Qed.

Lemma triple_assume {A} (phi : Prop) (P : store -> Prop) (Q : A -> store -> Prop)
    (m : M A) :
  (forall h, P h -> phi) -> (phi -> triple h0 any m Q) -> triple h0 P m Q.
Proof. intros Hphi Hm h Hsub HP. exact (Hm (Hphi h HP) h Hsub I). Qed.

Lemma memo_fresh_insert (m : memo) (l l' : loc) :
  memo_fresh h0 m -> fresh_for h0 l' -> memo_fresh h0 (<[l := l']> m).
Proof.
  intros Hm Hl k k' Hk. destruct (decide (l = k)) as [->|Hne].
  - rewrite lookup_insert_eq in Hk. congruence.
  - rewrite lookup_insert_ne in Hk by exact Hne. exact (Hm _ _ Hk).
Qed.

Lemma copy_view_fresh (m : memo) (l : loc) :
  memo_fresh h0 m ->
  triple h0 any (copy_view m l)
    (fun r _ => memo_fresh h0 (fst r) /\ fresh_for h0 (snd r)).
Proof.
  intros Hm. unfold copy_view. destruct (m !! l) as [l'|] eqn:E.
  - apply triple_ret. intros h _. split; [exact Hm|exact (Hm _ _ E)].
  - eapply triple_bind; [apply triple_get_view with (Q := fun _ _ => True); auto|].
    intros v. eapply triple_bind.
    + apply triple_alloc with (Q := fun l' _ => fresh_for h0 l'). auto.
    + intros l'. apply triple_ret. intros h Hl'. cbn.
      split; [apply memo_fresh_insert; assumption|exact Hl'].
Qed.

Lemma copy_views_fresh (ls : list loc) (m : memo) :
  memo_fresh h0 m ->
  triple h0 any (copy_views m ls)
    (fun r _ => memo_fresh h0 (fst r) /\ Forall (fresh_for h0) (snd r)).
Proof.
  intros Hm. unfold copy_views.
  eapply triple_conseq.
  - apply (triple_foldM
             (fun st _ => memo_fresh h0 (fst st) /\ Forall (fresh_for h0) (snd st))).
    intros [m1 acc] l. cbn [fst snd].
    apply (triple_assume (memo_fresh h0 m1 /\ Forall (fresh_for h0) acc)); [auto|].
    intros [Hm1 Hacc].
    eapply triple_bind; [apply copy_view_fresh, Hm1|].
    intros [m' l']. apply triple_ret. cbn. intros h' [Hm' Hl'].
    split; [exact Hm'|]. apply Forall_app. split; [exact Hacc|]. constructor; [exact Hl'|constructor].
  - intros h _. cbn. split; [exact Hm|constructor].
  - auto.
Qed.

Lemma copy_overlay_fresh (m : memo) (l : loc) :
  memo_fresh h0 m ->
  triple h0 any (copy_overlay m l)
    (fun r _ => memo_fresh h0 (fst r) /\ fresh_for h0 (snd r)).
Proof.
  intros Hm. unfold copy_overlay. destruct (m !! l) as [l'|] eqn:E.
  - apply triple_ret. intros h _. split; [exact Hm|exact (Hm _ _ E)].
  - eapply triple_bind; [apply triple_get_overlay with (Q := fun _ _ => True); auto|].
    intros o. eapply triple_bind.
    + eapply triple_conseq; [apply copy_views_fresh, Hm|auto|].
      intros r h H. exact H.
    + intros [m' data']. cbn [fst snd]. eapply triple_bind.
      * apply triple_alloc
          with (Q := fun l' _ => memo_fresh h0 m' /\ fresh_for h0 l').
        intros h l' [Hm' _] Hl' _. split; assumption.
      * intros l'. apply triple_ret. intros h [Hm' Hl']. cbn.
        split; [apply memo_fresh_insert; assumption|exact Hl'].
Qed.

(** The deep copy is a new stack object whose overlays are all new. *)
Lemma deepcopy_fresh (stack : loc) :
  triple h0 any (deepcopy stack)
    (fun l h => fresh_for h0 l
                /\ exists items, h !! l = Some (StackObj items)
                                 /\ Forall (fun kl => fresh_for h0 (snd kl)) items).
Proof.
  unfold deepcopy.
  eapply triple_bind; [apply triple_get_stack with (Q := fun _ _ => True); auto|].
  intros items. eapply triple_bind.
  - eapply triple_conseq.
    + apply (triple_foldM
               (fun st _ => memo_fresh h0 (fst st)
                            /\ Forall (fun kl => fresh_for h0 (snd kl)) (snd st))).
      intros [m1 acc] [k l]. cbn [fst snd].
      apply (triple_assume (memo_fresh h0 m1
                            /\ Forall (fun kl => fresh_for h0 (snd kl)) acc)); [auto|].
      intros [Hm1 Hacc].
      eapply triple_bind; [apply copy_overlay_fresh, Hm1|].
      intros [m' l']. apply triple_ret. cbn. intros h' [Hm' Hl'].
      split; [exact Hm'|]. apply Forall_app. split; [exact Hacc|].
      constructor; [exact Hl'|constructor].
    + intros h _. cbn. split; [|constructor]. intros l l' Hl. rewrite lookup_empty in Hl. discriminate.
    + intros r h H. exact (proj2 H).
  - intros [m' items']. cbn [snd].
    apply triple_alloc. intros h l Hitems Hl _. split; [exact Hl|].
    exists items'. split; [apply lookup_insert_eq|exact Hitems].
Qed.

Lemma safe_bind {A B} (m : M A) (k : A -> M B) :
  safe h0 m -> (forall a, safe h0 (k a)) -> safe h0 (mbind m k).
Proof. intros Hm Hk. eapply triple_bind; [exact Hm|]. intros a. apply Hk. Qed.

Lemma safe_ret {A} (a : A) : safe h0 (ret a).
Proof. apply triple_ret. auto. Qed.

Lemma safe_lift {A} (r : Py.result A) : safe h0 (lift r).
Proof. apply triple_lift. auto. Qed.

Lemma safe_get_view (l : loc) : safe h0 (get_view l).
Proof. apply triple_get_view. auto. Qed.

Lemma safe_get_overlay (l : loc) : safe h0 (get_overlay l).
Proof. apply triple_get_overlay. auto. Qed.

Lemma safe_alloc (o : obj) : safe h0 (alloc o).
Proof. apply triple_alloc. auto. Qed.

Lemma safe_foldM {A B} (f : B -> A -> M B) (l : list A) (acc : B) :
  (forall acc x, safe h0 (f acc x)) -> safe h0 (foldM f l acc).
Proof.
  intros Hf. unfold safe.
  eapply triple_conseq;
    [apply (triple_foldM (fun _ _ => True) f l Hf acc)|auto|auto].
Qed.

Lemma safe_mapM {A B} (f : A -> M B) (l : list A) :
  (forall x, safe h0 (f x)) -> safe h0 (mapM f l).
Proof.
  intros Hf. unfold mapM. apply safe_foldM. intros acc x.
  apply safe_bind; [apply Hf|]. intros y. apply safe_ret.
Qed.

Lemma safe_getitem_label (data : list loc) (lbl : string) :
  safe h0 (getitem_label data lbl).
Proof.
  induction data as [|l rest IH]; cbn [getitem_label].
  - apply triple_raise.
  - apply safe_bind; [apply safe_get_view|]. intros v.
    destruct (String.eqb (v_label v) lbl); [apply safe_ret|exact IH].
Qed.

(** A turn of the loop only reads the overlay and allocates. *)
Lemma safe_collapse_step (overlay : loc) (pat : list string)
    (fn : list view_obj -> Py.result view_obj) (style_key : string)
    (st : nat * list loc) (i : nat) :
  safe h0 (collapse_step overlay pat fn style_key st i).
Proof.
  unfold collapse_step. destruct st as [skip collapsed_views].
  apply safe_bind; [apply safe_get_overlay|]. intros o.
  apply safe_bind.
  { apply safe_mapM. intros l. apply safe_bind; [apply safe_get_view|].
    intros v. apply safe_ret. }
  intros labels.
  destruct (_ && _).
  - apply safe_bind; [apply safe_mapM; intros lbl; apply safe_getitem_label|].
    intros views. apply safe_bind; [apply safe_mapM; intros l; apply safe_get_view|].
    intros layers. apply safe_bind; [apply safe_lift|].
    intros cv. apply safe_bind; [apply safe_alloc|]. intros l. apply safe_ret.
  - destruct (negb _); [apply safe_ret|].
    apply safe_bind; [apply safe_lift|]. intros l. apply safe_ret.
Qed.

(** [_collapse] assigns only to the overlay it is given. *)
Lemma safe_collapse (overlay : loc) (pattern : string)
    (fn : list view_obj -> Py.result view_obj) (style_key : string) :
  fresh_for h0 overlay -> safe h0 (_collapse overlay pattern fn style_key).
Proof.
  intros Hf. unfold _collapse.
  apply safe_bind; [apply safe_get_overlay|]. intros o.
  destruct (Nat.ltb _ _); [apply safe_ret|].
  apply safe_bind; [apply safe_foldM; intros acc x; apply safe_collapse_step|].
  intros [skip collapsed_views]. apply triple_set_data; [exact Hf|auto].
Qed.

Lemma safe_collapse_overlay
    (channel_modes : string -> option (list view_obj -> Py.result view_obj))
    (reg : registry) (overlay : loc) :
  fresh_for h0 overlay -> safe h0 (collapse_overlay channel_modes reg overlay).
Proof.
  intros Hf. unfold collapse_overlay.
  apply safe_bind; [apply safe_get_overlay|]. intros o.
  apply safe_bind; [apply safe_lift|]. intros sc.
  apply safe_bind; [apply safe_lift|]. intros sr.
  apply safe_foldM. intros [] key.
  apply safe_bind; [apply safe_lift|]. intros channel.
  destruct (channel_modes (mode channel)) as [fn|].
  - apply safe_collapse, Hf.
  - apply triple_raise.
Qed.

(** When there is something to reduce, the stack that comes back is a new
    object and everything in [h0] is as before. *)
Lemma copy_then_collapse
    (channel_modes : string -> option (list view_obj -> Py.result view_obj))
    (reg : registry) (stack : loc) :
  triple h0 any
    (do* stack' := deepcopy stack in
     do* items' := get_stack stack' in
     do* _ := foldM (fun _ ov => collapse_overlay channel_modes reg ov)
                (NdMapping.values items') tt in
     ret stack')
    (fun l _ => fresh_for h0 l).
Proof.
  eapply triple_bind; [apply deepcopy_fresh|]. intros stack'.
  eapply triple_bind.
  - apply triple_get_stack
      with (Q := fun its _ => fresh_for h0 stack'
                              /\ Forall (fun kl => fresh_for h0 (snd kl)) its).
    intros h its (Hs & items & Hl & Hits) Hl'.
    rewrite Hl in Hl'. injection Hl' as <-. split; assumption.
  - intros items'.
    apply (triple_assume (fresh_for h0 stack'
                          /\ Forall (fun kl => fresh_for h0 (snd kl)) items')); [auto|].
    intros [Hs Hits].
    eapply triple_bind.
    + apply (triple_foldM_In (fun _ _ => True)).
      intros [] ov Hin. apply safe_collapse_overlay.
      apply in_map_iff in Hin as [[k l] [<- Hin]].
      exact (proj1 (List.Forall_forall _ _) Hits _ Hin).
    + intros []. apply triple_ret. auto.
Qed.

End Rules.

(** C5.  Whatever the registry, the operations and the outcome, every
    object of the store that [_collapse_channels] starts from, the input
    stack with its overlays and their layers among them, is unchanged in
    the store it leaves.  Without registered channel operations the store
    is left as it is and the input stack itself is returned.  A returned
    stack is either the input stack, with the store as it was, or a new
    object: the copy on which the replacements were made. *)
Theorem collapse_channels_keeps_input
    (channel_modes : string -> option (list view_obj -> Py.result view_obj))
    (reg : registry) (stack : loc) (h : store) :
  h ⊆ fst (_collapse_channels channel_modes reg stack h)
  /\ (keys reg = [] ->
      fst (_collapse_channels channel_modes reg stack h) = h
      /\ forall l, snd (_collapse_channels channel_modes reg stack h) = Py.Ok l -> l = stack)
  /\ (forall l, snd (_collapse_channels channel_modes reg stack h) = Py.Ok l ->
        (l = stack /\ fst (_collapse_channels channel_modes reg stack h) = h)
        \/ fresh_for h l).
Proof.
  remember (_collapse_channels channel_modes reg stack h) as out eqn:Eout.
  assert (out = (h, Py.Ok stack)
          \/ (exists e, out = (h, Py.Raise e))
          \/ (keys reg <> [] /\ h ⊆ fst out
              /\ forall l, snd out = Py.Ok l -> fresh_for h l)) as Hcases.
  { revert Eout. unfold _collapse_channels. unfold mbind at 1. unfold get_stack.
    destruct (h !! stack) as [[v|o|items]|] eqn:Es;
      try (intros ->; right; left; eexists; reflexivity).
    destruct (NdMapping.top items) as [top|];
      [|intros ->; right; left; eexists; reflexivity].
    destruct (h !! top) as [[v|o|its]|] eqn:Et;
      try (intros ->; left; reflexivity).
    destruct (keys reg) as [|k ks] eqn:Ek.
    - intros ->. left. reflexivity.
    - intros ->. right. right. split; [discriminate|].
      apply (copy_then_collapse h channel_modes reg stack h); [reflexivity|exact I]. }
  destruct Hcases as [->|[[e ->]|(Hk & Hsub & Hfresh)]]; cbn.
  - split; [reflexivity|]. split.
    + intros _. split; [reflexivity|]. intros l [= <-]. reflexivity.
    + intros l [= <-]. left. split; reflexivity.
  - split; [reflexivity|]. split.
    + intros _. split; [reflexivity|]. intros l [=].
    + intros l [=].
  - split; [exact Hsub|]. split; [intros E; contradiction|].
    intros l Hl. right. exact (Hfresh l Hl).
Qed.

Lemma collapse_channels_keeps_input_witness :
  small_store ⊆ fst (_collapse_channels sample_modes hcs_channel 4%nat small_store)
  /\ fst (_collapse_channels sample_modes no_channels 4%nat small_store) = small_store
  /\ snd (_collapse_channels sample_modes no_channels 4%nat small_store) = Py.Ok 4%nat
  /\ snd (_collapse_channels sample_modes hcs_channel 4%nat small_store) = Py.Ok 9%nat
  /\ fresh_for small_store 9%nat.
Proof.
  destruct (collapse_channels_keeps_input sample_modes hcs_channel 4%nat small_store)
    as (Hsub & _ & Hnew).
  destruct (collapse_channels_keeps_input sample_modes no_channels 4%nat small_store)
    as (_ & Hnone & _).
  destruct (Hnone eq_refl) as [Hsame _].
  split; [exact Hsub|]. split; [exact Hsame|]. split; [vm_compute; reflexivity|].
  assert (snd (_collapse_channels sample_modes hcs_channel 4%nat small_store) = Py.Ok 9%nat)
    as Hout by (vm_compute; reflexivity).
  split; [exact Hout|].
  destruct (Hnew 9%nat Hout) as [[Hl _]|Hf]; [discriminate Hl|exact Hf].
Defined.

End CollapseProps.

(** *** Stacking layers with [*] *)

Module MulProps.
Import Samples BoundsFacts.

(** The keywords that [__mul__] passes on: those of the left operand. *)
Lemma mul_unfold (a b : layer) :
  Mul.__mul__ a b
  = SheetOverlay.__init__ (Mul.layers_of a ++ Mul.layers_of b) (layer_bounds a)
      {| SheetLayer.kw_roi_bounds := Some (SheetLayer.roi_bounds (layer_attrs a));
         SheetLayer.kw_title := None;
         SheetLayer.kw_style := Some (SheetLayer.style (layer_attrs a));
         SheetLayer.kw_metadata := Some (SheetLayer.metadata (layer_attrs a));
         SheetLayer.kw_cyclic_range := None |}.
Proof. destruct a, b; reflexivity. Qed.

Lemma add_all_Ok (layers : list layer) : forall self o,
  SheetOverlay.add_all self layers = Py.Ok o ->
  o = SheetOverlay.mk (SheetOverlay.data self ++ layers) (SheetOverlay.attrs self)
  /\ Forall (fun x => BoundingBox.same (layer_bounds x) (SheetOverlay.bounds self)) layers.
Proof.
  induction layers as [|x rest IH]; intros self o; cbn.
  - intros [= <-]. rewrite app_nil_r. destruct self; split; [reflexivity|constructor].
  - unfold SheetOverlay.add.
    destruct (BoundingBox.lbrt_eqb (layer_bounds x) (SheetOverlay.bounds self)) eqn:E;
      cbn; [|discriminate].
    intros H. apply IH in H as [-> Hrest]. cbn. rewrite <- app_assoc. split.
    + reflexivity.
    + constructor; [apply lbrt_eqb_same; exact E|exact Hrest].
Qed.

Lemma init_Ok (layers : list layer) (bnds : BoundingBox.t) (kw : SheetLayer.kwargs)
    (o : SheetOverlay.t) :
  SheetOverlay.__init__ layers bnds kw = Py.Ok o ->
  o = SheetOverlay.mk layers (SheetLayer.__init__ bnds kw)
  /\ Forall (fun x => BoundingBox.same (layer_bounds x) bnds) layers.
Proof.
  unfold SheetOverlay.__init__, SheetOverlay.set. intros H.
  apply add_all_Ok in H. exact H.
Qed.

Lemma init_Raise (layers : list layer) (bnds : BoundingBox.t) (kw : SheetLayer.kwargs)
    (e : Py.exn) :
  SheetOverlay.__init__ layers bnds kw = Py.Raise e ->
  e = SheetOverlay.mismatch
  /\ Exists (fun x => ~ BoundingBox.same (layer_bounds x) bnds) layers.
Proof.
  intros H.
  destruct (List.Forall_Exists_dec
              (fun x => BoundingBox.same (layer_bounds x) bnds)
              (fun x => match BoundingBox.lbrt_eqb (layer_bounds x) bnds as c
                              return BoundingBox.lbrt_eqb (layer_bounds x) bnds = c -> _ with
                        | true => fun E => left (proj1 (lbrt_eqb_same _ _) E)
                        | false => fun E => right (proj1 (lbrt_eqb_differ _ _) E)
                        end eq_refl)
              layers) as [Hall|Hex].
  - unfold SheetOverlay.__init__, SheetOverlay.set in H.
    rewrite OverlayProps.add_all_same in H by exact Hall. discriminate.
  - split; [|exact Hex].
    unfold SheetOverlay.__init__, SheetOverlay.set in H.
    rewrite OverlayProps.add_all_differ in H by exact Hex. congruence.
Qed.

(** X1.  [a * b] is the flat overlay of the layers of [a] followed by the
    layers of [b], an operand that is itself an overlay contributing its
    layers and not itself.  The result has the bounds, region of interest,
    style and metadata of the left operand and no title.  It exists exactly
    when every contributed layer has the bounds of the left operand;
    otherwise the bounds-mismatch error is raised. *)
Theorem mul_flattens (a b : layer) :
  let layers := Mul.layers_of a ++ Mul.layers_of b in
  let fits x := BoundingBox.same (layer_bounds x) (layer_bounds a) in
  (Forall fits layers <->
     Mul.__mul__ a b
     = Py.Ok (SheetOverlay.mk layers
                (SheetLayer.mk_attrs (layer_bounds a)
                   (SheetLayer.roi_bounds (layer_attrs a)) None
                   (SheetLayer.style (layer_attrs a))
                   (SheetLayer.metadata (layer_attrs a)))))
  /\ (Exists (fun x => ~ fits x) layers <->
        Mul.__mul__ a b = Py.Raise SheetOverlay.mismatch).
Proof.
  intros layers fits. rewrite mul_unfold. fold layers. split; split.
  - intros Hall. unfold SheetOverlay.__init__, SheetOverlay.set.
    rewrite OverlayProps.add_all_same by exact Hall. reflexivity.
  - intros H. apply init_Ok in H as [_ H]. exact H.
  - intros Hex. unfold SheetOverlay.__init__, SheetOverlay.set.
    apply OverlayProps.add_all_differ. exact Hex.
  - intros H. apply init_Raise in H as [_ H]. exact H.
Qed.

(** X2.  [*] is associative wherever both groupings are defined: when
    [a * b] and [b * c] exist, [(a * b) * c] and [a * (b * c)] are the same
    overlay, or fail with the same error. *)
Theorem mul_assoc (a b c : layer) (ab bc : SheetOverlay.t) :
  Mul.__mul__ a b = Py.Ok ab ->
  Mul.__mul__ b c = Py.Ok bc ->
  Mul.__mul__ (Mul.as_layer ab) c = Mul.__mul__ a (Mul.as_layer bc).
Proof.
  rewrite !mul_unfold. intros Hab Hbc.
  apply init_Ok in Hab as [-> _]. apply init_Ok in Hbc as [-> _].
  cbn. rewrite app_assoc. reflexivity.
Qed.

Lemma mul_assoc_witness :
  let a := points_on unit_box in
  let b := contours_on unit_box in
  let c := Overlay [points_on unit_box; contours_on unit_box] (plain_attrs unit_box) in
  exists ab bc,
    Mul.__mul__ a b = Py.Ok ab /\ Mul.__mul__ b c = Py.Ok bc
    /\ Mul.__mul__ (Mul.as_layer ab) c = Mul.__mul__ a (Mul.as_layer bc)
    /\ option_map SheetOverlay.__len__
         (match Mul.__mul__ (Mul.as_layer ab) c with
          | Py.Ok o => Some o | Py.Raise _ => None end) = Some 4%nat.
Proof.
  eexists. eexists. split; [reflexivity|]. split; [reflexivity|]. split.
  - apply (mul_assoc (points_on unit_box) (contours_on unit_box)); reflexivity.
  - reflexivity.
Defined.

End MulProps.

(** *** Animations *)

Module AnimationProps.
Import Samples BoundsFacts StackStates.

(** Storing a frame either leaves the animation as it was, or acts on its
    stack as the stack's own insertion does. *)
Lemma add_item_cases (a : Animation.t) (k : list Z) (x : layer) :
  Animation.duration (fst (Animation._add_item a k x)) = Animation.duration a
  /\ (fst (Animation._add_item a k x) = a
      \/ (exists t rest, k = t :: rest
            /\ Animation.duration a <> 0%Z
            /\ (t mod Animation.duration a = 0)%Z
            /\ Animation.stack (fst (Animation._add_item a k x))
               = fst (SheetStack._add_item (Animation.stack a) k x))).
Proof.
  unfold Animation._add_item, Animation._item_check.
  destruct k as [|t rest]; [split; [reflexivity|left; reflexivity]|].
  destruct (Z.eqb_spec (Animation.duration a) 0) as [E|E];
    [split; [reflexivity|left; reflexivity]|].
  destruct (Z.eqb_spec (t mod Animation.duration a) 0) as [Em|Em]; cbn [negb];
    [|split; [reflexivity|left; reflexivity]].
  unfold SheetStack._add_item.
  destruct (SheetStack._item_check (Animation.stack a) (t :: rest) x) as [st [[]|e]];
    (split; [reflexivity|right; exists t, rest; repeat split; assumption]).
Qed.

Lemma stack_add_item_ndims (s : SheetStack.t) (k : list Z) (x : layer) :
  SheetStack.ndims (fst (SheetStack._add_item s k x)) = SheetStack.ndims s.
Proof.
  unfold SheetStack._add_item, SheetStack._item_check.
  destruct (negb _); [reflexivity|].
  destruct (SheetStack.type _).
  - destruct (negb _); [reflexivity|].
    destruct (SheetStack.super_item_check _ _ _) as [[]|]; reflexivity.
  - destruct (SheetStack.super_item_check _ _ _) as [[]|]; reflexivity.
Qed.

(** An insertion that changes the entries had a key of as many components
    as the stack has dimensions. *)
Lemma stack_add_item_items (s : SheetStack.t) (k : list Z) (x : layer) :
  SheetStack.items (fst (SheetStack._add_item s k x)) = SheetStack.items s
  \/ (length k = SheetStack.ndims s
      /\ SheetStack.items (fst (SheetStack._add_item s k x))
         = NdMapping.update_item NdMapping.tuple_eqb NdMapping.tuple_ltb k x
             (SheetStack.items s)).
Proof.
  unfold SheetStack._add_item.
  destruct (SheetStack._item_check s k x) as [s' [[]|e]] eqn:E.
  - right. pose proof (StackProps.item_check_keeps s k x) as [Hit _].
    rewrite E in Hit. cbn [fst] in Hit. cbn. rewrite Hit. split; [|reflexivity].
    revert E. unfold SheetStack._item_check.
    destruct (negb _); [intros [= _ H]; discriminate|].
    assert (forall s0, SheetStack.super_item_check s0 k x = Py.Ok tt ->
                       length k = SheetStack.ndims s0) as Hsuper.
    { intros s0. unfold SheetStack.super_item_check.
      destruct (SheetStack.data_type s0) as [c|].
      - destruct (class_eqb _ _); [|discriminate].
        destruct (Nat.eqb_spec (length k) (SheetStack.ndims s0)); [auto|discriminate].
      - destruct (Nat.eqb_spec (length k) (SheetStack.ndims s0)); [auto|discriminate]. }
    destruct (SheetStack.type _).
    + destruct (negb _); [intros [= _ H]; discriminate|].
      intros [= _ H]. apply Hsuper in H. exact H.
    + intros [= _ H]. apply Hsuper in H. exact H.
  - left. pose proof (StackProps.item_check_keeps s k x) as [Hit _].
    rewrite E in Hit. exact Hit.
Qed.

Lemma add_item_regular (a : Animation.t) (k : list Z) (x : layer) :
  Animation.regular a -> Animation.regular (fst (Animation._add_item a k x)).
Proof.
  intros (Hnd & Hkeys & Hdur & Hhom).
  destruct (add_item_cases a k x) as [Ed [->|(t & rest & -> & Hd & Hm & Est)]].
  { exact (conj Hnd (conj Hkeys (conj Hdur Hhom))). }
  unfold Animation.regular, Animation.items. rewrite Ed, Est.
  split; [rewrite stack_add_item_ndims; exact Hnd|].
  split; [|split; [intros _; exact Hd|apply StackProps.add_item_preserves; exact Hhom]].
  destruct (stack_add_item_items (Animation.stack a) (t :: rest) x) as [->|[Hlen ->]].
  { exact Hkeys. }
  apply List.Forall_forall. intros kv Hin.
  apply StackProps.update_item_In in Hin as [->|Hin].
  - rewrite Hnd in Hlen. destruct rest; [|discriminate]. cbn.
    exists (t / Animation.duration a)%Z. f_equal.
    apply Z.div_exact in Hm; [|exact Hd]. rewrite Z.mul_comm. exact Hm.
  - rewrite List.Forall_forall in Hkeys. apply Hkeys. exact Hin.
Qed.

Lemma reachable_regular (a : Animation.t) :
  Animation.reachable a -> Animation.regular a.
Proof.
  induction 1 as [b d|a k x _ IH].
  - repeat split; cbn; try constructor; try contradiction; intros; contradiction.
  - apply add_item_regular. exact IH.
Qed.

(** X3.  In every animation that can arise from a new one by storing
    frames, accepted or refused, each key is a single time and that time
    is a whole multiple of the duration; frames are only ever held under
    a duration other than zero; and the frames all have one type and the
    bounds of the animation. *)
Theorem animation_times_are_multiples (a : Animation.t) :
  Animation.reachable a ->
  Forall (fun kv => exists n, fst kv = [(n * Animation.duration a)%Z])
    (Animation.items a)
  /\ (Animation.items a <> [] -> Animation.duration a <> 0%Z)
  /\ homogeneous (Animation.stack a).
Proof.
  intros Hr. apply reachable_regular in Hr as (_ & H). exact H.
Qed.

Lemma animation_times_are_multiples_witness :
  let a := fst (Animation._add_item
                  (fst (Animation._add_item (Animation.new None 5) [10%Z]
                          (points_on unit_box)))
                  [7%Z] (points_on unit_box)) in
  Animation.items a = [([10%Z], points_on unit_box)]
  /\ Forall (fun kv => exists n, fst kv = [(n * Animation.duration a)%Z])
       (Animation.items a).
Proof.
  split; [reflexivity|].
  apply (animation_times_are_multiples
           (fst (Animation._add_item
                   (fst (Animation._add_item (Animation.new None 5) [10%Z]
                           (points_on unit_box)))
                   [7%Z] (points_on unit_box)))).
  apply Animation.reach_add, Animation.reach_add, Animation.reach_new.
Defined.

(** An insertion refused by the stack leaves its entries as they were. *)
Lemma stack_add_item_Raise (s : SheetStack.t) (k : list Z) (x : layer) (e : Py.exn) :
  snd (SheetStack._add_item s k x) = Py.Raise e ->
  SheetStack.items (fst (SheetStack._add_item s k x)) = SheetStack.items s
  /\ e <> Py.ValueError /\ e <> Py.ZeroDivisionError.
Proof.
  unfold SheetStack._add_item.
  pose proof (StackProps.item_check_keeps s k x) as [Hit _]. revert Hit.
  unfold SheetStack._item_check, SheetStack.super_item_check.
  repeat match goal with
         | |- context [match ?c with _ => _ end] => destruct c
         | |- context [if ?c then _ else _] => destruct c
         end; cbn; intros Hit H; try discriminate;
    (split; [exact Hit|split; congruence]).
Qed.

(** X4.  A refused frame never changes the frames held.  A frame whose time
    is not a whole multiple of the duration is refused with a [ValueError],
    and under a duration of zero every frame is refused with a
    [ZeroDivisionError], whatever the frame; after either of these two
    refusals the animation is exactly as it was, its bounds included. *)
Theorem animation_refusal_keeps_frames (a : Animation.t) (time : Z) (rest : list Z)
    (x : layer) (e : Py.exn) :
  snd (Animation._add_item a (time :: rest) x) = Py.Raise e ->
  Animation.items (fst (Animation._add_item a (time :: rest) x)) = Animation.items a
  /\ (e = Py.ZeroDivisionError <-> Animation.duration a = 0%Z)
  /\ (e = Py.ValueError <->
        Animation.duration a <> 0%Z /\ (time mod Animation.duration a)%Z <> 0%Z)
  /\ (e = Py.ZeroDivisionError \/ e = Py.ValueError ->
        fst (Animation._add_item a (time :: rest) x) = a).
Proof.
  unfold Animation._add_item, Animation._item_check.
  destruct (Z.eqb_spec (Animation.duration a) 0) as [E|E].
  { cbn. intros [= <-]. split; [reflexivity|]. split; [tauto|].
    split; [|reflexivity]. split; [discriminate|tauto]. }
  destruct (Z.eqb_spec (time mod Animation.duration a) 0) as [Em|Em]; cbn [negb].
  2:{ cbn. intros [= <-]. split; [reflexivity|]. split; [split; [discriminate|tauto]|].
      split; [tauto|reflexivity]. }
  pose proof (stack_add_item_Raise (Animation.stack a) (time :: rest) x e) as Hst.
  unfold SheetStack._add_item in Hst.
  destruct (SheetStack._item_check (Animation.stack a) (time :: rest) x) as [st [[]|e']];
    cbn; [discriminate|].
  intros [= ->]. destruct (Hst eq_refl) as (Hit & Hv & Hz). cbn in Hit.
  split; [exact Hit|]. split; [split; [contradiction|contradiction]|].
  split; [split; [contradiction|tauto]|]. intros [?|?]; contradiction.
Qed.

Lemma animation_refusal_keeps_frames_witness :
  let a := fst (Animation._add_item (Animation.new None 5) [10%Z] (points_on unit_box)) in
  snd (Animation._add_item a [7%Z] (points_on wide_box)) = Py.Raise Py.ValueError
  /\ fst (Animation._add_item a [7%Z] (points_on wide_box)) = a.
Proof.
  split; [reflexivity|].
  apply (animation_refusal_keeps_frames
           (fst (Animation._add_item (Animation.new None 5) [10%Z] (points_on unit_box)))
           7 [] (points_on wide_box) Py.ValueError eq_refl).
  right. reflexivity.
Defined.

End AnimationProps.

(** *** Normalising a view *)

Module NormalizeProps.
Import Samples BoundsFacts.

(** The running minimum of finite numbers is one of them and below all. *)
Lemma fold_minimum_fin (xs : list npfloat.t) : forall q0,
  Forall (fun x => exists q, x = npfloat.Fin q) xs ->
  exists m, fold_left npfloat.minimum xs (npfloat.Fin q0) = npfloat.Fin m
    /\ In (npfloat.Fin m) (npfloat.Fin q0 :: xs)
    /\ (m <= q0)%Q
    /\ forall q, In (npfloat.Fin q) xs -> (m <= q)%Q.
Proof.
  induction xs as [|x rest IH]; intros q0 Hall.
  - exists q0. cbn. split; [reflexivity|]. split; [left; reflexivity|].
    split; [apply Qle_refl|]. intros q [].
  - inversion Hall as [|? ? [c ->] Hrest]; subst. cbn [fold_left npfloat.minimum npfloat.leb].
    destruct (Qle_bool q0 c) eqn:E.
    + apply Qle_bool_iff in E.
      destruct (IH q0 Hrest) as (m & Hm & Hin & Hle & Hall').
      exists m. split; [exact Hm|]. split.
      { destruct Hin as [Hin|Hin]; [left; exact Hin|right; right; exact Hin]. }
      split; [exact Hle|]. intros q [[= <-]|Hq].
      * apply (Qle_trans _ q0); assumption.
      * apply Hall'. exact Hq.
    + assert (c < q0)%Q as Hlt.
      { apply Qnot_le_lt. intros H. apply Qle_bool_iff in H. congruence. }
      destruct (IH c Hrest) as (m & Hm & Hin & Hle & Hall').
      exists m. split; [exact Hm|]. split; [right; exact Hin|].
      split; [apply (Qle_trans _ c); [exact Hle|apply Qlt_le_weak; exact Hlt]|].
      intros q [[= <-]|Hq]; [exact Hle|apply Hall'; exact Hq].
Qed.

(** The running maximum of finite numbers is one of them and above all. *)
Lemma fold_maximum_fin (xs : list npfloat.t) : forall q0,
  Forall (fun x => exists q, x = npfloat.Fin q) xs ->
  exists m, fold_left npfloat.maximum xs (npfloat.Fin q0) = npfloat.Fin m
    /\ In (npfloat.Fin m) (npfloat.Fin q0 :: xs)
    /\ (q0 <= m)%Q
    /\ forall q, In (npfloat.Fin q) xs -> (q <= m)%Q.
Proof.
  induction xs as [|x rest IH]; intros q0 Hall.
  - exists q0. cbn. split; [reflexivity|]. split; [left; reflexivity|].
    split; [apply Qle_refl|]. intros q [].
  - inversion Hall as [|? ? [c ->] Hrest]; subst. cbn [fold_left npfloat.maximum npfloat.leb].
    destruct (Qle_bool c q0) eqn:E.
    + apply Qle_bool_iff in E.
      destruct (IH q0 Hrest) as (m & Hm & Hin & Hle & Hall').
      exists m. split; [exact Hm|]. split.
      { destruct Hin as [Hin|Hin]; [left; exact Hin|right; right; exact Hin]. }
      split; [exact Hle|]. intros q [[= <-]|Hq].
      * apply (Qle_trans _ q0); assumption.
      * apply Hall'. exact Hq.
    + assert (q0 < c)%Q as Hlt.
      { apply Qnot_le_lt. intros H. apply Qle_bool_iff in H. congruence. }
      destruct (IH c Hrest) as (m & Hm & Hin & Hle & Hall').
      exists m. split; [exact Hm|]. split; [right; exact Hin|].
      split; [apply (Qle_trans _ c); [apply Qlt_le_weak; exact Hlt|exact Hle]|].
      intros q [[= <-]|Hq]; [exact Hle|apply Hall'; exact Hq].
Qed.

(** The extrema of a non-empty array of finite numbers. *)
Lemma extrema_finite (a : ndarray.t) :
  Cells.finite a -> ndarray.flat a <> [] ->
  exists lo hi,
    ndarray.min a = Py.Ok (npfloat.Fin lo) /\ ndarray.max a = Py.Ok (npfloat.Fin hi)
    /\ In (npfloat.Fin lo) (ndarray.flat a) /\ In (npfloat.Fin hi) (ndarray.flat a)
    /\ forall q, In (npfloat.Fin q) (ndarray.flat a) -> (lo <= q <= hi)%Q.
Proof.
  unfold Cells.finite, ndarray.min, ndarray.max. intros Hfin Hne.
  destruct (ndarray.flat a) as [|x xs]; [contradiction|].
  inversion Hfin as [|? ? [q0 ->] Hrest]; subst.
  destruct (fold_minimum_fin xs q0 Hrest) as (lo & Elo & Hlo & Hlo0 & Hlos).
  destruct (fold_maximum_fin xs q0 Hrest) as (hi & Ehi & Hhi & Hhi0 & Hhis).
  exists lo, hi. rewrite Elo, Ehi. repeat split; try assumption.
  - destruct H as [[= <-]|H]; [exact Hlo0|apply Hlos; exact H].
  - destruct H as [[= <-]|H]; [exact Hhi0|apply Hhis; exact H].
Qed.

Lemma flat_map_cells (f : npfloat.t -> npfloat.t) (a : ndarray.t) :
  ndarray.flat (ndarray.map_cells f a) = map f (ndarray.flat a).
Proof. unfold ndarray.flat. cbn. symmetry. apply List.concat_map. Qed.


Lemma flat_has_rows (a : ndarray.t) :
  ndarray.flat a <> [] -> length (ndarray.cells a) <> 0%nat.
Proof.
  unfold ndarray.flat. intros Hne E. apply Hne.
  apply length_zero_iff_nil in E. rewrite E. reflexivity.
Qed.


(** Without cyclic range, on finite cells: the extrema are cells of the
    array and every cell is rescaled against them. *)
Lemma N_data (v : SheetView.t) :
  SheetView.cyclic_range v = None ->
  BoundingBox.nondegenerate (SheetView.bounds v) ->
  Cells.finite (SheetView.data v) ->
  ndarray.flat (SheetView.data v) <> [] ->
  exists w lo hi, SheetView.N v = Py.Ok w
    /\ (ndarray.width (SheetView.data v) <> 0%nat ->
        SheetView.bounds w = SheetView.bounds v)
    /\ SheetView.data w
       = ndarray.map_cells
           (fun x => npfloat.add
                       (npfloat.mul
                          (npfloat.div (npfloat.sub x (npfloat.Fin lo))
                             (npfloat.sub (npfloat.Fin hi) (npfloat.Fin lo)))
                          (npfloat.Fin (Qabs (1 - 0))))
                       (npfloat.Fin 0))
           (SheetView.data v)
    /\ In (npfloat.Fin lo) (ndarray.flat (SheetView.data v))
    /\ In (npfloat.Fin hi) (ndarray.flat (SheetView.data v))
    /\ forall q, In (npfloat.Fin q) (ndarray.flat (SheetView.data v)) -> (lo <= q <= hi)%Q.
Proof.
  intros Hcr Hnd Hfin Hne. pose proof (flat_has_rows _ Hne) as Hrows.
  destruct (extrema_finite _ Hfin Hne) as (lo & hi & Emin & Emax & Hlo & Hhi & Hall).
  unfold SheetView.N, SheetView.normalize. rewrite Hcr, Emax, Emin. cbn [Py.bind].
  match goal with
  | |- context [SheetView.__init__ (Some (ndarray.map_cells ?f ?d)) ?b ?kw] =>
      destruct (DensityProps.init_total (ndarray.map_cells f d) b kw Hnd)
        as (w & Ew & Hdata & _ & _ & _ & _ & _ & Hb);
      [rewrite HCSProps.map_cells_shape; exact Hrows|];
      rewrite HCSProps.map_cells_shape in Hb
  end.
  exists w, lo, hi. split; [exact Ew|]. split; [exact Hb|]. split; [exact Hdata|].
  split; [exact Hlo|]. split; [exact Hhi|exact Hall].
Qed.



(** A constant cell is rescaled to not-a-number. *)
Lemma rescale_constant (c lo hi : Q) :
  (c == lo)%Q -> (hi == lo)%Q ->
  npfloat.add
    (npfloat.mul
       (npfloat.div (npfloat.sub (npfloat.Fin c) (npfloat.Fin lo))
          (npfloat.sub (npfloat.Fin hi) (npfloat.Fin lo)))
       (npfloat.Fin (Qabs (1 - 0))))
    (npfloat.Fin 0)
  = npfloat.NaN.
Proof.
  intros Ec Eh.
  unfold npfloat.sub, npfloat.opp, npfloat.add, npfloat.div, npfloat.sign.
  assert ((hi + - lo ?= 0)%Q = Eq) as E1.
  { apply Qeq_alt. rewrite Eh. apply Qplus_opp_r. }
  assert ((c + - lo ?= 0)%Q = Eq) as E2.
  { apply Qeq_alt. rewrite Ec. apply Qplus_opp_r. }
  rewrite E1, E2. reflexivity.
Qed.



(** X6.  A view without cyclic range whose cells all hold one and the same
    finite value has no range to divide by: [N] does not fail, it returns
    a view of the same shape in which every cell is not-a-number. *)
Theorem N_constant_is_NaN (v : SheetView.t) :
  SheetView.cyclic_range v = None ->
  BoundingBox.nondegenerate (SheetView.bounds v) ->
  ndarray.flat (SheetView.data v) <> [] ->
  Cells.constant (SheetView.data v) ->
  exists w, SheetView.N v = Py.Ok w
    /\ ndarray.shape (SheetView.data w) = ndarray.shape (SheetView.data v)
    /\ Forall (fun x => x = npfloat.NaN) (ndarray.flat (SheetView.data w)).
Proof.
  intros Hcr Hnd Hne [Hfin Hconst].
  destruct (N_data v Hcr Hnd Hfin Hne) as (w & lo & hi & Ew & Hb & Hdata & Hlo & Hhi & Hall).
  exists w. split; [exact Ew|]. rewrite Hdata.
  split; [apply HCSProps.map_cells_shape|].
  rewrite flat_map_cells.
  apply List.Forall_forall. intros y Hy. apply in_map_iff in Hy as (x & <- & Hx).
  unfold Cells.finite in Hfin. rewrite List.Forall_forall in Hfin.
  destruct (Hfin x Hx) as [c ->].
  apply rescale_constant; [exact (Hconst c lo Hx Hlo)|exact (Hconst hi lo Hhi Hlo)].
Qed.

Lemma N_constant_is_NaN_witness :
  exists w, SheetView.N (view12 (row2 5 5)) = Py.Ok w
    /\ ndarray.flat (SheetView.data w) = [npfloat.NaN; npfloat.NaN].
Proof.
  destruct (N_constant_is_NaN (view12 (row2 5 5))) as (w & Ew & _ & H).
  - reflexivity.
  - split; reflexivity.
  - discriminate.
  - split.
    + repeat constructor; eexists; reflexivity.
    + intros p q [[= <-]|[[= <-]|[]]] [[= <-]|[[= <-]|[]]]; reflexivity.
  - exists w. split; [exact Ew|].
    assert (SheetView.N (view12 (row2 5 5)) = Py.Ok w) as E by exact Ew.
    vm_compute in E. injection E as <-. reflexivity.
Defined.

End NormalizeProps.

(** *** The colours of the hue-confidence-strength operation *)

Module ColourProps.
Import Samples BoundsFacts Transform.



Lemma clip_NaN : npfloat.clip 0 1 npfloat.NaN = npfloat.NaN.
Proof. reflexivity. Qed.





(** A hue that is not a number cannot be converted as soon as there is
    saturation. *)
Lemma hsv_NaN (s v : npfloat.t) :
  npfloat.eqb s (npfloat.Fin 0) = false ->
  colorsys.hsv_to_rgb npfloat.NaN s v = Py.Raise Py.ValueError.
Proof. intros E. unfold colorsys.hsv_to_rgb. rewrite E. reflexivity. Qed.

Section Pointwise.
Context {A B C E D : Type} (F : A -> B -> C -> E) (g : E -> Py.result D).
Context (PA : A -> Prop) (PB : B -> Prop) (PC : C -> Prop) (PD : D -> Prop).


Lemma mapM_zip3_Raise (e : Py.exn) :
  (forall a b c, PA a -> PB b -> PC c -> g (F a b c) = Py.Raise e) ->
  forall la lb lc, Forall PA la -> Forall PB lb -> Forall PC lc ->
  la <> [] -> lb <> [] -> lc <> [] ->
  Py.mapM g (zip3 F la lb lc) = Py.Raise e.
Proof.
  intros Hpt [|a la] [|b lb] [|c lc] Ha Hb Hc Hna Hnb Hnc; try contradiction.
  inversion Ha; inversion Hb; inversion Hc; subst.
  cbn [zip3 Py.mapM]. rewrite Hpt by assumption. reflexivity.
Qed.

End Pointwise.

Lemma cells_Forall (P : npfloat.t -> Prop) (a : ndarray.t) :
  Forall P (ndarray.flat a) <-> Forall (Forall P) (ndarray.cells a).
Proof. unfold ndarray.flat. apply List.Forall_concat. Qed.

Lemma map_cells_Forall (P Q : npfloat.t -> Prop) (f : npfloat.t -> npfloat.t)
    (a : ndarray.t) :
  (forall x, P x -> Q (f x)) ->
  Forall (Forall P) (ndarray.cells a) ->
  Forall (Forall Q) (ndarray.cells (ndarray.map_cells f a)).
Proof.
  intros Hf H. cbn. induction H as [|row rows Hrow _ IH]; cbn; constructor.
  - induction Hrow; cbn; constructor; auto.
  - exact IH.
Qed.

Lemma ones_finite (sh : nat * nat) : Cells.finite (ndarray.ones sh).
Proof.
  unfold Cells.finite, ndarray.flat, ndarray.ones. cbn.
  apply List.Forall_concat. apply List.Forall_forall. intros row Hrow.
  apply repeat_spec in Hrow. subst row. apply List.Forall_forall. intros x Hx.
  apply repeat_spec in Hx. subst x. eexists. reflexivity.
Qed.

(** The strength array, when there is one, is a rectangular array of finite
    numbers. *)
Lemma strength_finite (hue : channel) (rest : list channel) (sd : ndarray.t) :
  (forall st, rest = [st] ->
     HCSLayers.fits (SheetView.data (view hue)) (SheetView.data (view st))) ->
  HCSLayers.strength_data hue rest = Py.Ok sd ->
  ndarray.wf sd /\ Cells.finite sd.
Proof.
  intros H. unfold HCSLayers.strength_data, HCS.np_ones.
  destruct rest as [|st [|st' rest]].
  - destruct (_ || _)%bool; [discriminate|]. intros [= <-].
    split; [apply HCSProps.ones_wf|apply ones_finite].
  - intros [= <-]. destruct (H st eq_refl) as (Hw & Hf & _). split; assumption.
  - destruct (_ || _)%bool; [discriminate|]. intros [= <-].
    split; [apply HCSProps.ones_wf|apply ones_finite].
Qed.

(** The only exception that the choice of the strength array raises. *)
Lemma strength_raises (hue : channel) (rest : list channel) (e : Py.exn) :
  HCSLayers.strength_data hue rest = Py.Raise e -> e = Py.ValueError.
Proof.
  unfold HCSLayers.strength_data, HCS.np_ones.
  destruct rest as [|st [|st' rest]]; try discriminate;
    (destruct (_ || _)%bool; [intros [= <-]; reflexivity|discriminate]).
Qed.

(** The operation up to the normalisation of the hue: the strength array is
    chosen first, then the shapes are compared. *)
Lemma process_strength (p : HCS.params) (ov : overlay) (hue conf : channel)
    (rest : list channel) :
  layers ov = hue :: conf :: rest ->
  HCS._process p ov
  = (let* strength_data := HCSLayers.strength_data hue rest in
     if negb (HCS.shape_eqb (SheetView.shape (view hue)) (SheetView.shape (view conf)))
     then Py.Raise (Py.Exception "Cannot combine plots with different shapes")
     else
       let* hueN := SheetView.N (view hue) in
       let h := ndarray.map_cells (npfloat.clip 0 1) (SheetView.data hueN) in
       let s := HCS.scale_clip (HCS.C_multiplier p) (SheetView.data (view conf)) in
       let v := HCS.scale_clip (HCS.S_multiplier p) strength_data in
       let* rgb := (if HCS.flipSC p
                    then hsv_to_rgb h v (ndarray.map_cells (npfloat.clip 0 1) s)
                    else hsv_to_rgb h s v) in
       Py.Ok [ {| rgb_data := rgb;
                  rgb_bounds := SheetView.bounds (view hue);
                  rgb_roi_bounds := roi_bounds ov;
                  rgb_label := (label hue ++ " HCS Plot")%string |} ]).
Proof.
  intros Hl. unfold HCS._process. rewrite Hl.
  change (Py.index (hue :: conf :: rest) 0) with (Py.Ok hue).
  change (Py.index (hue :: conf :: rest) 1) with (Py.Ok conf).
  cbn [Py.bind].
  assert ((if Nat.eqb (length (hue :: conf :: rest)) 3
           then let* st := Py.index (hue :: conf :: rest) 2 in
                Py.Ok (SheetView.data (view st))
           else HCS.np_ones (SheetView.shape (view hue)))
          = HCSLayers.strength_data hue rest) as ->.
  { destruct rest as [|st [|st' rest]]; reflexivity. }
  destruct (HCSLayers.strength_data hue rest) as [sd|e]; cbn [Py.bind]; [|reflexivity].
  destruct (negb _); [reflexivity|].
  destruct (SheetView.N (view hue)) as [hueN|e]; cbn [Py.bind]; [|reflexivity].
  destruct (HCS.flipSC p); reflexivity.
Qed.

(** The operation, once its strength array is chosen, the shapes held by
    the coordinate systems agree and the hue is normalised. *)
Lemma process_core (p : HCS.params) (ov : overlay) (hue conf : channel)
    (rest : list channel) (hueN : SheetView.t) (sd : ndarray.t) :
  layers ov = hue :: conf :: rest ->
  HCSLayers.strength_data hue rest = Py.Ok sd ->
  SheetView.shape (view hue) = SheetView.shape (view conf) ->
  SheetView.N (view hue) = Py.Ok hueN ->
  HCS._process p ov
  = (let h := ndarray.map_cells (npfloat.clip 0 1) (SheetView.data hueN) in
     let s := HCS.scale_clip (HCS.C_multiplier p) (SheetView.data (view conf)) in
     let v := HCS.scale_clip (HCS.S_multiplier p) sd in
     let* rgb := (if HCS.flipSC p
                  then hsv_to_rgb h v (ndarray.map_cells (npfloat.clip 0 1) s)
                  else hsv_to_rgb h s v) in
     Py.Ok [ {| rgb_data := rgb;
                rgb_bounds := SheetView.bounds (view hue);
                rgb_roi_bounds := roi_bounds ov;
                rgb_label := (label hue ++ " HCS Plot")%string |} ]).
Proof.
  intros Hl Hsd Hsh HN. rewrite (process_strength p ov hue conf rest Hl).
  rewrite Hsd. cbn [Py.bind]. rewrite Hsh, HCSProps.shape_eqb_refl. cbn [negb].
  rewrite HN. reflexivity.
Qed.

(** *** Broadcasting *)

Lemma stretch_Forall {A} (P : A -> Prop) (n : nat) (l : list A) :
  Forall P l -> Forall P (stretch n l).
Proof.
  intros H. destruct l as [|x [|y l]]; cbn [stretch]; try exact H.
  inversion H; subst. apply List.Forall_forall. intros z Hz.
  apply repeat_spec in Hz. subst z. assumption.
Qed.

Lemma broadcast_to_Forall (P : npfloat.t -> Prop) (rows cols : nat) (a : ndarray.t) :
  Forall (Forall P) (ndarray.cells a) ->
  Forall (Forall P) (ndarray.cells (broadcast_to rows cols a)).
Proof.
  intros H. unfold broadcast_to. cbn [ndarray.cells]. apply stretch_Forall.
  induction H as [|row rws Hrow _ IH]; cbn [map]; constructor;
    [apply stretch_Forall; exact Hrow|exact IH].
Qed.

Lemma stretch_length {A} (n : nat) (l : list A) :
  length l = n \/ length l = 1%nat -> length (stretch n l) = n.
Proof.
  destruct l as [|x [|y l]]; cbn [stretch length]; intros [H|H];
    try lia; apply repeat_length.
Qed.

(** An array stretched to the common shape has that shape. *)
Lemma broadcast_to_size (rows cols : nat) (a : ndarray.t) :
  ndarray.wf a ->
  length (ndarray.cells a) = rows \/ length (ndarray.cells a) = 1%nat ->
  ndarray.width a = cols \/ ndarray.width a = 1%nat ->
  length (ndarray.cells (broadcast_to rows cols a)) = rows
  /\ Forall (fun row => length row = cols) (ndarray.cells (broadcast_to rows cols a)).
Proof.
  intros Hwf Hr Hc. unfold broadcast_to. cbn [ndarray.cells]. split.
  - apply stretch_length. rewrite length_map. exact Hr.
  - apply stretch_Forall. clear Hr. unfold ndarray.wf in Hwf.
    induction Hwf as [|row rws Hrow _ IH]; cbn [map]; constructor; [|exact IH].
    apply stretch_length. rewrite Hrow. exact Hc.
Qed.

Lemma broadcast_dim_Ok (n m k : nat) :
  broadcast_dim n m = Py.Ok k -> (n = k \/ n = 1%nat) /\ (m = k \/ m = 1%nat).
Proof.
  unfold broadcast_dim.
  destruct (Nat.eqb_spec n m); [intros [= E]; lia|].
  destruct (Nat.eqb_spec n 1); [intros [= E]; lia|].
  destruct (Nat.eqb_spec m 1); [intros [= E]; lia|discriminate].
Qed.

Lemma broadcast_dim_Raise (n m : nat) (e : Py.exn) :
  broadcast_dim n m = Py.Raise e -> e = Py.ValueError.
Proof.
  unfold broadcast_dim.
  destruct (Nat.eqb n m); [discriminate|].
  destruct (Nat.eqb n 1); [discriminate|].
  destruct (Nat.eqb m 1); [discriminate|]. intros [= <-]. reflexivity.
Qed.




(** When every pixel fails with a [ValueError], so does the conversion of
    the arrays, whatever their shapes: they do not broadcast, or they have
    no cell, or the first pixel fails. *)
Lemma hsv_to_rgb_broadcast_raises (PA PB PC : npfloat.t -> Prop) (h s v : ndarray.t) :
  (forall a b c, PA a -> PB b -> PC c ->
     colorsys.hsv_to_rgb a b c = Py.Raise Py.ValueError) ->
  ndarray.wf h -> ndarray.wf s -> ndarray.wf v ->
  Forall (Forall PA) (ndarray.cells h) ->
  Forall (Forall PB) (ndarray.cells s) ->
  Forall (Forall PC) (ndarray.cells v) ->
  hsv_to_rgb h s v = Py.Raise Py.ValueError.
Proof.
  intros Hpt Hh Hs Hv Ha Hb Hc. unfold hsv_to_rgb.
  destruct (broadcast_dim (length (ndarray.cells h)) (length (ndarray.cells s)))
    as [rows0|e] eqn:E1; cbn [Py.bind];
    [|apply broadcast_dim_Raise in E1; subst e; reflexivity].
  destruct (broadcast_dim rows0 (length (ndarray.cells v)))
    as [rows|e] eqn:E2; cbn [Py.bind];
    [|apply broadcast_dim_Raise in E2; subst e; reflexivity].
  destruct (broadcast_dim (ndarray.width h) (ndarray.width s))
    as [cols0|e] eqn:E3; cbn [Py.bind];
    [|apply broadcast_dim_Raise in E3; subst e; reflexivity].
  destruct (broadcast_dim cols0 (ndarray.width v))
    as [cols|e] eqn:E4; cbn [Py.bind];
    [|apply broadcast_dim_Raise in E4; subst e; reflexivity].
  destruct (Nat.eqb_spec (rows * cols) 0) as [E|Hsz]; [reflexivity|].
  assert (rows <> 0%nat /\ cols <> 0%nat) as [Hr0 Hc0] by lia.
  apply broadcast_dim_Ok in E1, E2, E3, E4.
  destruct (broadcast_to_size rows cols h Hh) as [Lh Wh]; [lia|lia|].
  destruct (broadcast_to_size rows cols s Hs) as [Ls Ws]; [lia|lia|].
  destruct (broadcast_to_size rows cols v Hv) as [Lv Wv]; [lia|lia|].
  assert (forall (P : npfloat.t -> Prop) (l : list (list npfloat.t)),
            length l = rows -> Forall (fun row => length row = cols) l ->
            Forall (Forall P) l ->
            l <> [] /\ Forall (fun r => Forall P r /\ r <> []) l) as Hrows.
  { intros P l Hl Hw HP. split; [intros ->; cbn in Hl; lia|].
    apply Forall_and; split; [exact HP|].
    eapply Forall_impl; [exact Hw|]. intros r Hlen ->. cbn in Hlen. lia. }
  destruct (Hrows PA _ Lh Wh (broadcast_to_Forall PA rows cols h Ha)) as [Nh Fh].
  destruct (Hrows PB _ Ls Ws (broadcast_to_Forall PB rows cols s Hb)) as [Ns Fs].
  destruct (Hrows PC _ Lv Wv (broadcast_to_Forall PC rows cols v Hc)) as [Nv Fv].
  rewrite (mapM_zip3_Raise (zip3 colorsys.hsv_to_rgb)
             (fun row : list (Py.result colorsys.rgb) => Py.mapM (fun x => x) row)
             (fun r => Forall PA r /\ r <> []) (fun r => Forall PB r /\ r <> [])
             (fun r => Forall PC r /\ r <> []) Py.ValueError); try assumption.
  - reflexivity.
  - intros ra rb rc [Hra Hna] [Hrb Hnb] [Hrc Hnc].
    apply (mapM_zip3_Raise colorsys.hsv_to_rgb (fun x => x) PA PB PC Py.ValueError);
      assumption.
Qed.










(** A hue layer of two rows and three columns, without a strength layer:
    the ones that stand in for the strength have three rows and two
    columns, and the conversion fails. *)
Example process_wide_raises :
  exists hue conf,
    view_on_unit_box
      (ndarray.of_rows [[npfloat.Fin 1; npfloat.Fin 2; npfloat.Fin 3];
                        [npfloat.Fin 4; npfloat.Fin 5; npfloat.Fin 6]]) = Py.Ok hue
    /\ view_on_unit_box (ndarray.ones (2, 3)%nat) = Py.Ok conf
    /\ SheetView.shape hue = (3, 2)%Z
    /\ HCS._process HCS.defaults
         (mk_overlay [mk_channel "Hue" hue; mk_channel "Confidence" conf] unit_box)
       = Py.Raise Py.ValueError.
Proof.
  eexists. eexists. split; [reflexivity|]. split; [reflexivity|].
  split; [reflexivity|]. vm_compute. reflexivity.
Qed.


Lemma some_saturation (c m : Q) :
  (0 < c * m)%Q ->
  npfloat.eqb (npfloat.clip 0 1 (npfloat.mul (npfloat.Fin c) (npfloat.Fin m)))
    (npfloat.Fin 0) = false.
Proof.
  intros H. cbn [npfloat.mul].
  unfold npfloat.clip, npfloat.maximum, npfloat.leb.
  assert (Qle_bool 0 (c * m) = true) as E0 by (apply Qle_bool_iff; lra).
  rewrite E0. unfold npfloat.minimum, npfloat.leb.
  destruct (Qle_bool (c * m) 1); cbn [npfloat.eqb]; [|reflexivity].
  destruct (Qeq_bool (c * m) 0) eqn:E; [|reflexivity].
  apply Qeq_bool_iff in E. lra.
Qed.



(** X9.  A hue layer without cyclic range whose finite values are all the
    same cannot be drawn as soon as there is saturation: its normalisation
    divides zero by zero, and the conversion of the first pixel fails on
    the hue that is not a number.  With every confidence value times the
    confidence multiplier above zero and the channels not flipped, the
    operation raises a [ValueError]; the one other outcome is the error
    of the shape test that comes before, when the coordinate systems of
    the hue and the confidence layer hold different shapes. *)
Theorem process_constant_hue_raises (p : HCS.params) (ov : overlay)
    (hue conf : channel) (rest : list channel) :
  layers ov = hue :: conf :: rest ->
  HCS.flipSC p = false ->
  SheetView.cyclic_range (view hue) = None ->
  BoundingBox.nondegenerate (SheetView.bounds (view hue)) ->
  ndarray.wf (SheetView.data (view hue)) ->
  ndarray.flat (SheetView.data (view hue)) <> [] ->
  Cells.constant (SheetView.data (view hue)) ->
  ndarray.wf (SheetView.data (view conf)) ->
  Cells.same_shape (SheetView.data (view conf)) (SheetView.data (view hue)) ->
  Forall (fun x => exists c, x = npfloat.Fin c /\ (0 < c * HCS.C_multiplier p)%Q)
    (ndarray.flat (SheetView.data (view conf))) ->
  (forall st, rest = [st] ->
     HCSLayers.fits (SheetView.data (view hue)) (SheetView.data (view st))) ->
  HCS._process p ov = Py.Raise Py.ValueError
  \/ (SheetView.shape (view hue) <> SheetView.shape (view conf)
      /\ HCS._process p ov
         = Py.Raise (Py.Exception "Cannot combine plots with different shapes")).
Proof.
  intros Hl Hflip Hcr Hnd Hwf Hne [Hfin Hconst] Hwc Hsc Hpos Hrest.
  destruct (HCSLayers.strength_data hue rest) as [sd|e] eqn:Esd.
  2:{ left. rewrite (process_strength p ov hue conf rest Hl), Esd. cbn [Py.bind].
      apply strength_raises in Esd. subst e. reflexivity. }
  destruct (HCS.shape_eqb (SheetView.shape (view hue)) (SheetView.shape (view conf)))
    eqn:Eshape.
  2:{ right. split.
      - intros E. rewrite E, HCSProps.shape_eqb_refl in Eshape. discriminate.
      - rewrite (process_strength p ov hue conf rest Hl), Esd. cbn [Py.bind].
        rewrite Eshape. reflexivity. }
  apply HCSProps.shape_eqb_eq in Eshape. left.
  destruct (strength_finite hue rest sd Hrest Esd) as [Hsw _].
  destruct (NormalizeProps.N_data _ Hcr Hnd Hfin Hne)
    as (w & mn & mx & Ew & _ & Hdata & Hmn & Hmx & _).
  rewrite (process_core p ov hue conf rest w sd Hl Esd Eshape Ew). cbv zeta.
  rewrite Hdata, Hflip.
  match goal with
  | |- context [ndarray.map_cells (npfloat.clip 0 1) (ndarray.map_cells ?f _)] =>
      set (rescale := f)
  end.
  rewrite (hsv_to_rgb_broadcast_raises (fun x => x = npfloat.NaN)
             (fun x => npfloat.eqb x (npfloat.Fin 0) = false) (fun _ => True)).
  - reflexivity.
  - intros a b c -> Hb _. apply hsv_NaN. exact Hb.
  - apply HCSProps.map_cells_wf, HCSProps.map_cells_wf, Hwf.
  - apply HCSProps.map_cells_wf, Hwc.
  - apply HCSProps.map_cells_wf, Hsw.
  - apply (map_cells_Forall (fun x => x = npfloat.NaN)); [intros x ->; reflexivity|].
    apply (map_cells_Forall (fun x => rescale x = npfloat.NaN)); [auto|].
    apply cells_Forall. apply List.Forall_forall. intros x Hx.
    unfold Cells.finite in Hfin. rewrite List.Forall_forall in Hfin.
    destruct (Hfin x Hx) as [c ->]. subst rescale.
    apply NormalizeProps.rescale_constant;
      [exact (Hconst c mn Hx Hmn)|exact (Hconst mx mn Hmx Hmn)].
  - apply (map_cells_Forall
             (fun x => exists c, x = npfloat.Fin c /\ (0 < c * HCS.C_multiplier p)%Q)).
    + intros x (c & -> & Hc). apply some_saturation. exact Hc.
    + apply cells_Forall. exact Hpos.
  - apply (map_cells_Forall (fun _ => True)); [auto|].
    apply List.Forall_forall. intros row _. apply List.Forall_forall. auto.
Qed.

Lemma process_constant_hue_raises_witness :
  HCS._process HCS.defaults
    (mk_overlay [mk_channel "Hue" (view12 (row2 5 5)); confidence_ones] unit_box)
  = Py.Raise Py.ValueError.
Proof.
  destruct (process_constant_hue_raises HCS.defaults
              (mk_overlay [mk_channel "Hue" (view12 (row2 5 5)); confidence_ones] unit_box)
              (mk_channel "Hue" (view12 (row2 5 5))) confidence_ones [])
    as [H|[Hshape _]].
  - reflexivity.
  - reflexivity.
  - reflexivity.
  - split; reflexivity.
  - repeat constructor.
  - discriminate.
  - split.
    + repeat constructor; eexists; reflexivity.
    + intros a b [[= <-]|[[= <-]|[]]] [[= <-]|[[= <-]|[]]]; reflexivity.
  - repeat constructor.
  - split; reflexivity.
  - repeat constructor; exists 1%Q; (split; reflexivity).
  - intros st [=].
  - exact H.
  - exfalso. apply Hshape. reflexivity.
Defined.

End ColourProps.

(** *** Sequences of frame updates *)

Module PlayProps.
Import Samples Plots.

Lemma handles_twice (k : string) (a a' : artist) (h : handles) :
  <[k := a']> (<[k := a]> h) = <[k := a']> h.
Proof.
  apply map_eq. intros i. destruct (decide (i = k)) as [->|Hi]; by simplify_map_eq.
Qed.

Lemma handles_twice_title (k : string) (a a' t t' : artist) (h : handles) :
  k <> "title"%string ->
  <["title"%string := t']> (<[k := a']> (<["title"%string := t]> (<[k := a]> h)))
  = <["title"%string := t']> (<[k := a']> h).
Proof.
  intros Hk. apply map_eq. intros i.
  destruct (decide (i = "title"%string)) as [->|Hi]; [by simplify_map_eq|].
  destruct (decide (i = k)) as [->|Hi']; by simplify_map_eq.
Qed.

(** The title after two refreshes is the title of the second. *)
Lemma refresh_title_after (show_title : bool) (zorder : Z) (h h1 : handles)
    (k : string) (a a' : artist) (t t' : option string) :
  k <> "title"%string ->
  refresh_title show_title zorder (<[k := a]> h) t = Py.Ok h1 ->
  h1 !! k = Some a
  /\ refresh_title show_title zorder (<[k := a']> h1) t'
     = refresh_title show_title zorder (<[k := a']> h) t'.
Proof.
  intros Hk. unfold refresh_title, set_title.
  destruct (show_title && (zorder =? 0)%Z).
  - rewrite !lookup_insert_ne by exact Hk.
    destruct (h !! "title"%string) as [[]|] eqn:Et; try discriminate.
    intros [= <-]. split; [by simplify_map_eq|].
    rewrite lookup_insert_eq.
    rewrite handles_twice_title by exact Hk. reflexivity.
  - intros [= <-]. split; [by simplify_map_eq|].
    rewrite handles_twice. reflexivity.
Qed.

Section Frames.
Variable view_range : SheetView.t -> npfloat.t * npfloat.t.

Lemma mapM_after {A} (f g : A -> Py.result A) (l l1 : list A) :
  Forall (fun x => forall x1, f x = Py.Ok x1 -> g x1 = g x) l ->
  Py.mapM f l = Py.Ok l1 -> Py.mapM g l1 = Py.mapM g l.
Proof.
  intros Hall. revert l1. induction Hall as [|x rest Hx _ IH]; intros l1; cbn.
  - intros [= <-]. reflexivity.
  - destruct (f x) as [x1|] eqn:Ex; [|discriminate].
    destruct (Py.mapM f rest) as [rest1|] eqn:Er; [|discriminate].
    intros [= <-]. cbn. rewrite (Hx x1 eq_refl), (IH rest1 eq_refl). reflexivity.
Qed.

Lemma sheet_children (stack : list (list Z * SheetOverlay.t)) (plots : list plot) :
  Animate.sheet_renderer (OfOverlays stack plots) <-> Forall Animate.sheet_renderer plots.
Proof.
  cbn. induction plots as [|child rest IH].
  - split; [constructor|exact (fun _ => I)].
  - split.
    + intros [Hc Hr]. constructor; [exact Hc|apply IH; exact Hr].
    + intros H. inversion H; subst. split; [assumption|apply IH; assumption].
Qed.

(** After a frame update, a renderer of sheet layers answers the next
    request as it would have answered it before. *)
Lemma update_after_update (p : plot) :
  Animate.sheet_renderer p ->
  forall m n p1, update_frame view_range p m = Py.Ok p1 ->
  update_frame view_range p1 n = update_frame view_range p n.
Proof.
  induction p as [q|q|q|stack plots IH|E S entries body state]
    using FrameProps.plot_nested_ind; intros Hs m n p1.
  - cbn [update_frame]. unfold SheetViewPlot_update_frame.
    destruct (Py.index (NdMapping.values (sv_stack q)) _) as [vm|]; cbn [Py.bind];
      [|discriminate].
    destruct (sv_handles q !! "im"%string) as [[| | |d c| | |]|] eqn:Eim; try discriminate.
    destruct (refresh_title _ _ _ _) as [h1|] eqn:Eh; cbn [Py.bind]; [|discriminate].
    intros [= <-]. cbn [update_frame]. unfold SheetViewPlot_update_frame.
    cbn [sv_stack sv_handles sv_zorder sv_show_title normalize_individually].
    destruct (Py.index (NdMapping.values (sv_stack q)) _) as [vn|]; cbn [Py.bind];
      [|reflexivity].
    eapply refresh_title_after in Eh as [-> Eh]; [|discriminate].
    rewrite Eh. destruct (normalize_individually q); reflexivity.
  - cbn [update_frame]. unfold SheetPointsPlot_update_frame.
    destruct (Py.index (NdMapping.values (pt_stack q)) _) as [vm|]; cbn [Py.bind];
      [|discriminate].
    destruct (pt_handles q !! "scatter"%string) as [[| | | |o| |]|] eqn:Eim; try discriminate.
    destruct (refresh_title _ _ _ _) as [h1|] eqn:Eh; cbn [Py.bind]; [|discriminate].
    intros [= <-]. cbn [update_frame]. unfold SheetPointsPlot_update_frame.
    cbn [pt_stack pt_handles pt_zorder pt_show_title].
    destruct (Py.index (NdMapping.values (pt_stack q)) _) as [vn|]; cbn [Py.bind];
      [|reflexivity].
    eapply refresh_title_after in Eh as [-> Eh]; [|discriminate].
    rewrite Eh. reflexivity.
  - cbn [update_frame]. unfold SheetLinesPlot_update_frame.
    destruct (Py.index (NdMapping.values (ln_stack q)) _) as [vm|]; cbn [Py.bind];
      [|discriminate].
    destruct (ln_handles q !! "line_segments"%string) as [[| | | | |l|]|] eqn:Eim;
      try discriminate.
    destruct (refresh_title _ _ _ _) as [h1|] eqn:Eh; cbn [Py.bind]; [|discriminate].
    intros [= <-]. cbn [update_frame]. unfold SheetLinesPlot_update_frame.
    cbn [ln_stack ln_handles ln_zorder ln_show_title].
    destruct (Py.index (NdMapping.values (ln_stack q)) _) as [vn|]; cbn [Py.bind];
      [|reflexivity].
    eapply refresh_title_after in Eh as [-> Eh]; [|discriminate].
    rewrite Eh. reflexivity.
  - apply sheet_children in Hs. cbn [update_frame].
    destruct (Py.mapM _ plots) as [plots1|] eqn:Em; cbn [Py.bind]; [|discriminate].
    intros [= <-]. cbn [update_frame].
    erewrite (mapM_after _ _ plots plots1); [reflexivity| |exact Em].
    apply List.Forall_forall. intros child Hin x1 Hx1.
    rewrite List.Forall_forall in IH, Hs.
    exact (IH child Hin (Hs child Hin) _ _ x1 Hx1).
  - destruct Hs.
Qed.

Lemma mapM_keeps {A} (P : A -> Prop) (f : A -> Py.result A) (l l1 : list A) :
  Forall (fun x => forall x1, f x = Py.Ok x1 -> P x1) l ->
  Py.mapM f l = Py.Ok l1 -> Forall P l1 /\ length l1 = length l.
Proof.
  intros Hall. revert l1. induction Hall as [|x rest Hx _ IH]; intros l1; cbn.
  - intros [= <-]. split; [constructor|reflexivity].
  - destruct (f x) as [x1|] eqn:Ex; [|discriminate].
    destruct (Py.mapM f rest) as [rest1|] eqn:Er; [|discriminate].
    intros [= <-]. destruct (IH rest1 eq_refl) as [Hr Hl]. split.
    + constructor; [exact (Hx x1 eq_refl)|exact Hr].
    + cbn. rewrite Hl. reflexivity.
Qed.

(** A frame update changes neither the kind of a renderer nor its number
    of frames. *)
Lemma update_keeps_sheet (p : plot) :
  Animate.sheet_renderer p ->
  forall n p1, update_frame view_range p n = Py.Ok p1 ->
  Animate.sheet_renderer p1 /\ __len__ p1 = __len__ p.
Proof.
  induction p as [q|q|q|stack plots IH|E S entries body state]
    using FrameProps.plot_nested_ind; intros Hs n p1.
  - cbn [update_frame]. unfold SheetViewPlot_update_frame.
    destruct (Py.index _ _); cbn [Py.bind]; [|discriminate].
    destruct (sv_handles q !! "im"%string) as [[| | |d c| | |]|]; try discriminate.
    destruct (refresh_title _ _ _ _); cbn [Py.bind]; [|discriminate].
    intros [= <-]. split; [exact I|reflexivity].
  - cbn [update_frame]. unfold SheetPointsPlot_update_frame.
    destruct (Py.index _ _); cbn [Py.bind]; [|discriminate].
    destruct (pt_handles q !! "scatter"%string) as [[| | | |o| |]|]; try discriminate.
    destruct (refresh_title _ _ _ _); cbn [Py.bind]; [|discriminate].
    intros [= <-]. split; [exact I|reflexivity].
  - cbn [update_frame]. unfold SheetLinesPlot_update_frame.
    destruct (Py.index _ _); cbn [Py.bind]; [|discriminate].
    destruct (ln_handles q !! "line_segments"%string) as [[| | | | |l|]|]; try discriminate.
    destruct (refresh_title _ _ _ _); cbn [Py.bind]; [|discriminate].
    intros [= <-]. split; [exact I|reflexivity].
  - apply sheet_children in Hs. cbn [update_frame].
    destruct (Py.mapM _ plots) as [plots1|] eqn:Em; cbn [Py.bind]; [|discriminate].
    intros [= <-]. split; [|reflexivity]. apply sheet_children.
    apply (mapM_keeps Animate.sheet_renderer) in Em as [Hk _]; [exact Hk|].
    apply List.Forall_forall. intros child Hin x1 Hx1.
    rewrite List.Forall_forall in IH, Hs.
    exact (proj1 (IH child Hin (Hs child Hin) _ x1 Hx1)).
  - destruct Hs.
Qed.

(** Playing frames from a state that answers as the drawn renderer [p]
    does. *)
Lemma play_from (p : plot) (frames : list Z) :
  (forall n, (0 <= n)%Z -> exists p', update_frame view_range p n = Py.Ok p') ->
  Forall (fun n => 0 <= n)%Z frames ->
  forall q, Animate.sheet_renderer q ->
  (forall n, update_frame view_range q n = update_frame view_range p n) ->
  exists p', Animate.play view_range q frames = Py.Ok p'
    /\ match last frames with
       | None => p' = q
       | Some n => update_frame view_range p n = Py.Ok p'
       end.
Proof.
  intros Hr Hall. induction Hall as [|n rest Hn _ IH]; intros q Hq Hsame.
  - exists q. split; reflexivity.
  - cbn [Animate.play]. rewrite Hsame.
    destruct (Hr n Hn) as [q1 E1].
    rewrite E1. cbn [Py.bind].
    assert (update_frame view_range q n = Py.Ok q1) as E1' by (rewrite Hsame; exact E1).
    destruct (IH q1) as (p' & Ep' & Hlast).
    + exact (proj1 (update_keeps_sheet q Hq n q1 E1')).
    + intros n'. rewrite (update_after_update q Hq n n' q1 E1'). apply Hsame.
    + exists p'. split; [exact Ep'|]. rewrite last_cons.
      destruct (last rest) as [n'|]; [exact Hlast|]. subst p'. exact E1.
Qed.

(** X10.  What a renderer of sheet layers shows after a frame update
    depends on the frame requested and not on the frames shown before:
    once a first update has succeeded, a second one leaves the renderer,
    its handles included, as it would have left the renderer before the
    first; it fails where it would have failed.  The first update changes
    neither the kind of the renderer nor its number of frames. *)
Theorem update_frame_last_request_wins (p p1 : plot) (m n : Z) :
  Animate.sheet_renderer p ->
  update_frame view_range p m = Py.Ok p1 ->
  update_frame view_range p1 n = update_frame view_range p n
  /\ Animate.sheet_renderer p1
  /\ __len__ p1 = __len__ p.
Proof.
  intros Hs E. split; [exact (update_after_update p Hs m n p1 E)|].
  exact (update_keeps_sheet p Hs m p1 E).
Qed.

Lemma anim_frames_range (len : nat) (start : Z) (stop : option Z) :
  Forall (fun n => 0 <= n < Z.of_nat len)%Z (Animate.anim_frames len start stop).
Proof.
  unfold Animate.anim_frames, Py.slice. apply List.Forall_forall. intros n Hn.
  apply list_elem_of_In in Hn. apply subseteq_take, subseteq_drop in Hn.
  apply list_elem_of_In, in_map_iff in Hn as (i & <- & Hi). apply in_seq in Hi. lia.
Qed.

Lemma anim_frames_all (len : nat) :
  Animate.anim_frames len 0 None = map Z.of_nat (seq 0 len).
Proof.
  unfold Animate.anim_frames, Py.slice, Py.clamp_bound. cbn [default].
  rewrite length_map, length_seq. change (0 <? 0)%Z with false. cbv iota.
  change (0 <? 0)%Z with false. cbv iota.
  destruct (Z.ltb_spec (Z.of_nat len) 0); [lia|].
  destruct (Z.ltb_spec (Z.of_nat len) 0); [lia|].
  destruct (Z.ltb_spec (Z.of_nat len) (Z.of_nat len)); [lia|].
  rewrite Nat2Z.id. change (Z.to_nat 0) with 0%nat. rewrite Nat.sub_0_r. cbn [skipn drop].
  apply firstn_all2. rewrite length_map, length_seq. lia.
Qed.

(** X11.  The frames that [anim] hands to the playback driver are frame
    numbers of the renderer, whatever start and stop are given, and all
    of them in order when none is given.  Played one after the other on
    a drawn renderer of sheet layers, every update succeeds, and the
    renderer ends as a single update to the last of the frames leaves
    it. *)
Theorem anim_plays_through (p : plot) (start : Z) (stop : option Z) :
  Animate.sheet_renderer p -> ready p ->
  let frames := Animate.anim_frames (__len__ p) start stop in
  Forall (fun n => 0 <= n < Z.of_nat (__len__ p))%Z frames
  /\ Animate.anim_frames (__len__ p) 0 None = map Z.of_nat (seq 0 (__len__ p))
  /\ exists p', Animate.play view_range p frames = Py.Ok p'
       /\ match last frames with
          | None => p' = p
          | Some n => update_frame view_range p n = Py.Ok p'
          end.
Proof.
  intros Hs Hr frames. split; [apply anim_frames_range|].
  split; [apply anim_frames_all|].
  apply (play_from p frames).
  - intros n Hn. exact (FrameProps.ready_update_Ok view_range p Hr n Hn).
  - eapply Forall_impl; [apply anim_frames_range|]. cbn. intros n Hn. lia.
  - exact Hs.
  - reflexivity.
Qed.

End Frames.

Section Indexing.
Variable view_range : SheetView.t -> npfloat.t * npfloat.t.
Variable stack_range : list (list Z * SheetView.t) -> npfloat.t * npfloat.t.

(** X12.  Indexing a renderer of array views over [len] frames by the
    frame number [len], one past the last frame, draws the figure and
    shows the last frame, as indexing by [len - 1] does, and no warning is
    attempted.  Indexing by a frame number above [len] shows nothing: the
    warning is to be given through [self.warn], which the renderer does
    not have, so an [AttributeError] is raised before the figure is
    drawn. *)
Theorem getitem_above_len_raises (q : SheetViewPlot) (frame : Z) :
  sv_stack q <> [] ->
  (exists shown,
     SheetViewPlot_getitem view_range stack_range q (Z.of_nat (length (sv_stack q)) - 1)
     = Py.Ok shown
     /\ SheetViewPlot_getitem view_range stack_range q (Z.of_nat (length (sv_stack q)))
        = Py.Ok shown)
  /\ ((Z.of_nat (length (sv_stack q)) < frame)%Z ->
      SheetViewPlot_getitem view_range stack_range q frame
      = Py.Raise Py.AttributeError).
Proof.
  intros Hs. split.
  - destruct (FrameProps.getitem_past_the_end view_range stack_range q Hs)
      as (shown & E & Elast).
    exists shown. split; [exact Elast|exact E].
  - apply FrameProps.getitem_above_len.
Qed.

End Indexing.

Lemma getitem_above_len_raises_witness :
  let range := fun _ : SheetView.t => (npfloat.Fin 0, npfloat.Fin 1) in
  let stack_range := fun _ : list (list Z * SheetView.t) => (npfloat.Fin 0, npfloat.Fin 4) in
  (exists shown,
     SheetViewPlot_getitem range stack_range drawn_view_plot 1 = Py.Ok shown
     /\ SheetViewPlot_getitem range stack_range drawn_view_plot 2 = Py.Ok shown)
  /\ SheetViewPlot_getitem range stack_range drawn_view_plot 3
     = Py.Raise Py.AttributeError.
Proof.
  intros range stack_range.
  destruct (getitem_above_len_raises range stack_range drawn_view_plot 3)
    as (H1 & H2).
  - discriminate.
  - split; [exact H1|]. apply H2. cbn. lia.
Defined.

Lemma update_frame_last_request_wins_witness :
  let range := fun _ : SheetView.t => (npfloat.Fin 0, npfloat.Fin 1) in
  exists p1, update_frame range drawn_overlay_plot 0 = Py.Ok p1
    /\ update_frame range p1 1 = update_frame range drawn_overlay_plot 1
    /\ __len__ p1 = 2%nat.
Proof.
  intros range.
  destruct (update_frame range drawn_overlay_plot 0) as [p1|e] eqn:E;
    [|vm_compute in E; discriminate E].
  exists p1. split; [reflexivity|].
  destruct (update_frame_last_request_wins range drawn_overlay_plot p1 0 1)
    as (H1 & _ & H2).
  - cbn. auto.
  - exact E.
  - split; [exact H1|exact H2].
Defined.

Lemma anim_plays_through_witness :
  let range := fun _ : SheetView.t => (npfloat.Fin 0, npfloat.Fin 1) in
  Animate.anim_frames (__len__ drawn_overlay_plot) (-1) None = [1%Z]
  /\ exists p', Animate.play range drawn_overlay_plot [1%Z] = Py.Ok p'
       /\ update_frame range drawn_overlay_plot 1 = Py.Ok p'.
Proof.
  intros range. split; [reflexivity|].
  destruct (anim_plays_through range drawn_overlay_plot (-1) None) as (_ & _ & H).
  - cbn. auto.
  - cbn. split; [discriminate|]. split; [|exact I].
    split; [discriminate|]. split.
    + eexists. eexists. reflexivity.
    + intros _. eexists. reflexivity.
  - exact H.
Defined.

End PlayProps.

(** *** The intervals of annotations *)

Module AnnotationProps.
Import Samples.

Lemma fold_insert_None (kvs : list (string * Q)) : forall (d : gmap string Q) (k : string),
  ~ In k (map fst kvs) -> d !! k = None ->
  fold_left (fun d kv => <[fst kv := snd kv]> d) kvs d !! k = None.
Proof.
  induction kvs as [|kv rest IH]; intros d k Hk Hd; [exact Hd|].
  cbn. apply IH.
  - intros H. apply Hk. right. exact H.
  - rewrite lookup_insert_ne; [exact Hd|]. intros E. apply Hk. left. exact E.
Qed.

(** A label that is not a dimension of the stack has no value in the key. *)
Lemma key_dict_None (dim_labels : list string) (key : list Q) (k : string) :
  ~ In k dim_labels -> AnnotationPlot.key_dict dim_labels key !! k = None.
Proof.
  intros Hk. unfold AnnotationPlot.key_dict. apply fold_insert_None; [|apply lookup_empty].
  intros H. apply in_map_iff in H as ([k' v] & E & Hin). cbn in E. subst k'.
  apply in_combine_l in Hin. contradiction.
Qed.

Lemma Qle_bool_false (a b : Q) : Qle_bool a b = false <-> (b < a)%Q.
Proof.
  split.
  - intros E. apply Qnot_le_lt. intros H. apply Qle_bool_iff in H. congruence.
  - intros H. destruct (Qle_bool a b) eqn:E; [|reflexivity].
    apply Qle_bool_iff in E. lra.
Qed.

(** One entry of an interval specification: the value of its dimension
    lies above [start] and not above [end]. *)
Lemma within_bounds_spec (kd : gmap string Q) (k : string) (s e : option Q) :
  AnnotationPlot.within_bounds kd (k, (s, e)) = true
  <-> (forall s', s = Some s' -> exists v, kd !! k = Some v /\ (s' < v)%Q)
      /\ (forall e', e = Some e' -> exists v, kd !! k = Some v /\ (v <= e')%Q).
Proof.
  unfold AnnotationPlot.within_bounds. cbn [fst snd].
  rewrite andb_true_iff, !negb_true_iff. split.
  - intros [H1 H2]. split.
    + intros s' ->. destruct (kd !! k) as [v|]; [|discriminate].
      exists v. split; [reflexivity|]. apply Qle_bool_false. exact H1.
    + intros e' ->. destruct (kd !! k) as [v|]; [|discriminate].
      exists v. split; [reflexivity|]. apply negb_false_iff, Qle_bool_iff in H2. exact H2.
  - intros [H1 H2]. split.
    + destruct s as [s'|]; [|reflexivity].
      destruct (H1 s' eq_refl) as (v & -> & Hv). apply Qle_bool_false. exact Hv.
    + destruct e as [e'|]; [|reflexivity].
      destruct (H2 e' eq_refl) as (v & -> & Hv).
      apply negb_false_iff, Qle_bool_iff. exact Hv.
Qed.

(** X13.  An annotation with an interval specification is active at a key
    exactly when, for every dimension named in the specification, the key
    has a value for that dimension and the value lies above the start and
    at most at the end, where these are given: the intervals are open at
    the start and closed at the end.  On a stack whose only dimension is
    ['Default'] every annotation is active. *)
Theorem active_interval_spec (dim_labels : list string) (key : list Q)
    (iv : AnnotationPlot.interval) :
  AnnotationPlot._active_interval dim_labels key (Some iv) = true
  <-> dim_labels = ["Default"%string]
      \/ forall k s e, iv !! k = Some (s, e) ->
           (forall s', s = Some s' ->
              exists v, AnnotationPlot.key_dict dim_labels key !! k = Some v /\ (s' < v)%Q)
           /\ (forall e', e = Some e' ->
              exists v, AnnotationPlot.key_dict dim_labels key !! k = Some v /\ (v <= e')%Q).
Proof.
  unfold AnnotationPlot._active_interval.
  destruct (decide (dim_labels = ["Default"%string])) as [E|NE]; [tauto|].
  rewrite forallb_forall. split.
  - intros H. right. intros k s e Hk. apply within_bounds_spec.
    apply H. apply list_elem_of_In. apply elem_of_map_to_list. exact Hk.
  - intros [E|H]; [contradiction|]. intros [k [s e]] Hin.
    apply within_bounds_spec. apply H.
    apply list_elem_of_In, elem_of_map_to_list in Hin. exact Hin.
Qed.

Lemma warned_fold (dim_labels : list string) (k : string)
    (intervals : list (option AnnotationPlot.interval)) : forall acc : gset string,
  k ∈ acc ->
  k ∈ fold_left
        (fun mismatch_set spec =>
           match spec with
           | None => mismatch_set
           | Some iv =>
               if decide (dim_labels = ["Default"%string]) then mismatch_set
               else mismatch_set ∪ (dom iv ∖ list_to_set dim_labels)
           end)
        intervals acc.
Proof.
  induction intervals as [|spec rest IH]; intros acc Hacc; [exact Hacc|].
  cbn. apply IH. destruct spec as [iv|]; [|exact Hacc].
  destruct (decide _); [exact Hacc|]. set_solver.
Qed.

(** X14.  A label in an interval specification that is not a dimension of
    the stack is reported by [_warn_invalid_intervals] as ignored.  It is
    not ignored: as soon as the entry under that label gives a start or
    an end, the annotation is inactive at every key. *)
Theorem invalid_interval_key_hides (dim_labels : list string)
    (intervals : list (option AnnotationPlot.interval))
    (iv : AnnotationPlot.interval) (k : string) (s e : option Q) :
  dim_labels <> ["Default"%string] ->
  ~ In k dim_labels ->
  In (Some iv) intervals ->
  iv !! k = Some (s, e) ->
  s <> None \/ e <> None ->
  k ∈ AnnotationPlot._warn_invalid_intervals dim_labels intervals
  /\ forall key, AnnotationPlot._active_interval dim_labels key (Some iv) = false.
Proof.
  intros Hd Hk Hin Hiv Hbound. split.
  - unfold AnnotationPlot._warn_invalid_intervals.
    generalize (∅ : gset string).
    induction intervals as [|spec rest IH]; intros acc; [destruct Hin|].
    destruct Hin as [->|Hin]; [|apply IH; exact Hin].
    clear IH. cbn [fold_left]. apply warned_fold.
    destruct (decide _) as [E|_]; [contradiction|]. apply elem_of_union_r, elem_of_difference. split.
    + apply elem_of_dom. eexists. exact Hiv.
    + intros H. apply elem_of_list_to_set, list_elem_of_In in H. contradiction.
  - intros key.
    unfold AnnotationPlot._active_interval.
    destruct (decide _) as [E|_]; [contradiction|].
    apply not_true_iff_false. intros H. rewrite forallb_forall in H.
    specialize (H (k, (s, e))).
    rewrite within_bounds_spec, (key_dict_None dim_labels key k Hk) in H.
    destruct H as [Hs He].
    { apply list_elem_of_In, elem_of_map_to_list. exact Hiv. }
    destruct s as [s'|]; [destruct (Hs s' eq_refl) as (v & [=] & _)|].
    destruct e as [e'|]; [destruct (He e' eq_refl) as (v & [=] & _)|].
    destruct Hbound as [H|H]; apply H; reflexivity.
Qed.

Lemma invalid_interval_key_hides_witness :
  let iv : AnnotationPlot.interval := {[ "Depth"%string := (Some 0%Q, None) ]} in
  "Depth"%string ∈ AnnotationPlot._warn_invalid_intervals ["Time"%string] [Some iv]
  /\ forall key, AnnotationPlot._active_interval ["Time"%string] key (Some iv) = false.
Proof.
  apply (invalid_interval_key_hides ["Time"%string]
           [Some ({[ "Depth"%string := (Some 0%Q, None) ]} : AnnotationPlot.interval)]
           {[ "Depth"%string := (Some 0%Q, None) ]} "Depth"%string (Some 0%Q) None).
  - discriminate.
  - intros [H|[]]. discriminate H.
  - left. reflexivity.
  - apply lookup_singleton_eq.
  - left. discriminate.
Defined.

End AnnotationProps.

(** *** Rotating the values of a curve *)

Module RotateProps.

Lemma slice_from {A} (l : list A) (k : nat) :
  (k <= length l)%nat ->
  Py.slice l (Z.of_nat k) (Z.of_nat (length l)) = drop k l.
Proof.
  intros Hk. unfold Py.slice, Py.clamp_bound. cbv zeta.
  destruct (Z.ltb_spec (Z.of_nat k) 0); [lia|].
  destruct (Z.ltb_spec (Z.of_nat k) 0); [lia|].
  destruct (Z.ltb_spec (Z.of_nat (length l)) (Z.of_nat k)); [lia|].
  destruct (Z.ltb_spec (Z.of_nat (length l)) 0); [lia|].
  destruct (Z.ltb_spec (Z.of_nat (length l)) 0); [lia|].
  destruct (Z.ltb_spec (Z.of_nat (length l)) (Z.of_nat (length l))); [lia|].
  rewrite !Nat2Z.id. apply firstn_all2. rewrite length_skipn. lia.
Qed.

Lemma slice_to {A} (l : list A) (k : nat) :
  (k <= length l)%nat -> Py.slice l 0 (Z.of_nat k) = take k l.
Proof.
  intros Hk. unfold Py.slice, Py.clamp_bound. cbv zeta.
  change (0 <? 0)%Z with false. cbv iota. change (0 <? 0)%Z with false. cbv iota.
  destruct (Z.ltb_spec (Z.of_nat (length l)) 0); [lia|].
  destruct (Z.ltb_spec (Z.of_nat k) 0); [lia|].
  destruct (Z.ltb_spec (Z.of_nat k) 0); [lia|].
  destruct (Z.ltb_spec (Z.of_nat (length l)) (Z.of_nat k)); [lia|].
  rewrite Nat2Z.id. change (Z.to_nat 0) with 0%nat. rewrite Nat.sub_0_r. reflexivity.
Qed.

(** The rotation is the library's rotation by [n mod len] places. *)
Lemma rotate_is_rotate {A} (l : list A) (n : Z) :
  l <> [] ->
  DataCurvePlot._rotate l n
  = Py.Ok (rotate (Z.to_nat (n mod Z.of_nat (length l))) l).
Proof.
  intros Hne. unfold DataCurvePlot._rotate.
  assert (0 < length l)%nat as Hlen by (destruct l; [congruence|cbn; lia]).
  destruct (Nat.eqb_spec (length l) 0); [lia|]. cbv zeta. f_equal.
  pose proof (Z.mod_pos_bound n (Z.of_nat (length l)) ltac:(lia)) as Hm.
  set (k := Z.to_nat (n mod Z.of_nat (length l))).
  assert (n mod Z.of_nat (length l) = Z.of_nat k)%Z as -> by (subst k; lia).
  assert (k < length l)%nat as Hk by (subst k; lia).
  rewrite slice_from, slice_to by lia.
  unfold rotate. rewrite Nat.mod_small by exact Hk. reflexivity.
Qed.

Lemma rotate_rotate {A} (l : list A) (a b : nat) :
  rotate b (rotate a l) = rotate (a + b) l.
Proof.
  apply list_eq. intros i.
  destruct (decide (i < length l)%nat) as [Hi|Hi].
  - rewrite lookup_rotate_r by (rewrite length_rotate; exact Hi).
    rewrite length_rotate.
    rewrite lookup_rotate_r.
    2:{ unfold rotate_nat_add.
        pose proof (Z.mod_pos_bound (Z.of_nat b + Z.of_nat i) (Z.of_nat (length l))
                      ltac:(lia)). lia. }
    rewrite lookup_rotate_r by exact Hi. f_equal.
    unfold rotate_nat_add.
    assert (0 < Z.of_nat (length l))%Z as Hpos by lia.
    rewrite Z2Nat.id by (apply Z.mod_pos_bound; exact Hpos).
    rewrite Zplus_mod_idemp_r. f_equal. f_equal. lia.
  - rewrite !lookup_ge_None_2; [reflexivity| |]; rewrite ?length_rotate; lia.
Qed.

Lemma rotate_multiple {A} (l : list A) (k : nat) :
  (k mod length l = 0)%nat -> rotate k l = l.
Proof. intros E. unfold rotate. rewrite E. cbn. apply app_nil_r. Qed.

(** X15.  Rotating a sequence that is not empty never fails, keeps its
    length and its elements, and rotations add up: rotating by [a] and
    then by [b] is rotating by [a + b].  In particular rotating back by
    [-a] gives the sequence back, and so does rotating by any multiple
    of its length. *)
Theorem rotate_adds_up {A} (seq : list A) (a b : Z) :
  seq <> [] ->
  exists s1, DataCurvePlot._rotate seq a = Py.Ok s1
    /\ length s1 = length seq
    /\ s1 ≡ₚ seq
    /\ DataCurvePlot._rotate s1 b = DataCurvePlot._rotate seq (a + b)
    /\ DataCurvePlot._rotate s1 (- a) = Py.Ok seq
    /\ DataCurvePlot._rotate seq (b * Z.of_nat (length seq)) = Py.Ok seq.
Proof.
  intros Hne.
  assert (0 < Z.of_nat (length seq))%Z as Hpos by (destruct seq; [congruence|cbn; lia]).
  set (len := Z.of_nat (length seq)) in *.
  exists (rotate (Z.to_nat (a mod len)) seq).
  assert (rotate (Z.to_nat (a mod len)) seq <> []) as Hne1.
  { intros E. apply (f_equal length) in E. rewrite length_rotate in E.
    cbn in E. subst len. lia. }
  assert (forall c, DataCurvePlot._rotate (rotate (Z.to_nat (a mod len)) seq) c
                    = DataCurvePlot._rotate seq (a + c)) as Hadd.
  { intros c. rewrite !rotate_is_rotate by assumption.
    rewrite length_rotate. fold len. rewrite rotate_rotate. f_equal.
    unfold rotate. f_equal; f_equal.
    all: rewrite <- Z2Nat.inj_add by (apply Z.mod_pos_bound; exact Hpos).
    all: apply Nat2Z.inj; rewrite !Nat2Z.inj_mod, !Z2Nat.id;
      try (apply Z.mod_pos_bound; exact Hpos);
      try (apply Z.add_nonneg_nonneg; apply Z.mod_pos_bound; exact Hpos).
    all: fold len; rewrite <- Zplus_mod; rewrite Zmod_mod; reflexivity. }
  split; [apply rotate_is_rotate; exact Hne|].
  split; [apply length_rotate|].
  split.
  { unfold rotate. rewrite Permutation_app_comm, take_drop. reflexivity. }
  split; [apply Hadd|].
  assert (forall m, DataCurvePlot._rotate seq (m * len) = Py.Ok seq) as Hmult.
  { intros m. rewrite rotate_is_rotate by exact Hne. fold len.
    rewrite Z_mod_mult. cbn. unfold rotate. cbn.
    rewrite Nat.Div0.mod_0_l. cbn. rewrite app_nil_r. reflexivity. }
  split; [|apply Hmult].
  rewrite Hadd. rewrite Z.add_opp_diag_r. apply (Hmult 0%Z).
Qed.

Lemma rotate_adds_up_witness :
  DataCurvePlot._rotate [1; 2; 3; 4; 5]%nat 2 = Py.Ok [3; 4; 5; 1; 2]%nat
  /\ DataCurvePlot._rotate [3; 4; 5; 1; 2]%nat (-2) = Py.Ok [1; 2; 3; 4; 5]%nat.
Proof.
  split; [reflexivity|].
  destruct (rotate_adds_up [1; 2; 3; 4; 5]%nat 2 0) as (s1 & E & _ & _ & _ & Hback & _);
    [discriminate|].
  vm_compute in E. injection E as <-. exact Hback.
Defined.

End RotateProps.

(** *** The text of table cells *)

Module TableProps.

Lemma slice_prefix_length {A} (l : list A) (hi : Z) :
  Z.of_nat (length (Py.slice l 0 hi))
  = (if (hi <? 0)%Z then Z.max 0 (hi + Z.of_nat (length l))
     else Z.min hi (Z.of_nat (length l)))%Z.
Proof.
  unfold Py.slice, Py.clamp_bound. cbv zeta.
  change (0 <? 0)%Z with false. cbv iota. change (0 <? 0)%Z with false. cbv iota.
  destruct (Z.ltb_spec (Z.of_nat (length l)) 0); [lia|].
  change (Z.to_nat 0) with 0%nat. rewrite Nat.sub_0_r.
  rewrite length_firstn. change (drop 0 l) with l.
  destruct (Z.ltb_spec hi 0).
  - destruct (Z.ltb_spec (hi + Z.of_nat (length l)) 0); [cbn; lia|].
    destruct (Z.ltb_spec (Z.of_nat (length l)) (hi + Z.of_nat (length l))); lia.
  - destruct (Z.ltb_spec hi 0); [lia|].
    destruct (Z.ltb_spec (Z.of_nat (length l)) hi); lia.
Qed.

(** X16.  The text of a table cell is the formatted value itself when
    that is at most [max_value_len] characters long.  A longer text is
    cut and ends in three dots; the result is exactly [max_value_len]
    characters long when [max_value_len] is at least 3, and for a smaller
    [max_value_len] it is longer than [max_value_len]: the text of a cell
    fits exactly when the limit is at least 3 or the formatted value
    fits. *)
Theorem pprint_value_fits {V : Type} (format : V -> list ascii) (max_value_len : Z)
    (value : V) :
  let text := TablePlot.pprint_value format max_value_len value in
  ((Z.of_nat (length (format value)) <= max_value_len)%Z -> text = format value)
  /\ ((max_value_len < Z.of_nat (length (format value)))%Z ->
      text = Py.slice (format value) 0 (max_value_len - 3) ++ list_ascii_of_string "..."
      /\ ((3 <= max_value_len)%Z -> Z.of_nat (length text) = max_value_len))
  /\ ((Z.of_nat (length text) <= max_value_len)%Z
      <-> (3 <= max_value_len)%Z
          \/ (Z.of_nat (length (format value)) <= max_value_len)%Z).
Proof.
  intros text. subst text. unfold TablePlot.pprint_value. cbv zeta.
  pose proof (slice_prefix_length (format value) (max_value_len - 3)) as Hlen.
  destruct (Z.ltb_spec max_value_len (Z.of_nat (length (format value)))) as [Hlong|Hfits].
  - split; [intros H; lia|]. rewrite length_app, Nat2Z.inj_add, Hlen. cbn [length list_ascii_of_string].
    destruct (Z.ltb_spec (max_value_len - 3) 0).
    + split; [split; [reflexivity|lia]|]. split; [lia|intros [H'|H']; lia].
    + split; [split; [reflexivity|lia]|]. split; [lia|intros [H'|H']; lia].
  - split; [reflexivity|]. split; [intros H; lia|]. split; [right; exact Hfits|].
    intros _. exact Hfits.
Qed.

End TableProps.

(** *** Layouts inside a grid *)

Module LayoutProps.

Lemma eqb_neq (a b : string) : String.eqb a b = false -> b <> a.
Proof. intros E ->. rewrite String.eqb_refl in E. discriminate. Qed.

Lemma known_types (layout_type : string) :
  is_Some (LayoutPlot.layout_dict !! layout_type) ->
  layout_type = "Single"%string \/ layout_type = "Dual"%string
  \/ layout_type = "Embedded Dual"%string \/ layout_type = "Triple"%string.
Proof.
  intros [info Hinfo]. unfold LayoutPlot.layout_dict in Hinfo.
  destruct (String.eqb layout_type "Single") eqn:E1;
    [apply String.eqb_eq in E1; auto|].
  destruct (String.eqb layout_type "Dual") eqn:E2;
    [apply String.eqb_eq in E2; auto|].
  destruct (String.eqb layout_type "Embedded Dual") eqn:E3;
    [apply String.eqb_eq in E3; auto|].
  destruct (String.eqb layout_type "Triple") eqn:E4;
    [apply String.eqb_eq in E4; auto|].
  apply eqb_neq in E1, E2, E3, E4.
  rewrite !lookup_insert_ne, lookup_empty in Hinfo by assumption. discriminate.
Qed.

(** X17.  Situating a layout in a grid knows four layout types, and
    raises a [KeyError] for any other, before touching the indices.  For
    the two types with two rows, "Embedded Dual" and "Triple", in a grid
    of width zero it raises a [ZeroDivisionError], from the remainder by
    the width.  For a known type otherwise it succeeds: the layout is set
    to the type; it hands out as many grid indices as the layout has
    slots, which is rows times columns of its shape and agrees with its
    numbers of height and width ratios; the first index is the current
    one; and in a grid of positive width the next index lies beyond the
    current one. *)
Theorem grid_situate_slots (self : LayoutPlot.t) (current_idx : Z)
    (layout_type : string) (subgrid_width : Z) :
  (LayoutPlot.layout_dict !! layout_type = None ->
   LayoutPlot.grid_situate self current_idx layout_type subgrid_width
   = Py.Raise (Py.KeyError layout_type))
  /\ (layout_type = "Embedded Dual"%string \/ layout_type = "Triple"%string ->
      subgrid_width = 0%Z ->
      LayoutPlot.grid_situate self current_idx layout_type subgrid_width
      = Py.Raise Py.ZeroDivisionError)
  /\ (is_Some (LayoutPlot.layout_dict !! layout_type) ->
      layout_type = "Single"%string \/ layout_type = "Dual"%string
      \/ subgrid_width <> 0%Z ->
      exists self' next inds,
        LayoutPlot.grid_situate self current_idx layout_type subgrid_width
        = Py.Ok (self', Some (next, inds))
        /\ LayoutPlot.layout_dict !! layout_type
           = Some (LayoutPlot.mk_info (LayoutPlot.shape self')
                     (LayoutPlot.width_ratios self')
                     (LayoutPlot.height_ratios self') (LayoutPlot.layout_spec self'))
        /\ length inds = length (LayoutPlot.layout_spec self')
        /\ length inds = (fst (LayoutPlot.shape self') * snd (LayoutPlot.shape self'))%nat
        /\ length (LayoutPlot.height_ratios self') = fst (LayoutPlot.shape self')
        /\ length (LayoutPlot.width_ratios self') = snd (LayoutPlot.shape self')
        /\ head inds = Some current_idx
        /\ ((0 < subgrid_width)%Z -> (current_idx < next)%Z)).
Proof.
  split; [|split].
  - intros Hnone. unfold LayoutPlot.grid_situate, LayoutPlot._set_layout.
    rewrite Hnone. reflexivity.
  - intros [->| ->] ->; reflexivity.
  - intros Hknown Hcase.
    destruct (known_types layout_type Hknown) as [->|[->|[->| ->]]].
    + eexists. eexists. eexists. split; [reflexivity|]. cbn. repeat split; lia.
    + eexists. eexists. eexists. split; [reflexivity|]. cbn. repeat split; lia.
    + destruct Hcase as [Hc|[Hc|Hw]]; [discriminate Hc|discriminate Hc|].
      unfold LayoutPlot.grid_situate, LayoutPlot.mod_. cbn [String.eqb Ascii.eqb Bool.eqb].
      change (LayoutPlot._set_layout self "Embedded Dual")
        with (Py.Ok (LayoutPlot.mk [None; Some "main"%string] (2, 1)%nat [4%Z] [1%Z; 4%Z])).
      cbn [Py.bind]. destruct (Z.eqb_spec subgrid_width 0) as [E|_]; [contradiction|].
      cbn [Py.bind]. eexists. eexists. eexists. split; [reflexivity|].
      cbn. repeat split; try lia. intros Hpos.
      destruct ((current_idx + 1) mod subgrid_width =? 0)%Z; lia.
    + destruct Hcase as [Hc|[Hc|Hw]]; [discriminate Hc|discriminate Hc|].
      unfold LayoutPlot.grid_situate, LayoutPlot.mod_. cbn [String.eqb Ascii.eqb Bool.eqb].
      change (LayoutPlot._set_layout self "Triple")
        with (Py.Ok (LayoutPlot.mk
                       [Some "top"%string; None; Some "main"%string; Some "right"%string]
                       (2, 2)%nat [4%Z; 1%Z] [1%Z; 4%Z])).
      cbn [Py.bind]. destruct (Z.eqb_spec subgrid_width 0) as [E|_]; [contradiction|].
      cbn [Py.bind]. eexists. eexists. eexists. split; [reflexivity|].
      cbn. repeat split; try lia. intros Hpos.
      destruct ((current_idx + 2) mod subgrid_width =? 0)%Z; lia.
Qed.

End LayoutProps.

(** *** The keys of a grid *)

Module SnapProps.
Import Samples BoundsFacts.

(** The centre of a cell lies in that cell, along either axis. *)
Lemma floor_of_centre_x (l d : Q) (n : Z) :
  ~ (d == 0)%Q -> Qfloor ((l + (inject_Z n + (1 # 2)) / d - l) * d) = n.
Proof.
  intros Hd. rewrite <- (SliceProps.Qfloor_plus_half n) at 2.
  apply Qfloor_comp. field. exact Hd.
Qed.

Lemma floor_of_centre_y (t d : Q) (n : Z) :
  ~ (d == 0)%Q -> Qfloor ((t - (t - (inject_Z n + (1 # 2)) / d)) * d) = n.
Proof.
  intros Hd. rewrite <- (SliceProps.Qfloor_plus_half n) at 2.
  apply Qfloor_comp. field. exact Hd.
Qed.

Section Grid.
Context {V : Type}.
Implicit Types (g : ProjectionGrid.t V) (k : Q * Q) (v : V).

(** Snapping a pair of coordinates twice is snapping it once. *)
Lemma transform_indices_idem g k k' :
  ProjectionGrid._transform_indices g k = Py.Ok k' ->
  ProjectionGrid._transform_indices g k' = Py.Ok k'.
Proof.
  unfold ProjectionGrid._transform_indices, ProjectionGrid._transform_value,
    SheetCoordinateSystem.closest_cell_center, SheetCoordinateSystem.matrixidx2sheet,
    SheetCoordinateSystem.sheet2matrixidx, SheetCoordinateSystem.sheet2matrix, Py.div.
  destruct (Qeq_bool (SheetCoordinateSystem.xdensity (ProjectionGrid.scs g)) 0) eqn:Ex;
    [discriminate|].
  destruct (Qeq_bool (SheetCoordinateSystem.ydensity (ProjectionGrid.scs g)) 0) eqn:Ey;
    [discriminate|].
  cbn [Py.bind fst snd]. intros [= <-]. cbn [fst snd].
  assert (~ (SheetCoordinateSystem.xdensity (ProjectionGrid.scs g) == 0)%Q) as Hx.
  { intros H. apply Qeq_bool_iff in H. congruence. }
  assert (~ (SheetCoordinateSystem.ydensity (ProjectionGrid.scs g) == 0)%Q) as Hy.
  { intros H. apply Qeq_bool_iff in H. congruence. }
  rewrite (floor_of_centre_x _ _ _ Hx), (floor_of_centre_y _ _ _ Hy). reflexivity.
Qed.

Lemma store_unsorted_In k v (its : list (Q * Q * V)) (kv : Q * Q * V) :
  In kv (ProjectionGrid.store_unsorted k v its) -> kv = (k, v) \/ In kv its.
Proof.
  unfold ProjectionGrid.store_unsorted. destruct (existsb _ its).
  - intros H. apply in_map_iff in H as (kv' & E & Hin).
    destruct (ProjectionGrid.key_eqb k (fst kv')); [left; congruence|right; congruence].
  - intros H. apply in_app_or in H as [H|[H|[]]]; [right; exact H|left; congruence].
Qed.

(** An insertion leaves the coordinate system alone, and every entry it
    leaves in the grid was there before or sits at a snapped key. *)
Lemma add_item_entries g k v (sort : bool) :
  ProjectionGrid.scs (fst (ProjectionGrid._add_item g k v sort)) = ProjectionGrid.scs g
  /\ forall kv, In kv (ProjectionGrid.items (fst (ProjectionGrid._add_item g k v sort))) ->
       In kv (ProjectionGrid.items g) \/ GridStates.snapped g (fst kv).
Proof.
  unfold ProjectionGrid._add_item.
  set (g1 := if negb _ then ProjectionGrid.warning g ProjectionGrid.outside_msg else g).
  assert (ProjectionGrid.scs g1 = ProjectionGrid.scs g
          /\ ProjectionGrid.items g1 = ProjectionGrid.items g
          /\ ProjectionGrid._transform_indices g1 = ProjectionGrid._transform_indices g)
    as (Hscs & Hits & Htr).
  { subst g1. destruct (negb _); repeat split; reflexivity. }
  destruct (ProjectionGrid._item_check g1 k v) as [[]|e];
    [|split; [exact Hscs|intros kv H; left; rewrite <- Hits; exact H]].
  destruct (ProjectionGrid._transform_indices g1 k) as [k'|e] eqn:Ek;
    [|split; [exact Hscs|intros kv H; left; rewrite <- Hits; exact H]].
  rewrite Htr in Ek. apply transform_indices_idem in Ek.
  unfold ProjectionGrid.super_add_item.
  destruct (ProjectionGrid._item_check g1 k' v) as [[]|e];
    [|split; [exact Hscs|intros kv H; left; rewrite <- Hits; exact H]].
  cbn [fst]. split; [exact Hscs|]. cbn [ProjectionGrid.items ProjectionGrid.set_items].
  rewrite Hits. intros kv H. destruct sort.
  - apply StackProps.update_item_In in H as [->|H]; [right; exact Ek|left; exact H].
  - apply store_unsorted_In in H as [->|H]; [right; exact Ek|left; exact H].
Qed.

(** X18.  Every key of a grid is the centre of a cell of its coordinate
    system: snapping it again leaves it where it is.  This holds of every
    grid that arises from a new one by insertions, whether they are
    stored or refused, sorted or not, inside the bounds or outside; and
    snapping any pair of coordinates twice gives what snapping it once
    gives. *)
Theorem grid_keys_are_cell_centres g :
  GridStates.reachable g ->
  Forall (fun kv => GridStates.snapped g (fst kv)) (ProjectionGrid.items g)
  /\ forall k k', ProjectionGrid._transform_indices g k = Py.Ok k' ->
                  ProjectionGrid._transform_indices g k' = Py.Ok k'.
Proof.
  intros Hr. split; [|apply transform_indices_idem].
  induction Hr as [bnds shape dt g Hinit|g k v sort _ IH].
  - unfold ProjectionGrid.__init__ in Hinit.
    destruct (BoundingBox.lbrt bnds) as [[[l b] r] t]. destruct shape as [d1 d2].
    destruct (Py.div _ (r - l)) as [xd|e]; cbn [Py.bind] in Hinit; [|discriminate].
    destruct (Py.div _ (t - b)) as [yd|e]; cbn [Py.bind] in Hinit; [|discriminate].
    destruct (SheetCoordinateSystem.__init__ _ xd yd) as [cs|e];
      cbn [Py.bind] in Hinit; [|discriminate].
    injection Hinit as <-. constructor.
  - destruct (add_item_entries g k v sort) as [Hscs Hin].
    apply List.Forall_forall. intros kv Hkv.
    unfold GridStates.snapped, ProjectionGrid._transform_indices,
      ProjectionGrid._transform_value. rewrite Hscs.
    destruct (Hin kv Hkv) as [Hold|Hnew]; [|exact Hnew].
    rewrite List.Forall_forall in IH. exact (IH kv Hold).
Qed.

End Grid.

Lemma grid_keys_are_cell_centres_witness :
  exists g0 : ProjectionGrid.t nat,
    ProjectionGrid.__init__ unit_box (2, 2)%nat None = Py.Ok g0
    /\ let g := fst (ProjectionGrid._add_item g0 (5, 1 # 3)%Q 42%nat true) in
       length (ProjectionGrid.items g) = 1%nat
       /\ Forall (fun kv => GridStates.snapped g (fst kv)) (ProjectionGrid.items g).
Proof.
  eexists. split; [reflexivity|]. split; [reflexivity|].
  apply grid_keys_are_cell_centres.
  apply GridStates.reach_add.
  apply (GridStates.reach_init unit_box (2, 2)%nat None). reflexivity.
Defined.

End SnapProps.

(** *** Frame updates of layouts and grids *)

Module CompositeProps.
Import Samples Plots.

Section Frames.
Variable view_range : SheetView.t -> npfloat.t * npfloat.t.

Lemma clamp_frame_from_last (len : nat) (n : Z) :
  (Z.of_nat len - 1 <= n)%Z -> clamp_frame len n = (Z.of_nat len - 1)%Z.
Proof.
  intros H. unfold clamp_frame.
  destruct (Z.ltb_spec n (Z.of_nat len)); lia.
Qed.

(** From its last frame on, a renderer shows its last frame. *)
Lemma update_frame_from_last (p : plot) (n m : Z) :
  (Z.of_nat (__len__ p) - 1 <= n)%Z -> (Z.of_nat (__len__ p) - 1 <= m)%Z ->
  update_frame view_range p n = update_frame view_range p m.
Proof.
  intros Hn Hm. destruct p as [q|q|q|stack plots|E S entries body state];
    cbn [update_frame __len__] in *.
  - unfold SheetViewPlot_update_frame.
    rewrite (clamp_frame_from_last _ _ Hn), (clamp_frame_from_last _ _ Hm). reflexivity.
  - unfold SheetPointsPlot_update_frame.
    rewrite (clamp_frame_from_last _ _ Hn), (clamp_frame_from_last _ _ Hm). reflexivity.
  - unfold SheetLinesPlot_update_frame.
    rewrite (clamp_frame_from_last _ _ Hn), (clamp_frame_from_last _ _ Hm). reflexivity.
  - rewrite (clamp_frame_from_last _ _ Hn), (clamp_frame_from_last _ _ Hm). reflexivity.
  - rewrite (clamp_frame_from_last _ _ Hn), (clamp_frame_from_last _ _ Hm). reflexivity.
Qed.

Lemma mapM_ext {A B} (f g : A -> Py.result B) (l : list A) :
  Forall (fun x => f x = g x) l -> Py.mapM f l = Py.mapM g l.
Proof.
  induction 1 as [|x rest Hx _ IH]; [reflexivity|]. cbn. rewrite Hx, IH. reflexivity.
Qed.

Lemma LayoutPlot_len_pos (l : Composite.LayoutPlot) : (1 <= Composite.LayoutPlot_len l)%nat.
Proof.
  unfold Composite.LayoutPlot_len. rewrite list_max_app. cbn. lia.
Qed.

Lemma GridLayoutPlot_len_ge (g : Composite.GridLayoutPlot) :
  (1 <= Composite.GridLayoutPlot_len g)%nat
  /\ Forall (fun cl => (Composite.LayoutPlot_len (snd cl) <= Composite.GridLayoutPlot_len g)%nat)
       (Composite.grid_subplots g).
Proof.
  unfold Composite.GridLayoutPlot_len. rewrite list_max_app. split; [cbn; lia|].
  apply List.Forall_forall. intros cl Hin.
  assert (Composite.LayoutPlot_len (snd cl)
          <= list_max (map (fun cl => Composite.LayoutPlot_len (snd cl))
                         (Composite.grid_subplots g)))%nat; [|lia].
  pose proof (proj1 (list_max_le _ _) (Nat.le_refl
    (list_max (map (fun cl => Composite.LayoutPlot_len (snd cl))
                 (Composite.grid_subplots g))))) as Hall.
  rewrite List.Forall_forall in Hall. apply Hall.
  apply in_map_iff. exists cl. split; [reflexivity|exact Hin].
Qed.

(** A layout shows the same from the last frame it reports on. *)
Lemma layout_update_from_last (l : Composite.LayoutPlot) (n m : Z) :
  Composite.covers l ->
  (Z.of_nat (Composite.LayoutPlot_len l) - 1 <= n)%Z ->
  (Z.of_nat (Composite.LayoutPlot_len l) - 1 <= m)%Z ->
  Composite.LayoutPlot_update_frame view_range l n
  = Composite.LayoutPlot_update_frame view_range l m.
Proof.
  intros Hc Hn Hm. unfold Composite.LayoutPlot_update_frame.
  rewrite (mapM_ext _
             (fun ps => match snd ps with
                        | None => Py.Ok ps
                        | Some subplot =>
                            let* subplot' := update_frame view_range subplot m in
                            Py.Ok (fst ps, Some subplot')
                        end)); [reflexivity|].
  eapply Forall_impl; [exact Hc|]. cbn. intros [pos [p|]] Hp; cbn in *; [|reflexivity].
  rewrite (update_frame_from_last p n m); [reflexivity|lia|lia].
Qed.

(** X19.  The renderers of layouts and of grids do not clamp the frame
    number themselves: they hand it to every subplot, and each subplot
    clamps it against its own number of frames.  A grid reports the
    largest number of frames among its layouts, at least one; when no
    subplot of a layout has more frames than that layout reports, an
    update of the grid to a frame number from its frame count on leaves
    every subplot as the update to its last frame does, and the same
    holds of each layout. *)
Theorem grid_update_frame_clamps (g : Composite.GridLayoutPlot) (n : Z) :
  Forall (fun cl => Composite.covers (snd cl)) (Composite.grid_subplots g) ->
  (Z.of_nat (Composite.GridLayoutPlot_len g) <= n)%Z ->
  (1 <= Composite.GridLayoutPlot_len g)%nat
  /\ Composite.GridLayoutPlot_update_frame view_range g n
     = Composite.GridLayoutPlot_update_frame view_range g
         (Z.of_nat (Composite.GridLayoutPlot_len g) - 1)
  /\ Forall (fun cl =>
               Composite.LayoutPlot_update_frame view_range (snd cl) n
               = Composite.LayoutPlot_update_frame view_range (snd cl)
                   (Z.of_nat (Composite.LayoutPlot_len (snd cl)) - 1))
       (Composite.grid_subplots g).
Proof.
  intros Hc Hn. destruct (GridLayoutPlot_len_ge g) as [Hpos Hle].
  split; [exact Hpos|]. split.
  - unfold Composite.GridLayoutPlot_update_frame.
    rewrite (mapM_ext _
               (fun cl => let* l' := Composite.LayoutPlot_update_frame view_range (snd cl)
                                       (Z.of_nat (Composite.GridLayoutPlot_len g) - 1) in
                          Py.Ok (fst cl, l'))); [reflexivity|].
    rewrite List.Forall_forall in Hc, Hle. apply List.Forall_forall. intros cl Hin.
    specialize (Hc cl Hin). specialize (Hle cl Hin).
    rewrite (layout_update_from_last (snd cl) n
               (Z.of_nat (Composite.GridLayoutPlot_len g) - 1)); [reflexivity|exact Hc|lia|lia].
  - rewrite List.Forall_forall in Hc, Hle. apply List.Forall_forall. intros cl Hin.
    specialize (Hc cl Hin). specialize (Hle cl Hin).
    apply layout_update_from_last; [exact Hc|lia|lia].
Qed.

End Frames.

Lemma grid_update_frame_clamps_witness :
  let range := fun _ : SheetView.t => (npfloat.Fin 0, npfloat.Fin 1) in
  let l := Composite.mk_layout [Composite.Stacked 2]
             [("main"%string, Some (OfViews drawn_view_plot)); ("right"%string, None)] in
  let g := Composite.mk_grid [((0, 0)%nat, l)] in
  Composite.GridLayoutPlot_len g = 2%nat
  /\ Composite.GridLayoutPlot_update_frame range g 7
     = Composite.GridLayoutPlot_update_frame range g 1.
Proof.
  intros range l g. split; [reflexivity|].
  destruct (grid_update_frame_clamps range g 7) as (_ & H & _).
  - repeat constructor.
  - cbn. lia.
  - exact H.
Defined.

End CompositeProps.

(** *** Slicing a view by a region *)

Module RegionProps.
Import Samples BoundsFacts.

Lemma max_ge (a b : Q) : (a <= Py.max a b)%Q.
Proof.
  unfold Py.max. destruct (Qle_bool b a) eqn:E; [apply Qle_refl|].
  apply Qlt_le_weak, Qnot_le_lt. intros H. apply Qle_bool_iff in H. congruence.
Qed.

Lemma min_le (a b : Q) : (Py.min a b <= a)%Q.
Proof.
  unfold Py.min. destruct (Qle_bool a b) eqn:E; [apply Qle_refl|].
  apply Qlt_le_weak, Qnot_le_lt. intros H. apply Qle_bool_iff in H. congruence.
Qed.

Lemma of_points_ordered (x0 y0 x1 y1 : Q) :
  (x0 < x1)%Q -> (y0 < y1)%Q ->
  BoundingBox.of_points (x0, y0) (x1, y1) = BoundingBox.mk x0 y0 x1 y1.
Proof.
  intros Hx Hy.
  exact (SliceProps.of_points_corners (BoundingBox.mk x0 y0 x1 y1) (conj Hx Hy)).
Qed.

(** Slicing by a pair of ranges builds a view on the part of the array cut
    out for the overlap of the ranges and the bounds. *)
Lemma getitem_slices (v : SheetView.t) (xstart xstop ystart ystop : option Q) :
  let l := BoundingBox.left (SheetView.bounds v) in
  let b := BoundingBox.bottom (SheetView.bounds v) in
  let r := BoundingBox.right (SheetView.bounds v) in
  let t := BoundingBox.top (SheetView.bounds v) in
  let x0 := match xstart with None => l | Some s => Py.max l s end in
  let x1 := match xstop with None => r | Some s => Py.min r s end in
  let y0 := match ystart with None => b | Some s => Py.max b s end in
  let y1 := match ystop with None => t | Some s => Py.min t s end in
  let region := BoundingBox.mk x0 y0 x1 y1 in
  let part := SheetCoordinateSystem.submatrix
                (SheetCoordinateSystem.Slice region (SheetView.scs v)) (SheetView.data v) in
  (x0 < x1)%Q -> (y0 < y1)%Q ->
  SheetView.__getitem__ v
    (SheetView.Tuple [SheetView.Slc xstart xstop; SheetView.Slc ystart ystop])
  = Py.bind
      (SheetView.__init__ (Some part) region
         {| SheetLayer.kw_roi_bounds := None;
            SheetLayer.kw_title := None;
            SheetLayer.kw_style := Some (SheetView.style v);
            SheetLayer.kw_metadata := Some (SheetView.metadata v);
            SheetLayer.kw_cyclic_range := SheetView.cyclic_range v |})
      (fun w => Py.Ok (SheetView.Sub w)).
Proof.
  intros l b r t x0 x1 y0 y1 region part Hx Hy.
  unfold SheetView.__getitem__. cbn [existsb forallb SheetView.is_slice negb orb andb].
  unfold BoundingBox.lbrt at 1. fold l b r t. cbv zeta. fold x0 x1 y0 y1.
  rewrite (of_points_ordered x0 y0 x1 y1 Hx Hy). reflexivity.
Qed.

(** X20.  Slicing a view by a pair of ranges whose region overlaps the
    bounds of the view in more than a line works on the overlap: the
    region runs from the larger of the two left (bottom) edges to the
    smaller of the two right (top) edges, an omitted limit standing for
    the edge of the view, and so lies within the bounds of the view.  When
    the part of the array cut out for that region has a row, the result is
    a view on that part; its bounds are the region when the part also has a
    column.  The cyclic range, the style and the metadata are those of the
    view; the region of interest is not kept but set to the region, and
    the title is dropped.  When the region is so thin that the part cut
    out has no row, slicing raises a [ZeroDivisionError]. *)
Theorem getitem_region_is_overlap (v : SheetView.t) (xstart xstop ystart ystop : option Q) :
  let l := BoundingBox.left (SheetView.bounds v) in
  let b := BoundingBox.bottom (SheetView.bounds v) in
  let r := BoundingBox.right (SheetView.bounds v) in
  let t := BoundingBox.top (SheetView.bounds v) in
  let x0 := match xstart with None => l | Some s => Py.max l s end in
  let x1 := match xstop with None => r | Some s => Py.min r s end in
  let y0 := match ystart with None => b | Some s => Py.max b s end in
  let y1 := match ystop with None => t | Some s => Py.min t s end in
  let region := BoundingBox.mk x0 y0 x1 y1 in
  let part := SheetCoordinateSystem.submatrix
                (SheetCoordinateSystem.Slice region (SheetView.scs v)) (SheetView.data v) in
  (x0 < x1)%Q -> (y0 < y1)%Q ->
  ((l <= x0)%Q /\ (x1 <= r)%Q /\ (b <= y0)%Q /\ (y1 <= t)%Q)
  /\ (length (ndarray.cells part) <> 0%nat ->
      exists w,
        SheetView.__getitem__ v
          (SheetView.Tuple [SheetView.Slc xstart xstop; SheetView.Slc ystart ystop])
        = Py.Ok (SheetView.Sub w)
        /\ SheetView.data w = part
        /\ (ndarray.width part <> 0%nat -> SheetView.bounds w = region)
        /\ SheetView.roi_bounds w = region
        /\ SheetLayer.title (SheetView.attrs w) = None
        /\ SheetView.cyclic_range w = SheetView.cyclic_range v
        /\ SheetView.style w = SheetView.style v
        /\ SheetView.metadata w = SheetView.metadata v)
  /\ (length (ndarray.cells part) = 0%nat ->
      SheetView.__getitem__ v
        (SheetView.Tuple [SheetView.Slc xstart xstop; SheetView.Slc ystart ystop])
      = Py.Raise Py.ZeroDivisionError).
Proof.
  intros l b r t x0 x1 y0 y1 region part Hx Hy.
  split.
  { split; [subst x0; destruct xstart; [apply max_ge|apply Qle_refl]|].
    split; [subst x1; destruct xstop; [apply min_le|apply Qle_refl]|].
    split; [subst y0; destruct ystart; [apply max_ge|apply Qle_refl]|].
    subst y1; destruct ystop; [apply min_le|apply Qle_refl]. }
  assert (BoundingBox.nondegenerate region) as Hnd by (split; [exact Hx|exact Hy]).
  rewrite (getitem_slices v xstart xstop ystart ystop Hx Hy).
  fold l b r t. fold x0 x1 y0 y1. fold region. fold part.
  split.
  - intros Hrows.
    match goal with
    | |- context [SheetView.__init__ (Some part) region ?kw] =>
        destruct (DensityProps.init_total part region kw Hnd Hrows)
          as (w & Ew & Hdata & Hcy & Hroi & Hst & Hm & Ht & Hb)
    end.
    rewrite Ew. cbn [Py.bind]. exists w. split; [reflexivity|].
    split; [exact Hdata|]. split; [exact Hb|]. split; [exact Hroi|].
    split; [exact Ht|]. split; [exact Hcy|]. split; [exact Hst|exact Hm].
  - intros Hrows. rewrite (DensityProps.init_unfold part region _ Hnd).
    rewrite DensityProps.scs_init_zero; [reflexivity|].
    cbn [ndarray.shape fst]. rewrite Hrows. unfold Qdiv. cbn [Z.of_nat]. ring.
Qed.

Lemma getitem_region_is_overlap_witness :
  (exists w,
     SheetView.__getitem__ (view12 (row2 3 7))
       (SheetView.Tuple [SheetView.Slc (Some (1 # 2)) (Some 5%Q); SheetView.Slc None None])
     = Py.Ok (SheetView.Sub w)
     /\ SheetView.data w = ndarray.mk [[npfloat.Fin 3]] 1
     /\ SheetView.bounds w = BoundingBox.mk (Py.max 0 (1 # 2)) 0 (Py.min 1 5) 1)
  /\ SheetView.__getitem__ (view22 square4)
       (SheetView.Tuple [SheetView.Slc (Some 0%Q) (Some (1 # 10));
                         SheetView.Slc (Some 0%Q) (Some (1 # 10))])
     = Py.Raise Py.ZeroDivisionError.
Proof.
  split.
  - destruct (getitem_region_is_overlap (view12 (row2 3 7))
                (Some (1 # 2)) (Some 5%Q) None None eq_refl eq_refl)
      as (_ & Hok & _).
    destruct Hok as (w & E & Hd & Hb & _); [discriminate|].
    exists w. split; [exact E|]. split; [exact Hd|]. apply Hb. discriminate.
  - apply (getitem_region_is_overlap (view22 square4)
             (Some 0%Q) (Some (1 # 10)) (Some 0%Q) (Some (1 # 10)) eq_refl eq_refl).
    reflexivity.
Defined.

End RegionProps.

(** *** Drawing a renderer *)

Module DrawProps.
Import Samples Plots.

Section Drawing.
Variable view_range : SheetView.t -> npfloat.t * npfloat.t.
Variable stack_range : list (list Z * SheetView.t) -> npfloat.t * npfloat.t.

Lemma top_nonempty {K V : Type} (items : list (K * V)) :
  items <> [] -> exists v, NdMapping.top items = Some v.
Proof.
  intros Hne. destruct (NdMapping.top items) as [v|] eqn:E; [exists v; reflexivity|].
  unfold NdMapping.top in E. apply last_None in E.
  exfalso. exact (FrameProps.values_nonempty _ Hne E).
Qed.

Lemma drawn_axis_title (show_title : bool) (zorder : Z) (h : handles)
    (title : option string) (key : string) (a : artist) :
  key <> "title"%string ->
  drawn_title show_title zorder (<[key := a]> (axis_handles show_title h title)).
Proof.
  intros Hk Hshow. apply andb_true_iff in Hshow as [Hshow _].
  unfold axis_handles. rewrite Hshow.
  eexists. rewrite lookup_insert_ne by exact Hk. apply lookup_insert_eq.
Qed.

Lemma points_call_ready (q : SheetPointsPlot) :
  pt_stack q <> [] ->
  exists q', SheetPointsPlot_call q = Py.Ok q'
             /\ pt_stack q' = pt_stack q /\ ready (OfPoints q').
Proof.
  intros Hs. unfold SheetPointsPlot_call.
  destruct (top_nonempty _ Hs) as [v ->].
  eexists. split; [reflexivity|]. split; [reflexivity|]. cbn. split; [exact Hs|]. split.
  - eexists. apply lookup_insert_eq.
  - apply drawn_axis_title. discriminate.
Qed.

Lemma lines_call_ready (q : SheetLinesPlot) :
  ln_stack q <> [] ->
  exists q', SheetLinesPlot_call q = Py.Ok q'
             /\ ln_stack q' = ln_stack q /\ ready (OfLines q').
Proof.
  intros Hs. unfold SheetLinesPlot_call.
  destruct (top_nonempty _ Hs) as [v ->].
  eexists. split; [reflexivity|]. split; [reflexivity|]. cbn. split; [exact Hs|]. split.
  - eexists. apply lookup_insert_eq.
  - apply drawn_axis_title. discriminate.
Qed.

(** X21.  Drawing one of the three renderers of sheet layers over a stack
    that is not empty succeeds, leaves the stack as it is, and creates
    every handle that [update_frame] touches: after it, the renderer can
    be set to any frame number from zero on without an error. *)
Theorem drawing_readies_updates :
  (forall q n, sv_stack q <> [] -> (0 <= n)%Z ->
     exists q' q'', SheetViewPlot_call view_range stack_range q = Py.Ok q'
       /\ sv_stack q' = sv_stack q
       /\ SheetViewPlot_update_frame view_range q' n = Py.Ok q'')
  /\ (forall q n, pt_stack q <> [] -> (0 <= n)%Z ->
     exists q' q'', SheetPointsPlot_call q = Py.Ok q'
       /\ pt_stack q' = pt_stack q
       /\ SheetPointsPlot_update_frame q' n = Py.Ok q'')
  /\ (forall q n, ln_stack q <> [] -> (0 <= n)%Z ->
     exists q' q'', SheetLinesPlot_call q = Py.Ok q'
       /\ ln_stack q' = ln_stack q
       /\ SheetLinesPlot_update_frame q' n = Py.Ok q'').
Proof.
  split; [|split].
  - intros q n Hs Hn.
    destruct (FrameProps.call_ready view_range stack_range q Hs) as (q' & E & Hst & Hr).
    destruct (FrameProps.ready_update_Ok view_range (OfViews q') Hr n Hn) as [p' Hp'].
    cbn [update_frame] in Hp'.
    destruct (SheetViewPlot_update_frame view_range q' n) as [q''|e] eqn:Eu; [|discriminate].
    exists q', q''. split; [exact E|]. split; [exact Hst|exact Eu].
  - intros q n Hs Hn.
    destruct (points_call_ready q Hs) as (q' & E & Hst & Hr).
    destruct (FrameProps.ready_update_Ok view_range (OfPoints q') Hr n Hn) as [p' Hp'].
    cbn [update_frame] in Hp'.
    destruct (SheetPointsPlot_update_frame q' n) as [q''|e] eqn:Eu; [|discriminate].
    exists q', q''. split; [exact E|]. split; [exact Hst|exact Eu].
  - intros q n Hs Hn.
    destruct (lines_call_ready q Hs) as (q' & E & Hst & Hr).
    destruct (FrameProps.ready_update_Ok view_range (OfLines q') Hr n Hn) as [p' Hp'].
    cbn [update_frame] in Hp'.
    destruct (SheetLinesPlot_update_frame q' n) as [q''|e] eqn:Eu; [|discriminate].
    exists q', q''. split; [exact E|]. split; [exact Hst|exact Eu].
Qed.

End Drawing.

End DrawProps.
